(** * Patterns: the three-layer transpiler pipeline

    A shallow embedding of [src/app.py], [src/patterns/composition.py],
    [src/patterns/config.py] and the parts of [src/patterns/code.py] and
    [src/patterns/algebra.py] the pipeline calls.

    Python [str] values are modelled as [string]: sequences of 8-bit
    characters, read as the code points U+0000..U+00FF.  Exceptions are
    modelled with an error monad; everything outside the repository (the
    chat model, the process environment, the [json] module, [repr] of
    containers) is gathered in one record, [Env]. *)

From Stdlib Require Import String Ascii List ZArith Lia Bool Arith DecimalString.
From Stdlib Require DecimalFacts DecimalPos DecimalZ.
Import ListNotations.
Open Scope string_scope.
Open Scope nat_scope.

(** ** Python string primitives *)

Module PyStr.

(** [str.isspace] on one character, for code points below 256:
    TAB..CR, FS..US, SPACE, NEL (0x85) and NBSP (0xA0).  The regular
    expression class [\s] on [str] patterns is the same set. *)
Definition isspace (c : ascii) : bool :=
  let n := nat_of_ascii c in
  ((9 <=? n) && (n <=? 13)) || ((28 <=? n) && (n <=? 32))
  || (n =? 133) || (n =? 160).

(** [s.lstrip()] *)
Fixpoint lstrip (s : string) : string :=
  match s with
  | String c s' => if isspace c then lstrip s' else s
  | EmptyString => EmptyString
  end.

(** [s.rstrip()] *)
Fixpoint rstrip (s : string) : string :=
  match s with
  | String c s' =>
      match rstrip s' with
      | EmptyString => if isspace c then EmptyString else String c EmptyString
      | r => String c r
      end
  | EmptyString => EmptyString
  end.

(** [s.strip()] *)
Definition strip (s : string) : string := rstrip (lstrip s).

(** What follows the prefix [p] in [s], when [s] starts with [p]. *)
Fixpoint after_prefix (p s : string) : option string :=
  match p, s with
  | EmptyString, _ => Some s
  | String a p', String b s' => if Ascii.eqb a b then after_prefix p' s' else None
  | String _ _, EmptyString => None
  end.

(** [s.startswith(p)] *)
Definition startswith (s p : string) : bool :=
  match after_prefix p s with
  | Some _ => true
  | None => false
  end.

(** [s[n:]] for a non-negative literal [n] *)
Fixpoint drop (n : nat) (s : string) : string :=
  match n, s with
  | S k, String _ s' => drop k s'
  | _, _ => s
  end.

(** [s[:n]] for a non-negative [n] *)
Fixpoint take (n : nat) (s : string) : string :=
  match n, s with
  | S k, String c s' => String c (take k s')
  | _, _ => EmptyString
  end.

(** [s[:-n]] for a positive literal [n]: the index [-n] is clamped at 0. *)
Definition drop_last (n : nat) (s : string) : string :=
  take (String.length s - n) s.

(** [s.endswith(p)] *)
Definition endswith (s p : string) : bool :=
  String.eqb (drop (String.length s - String.length p) s) p
  && (String.length p <=? String.length s).

(** [p in s] *)
Fixpoint contains (p s : string) : bool :=
  startswith s p ||
  match s with
  | String _ s' => contains p s'
  | EmptyString => false
  end.

(** [s.replace(old, new)] for a non-empty [old]: occurrences are found
    left to right and do not overlap.  [skip] counts the characters of
    the occurrence just replaced that are still to be passed over. *)
Fixpoint replace_go (old new : string) (skip : nat) (s : string) : string :=
  match s with
  | EmptyString => EmptyString
  | String c s' =>
      match skip with
      | S k => replace_go old new k s'
      | O =>
          if startswith s old
          then new ++ replace_go old new (String.length old - 1) s'
          else String c (replace_go old new 0 s')
      end
  end.

Definition replace (old new s : string) : string := replace_go old new 0 s.

(** [c.lower()] for one character below U+0100: A..Z, and the Latin-1
    capitals U+00C0..U+00DE without the multiplication sign U+00D7. *)
Definition lower_char (c : ascii) : ascii :=
  let n := nat_of_ascii c in
  if ((65 <=? n) && (n <=? 90))
     || ((192 <=? n) && (n <=? 222) && negb (n =? 215))
  then ascii_of_nat (n + 32) else c.

(** [s.lower()] *)
Fixpoint lower (s : string) : string :=
  match s with
  | String c s' => String (lower_char c) (lower s')
  | EmptyString => EmptyString
  end.

(** [str(n)] for an [int] *)
Definition str_of_int (z : Z) : string := NilZero.string_of_int (Z.to_int z).

(** [s.split(sep)] for a one-character [sep]: the pieces between the
    separators, an empty text giving one empty piece. *)
Fixpoint split (sep : ascii) (s : string) : list string :=
  match s with
  | EmptyString => [EmptyString]
  | String c s' =>
      if Ascii.eqb c sep then EmptyString :: split sep s'
      else match split sep s' with
           | piece :: pieces => String c piece :: pieces
           | [] => [String c EmptyString]
           end
  end.

(** [s.split()]: the maximal runs of characters that are not white space. *)
Fixpoint split_whitespace (s : string) : list string :=
  match s with
  | EmptyString => []
  | String c s' =>
      if isspace c then split_whitespace s'
      else match s' with
           | String d _ =>
               if isspace d then String c EmptyString :: split_whitespace s'
               else match split_whitespace s' with
                    | word :: words => String c word :: words
                    | [] => [String c EmptyString]
                    end
           | EmptyString => [String c EmptyString]
           end
  end.

End PyStr.

(** ** Regular expressions

    The three patterns of the program are sequences of the items below;
    every repetition in them is over a single-character class.  [rmatch]
    is the backtracking matcher of Python's [re]: alternatives are tried
    in priority order (a greedy repetition the longest first, a lazy one
    the shortest first) and the first complete match wins. *)

Module Re.

Inductive atom : Type :=
| Lit (l : string)                 (* literal text *)
| LitI (l : string)                (* literal text under the [i] flag *)
| StarGreedy (p : ascii -> bool)   (* [p*]  *)
| StarLazy (p : ascii -> bool)     (* [p*?] *)
| PlusGreedy (p : ascii -> bool)   (* [p+]  *)
| Opt (p : ascii -> bool)          (* [p?]  *)
| Mark.                            (* a group boundary *)

Definition regex := list atom.

(** The result of a match: the text remaining at every [Mark], in
    pattern order, and the text remaining after the match. *)
Definition outcome : Type := list string * string.

Definition cont := string -> option outcome.

(** Remove the literal [l] from the front of [s]. *)
Definition eat (l s : string) : option string := PyStr.after_prefix l s.

(** The same, comparing characters up to case.  The letters of the
    literal this is used with fold to themselves only among U+0000..U+00FF. *)
Fixpoint eat_ci (l s : string) : option string :=
  match l, s with
  | EmptyString, _ => Some s
  | String a l', String b s' =>
      if Ascii.eqb (PyStr.lower_char a) (PyStr.lower_char b)
      then eat_ci l' s' else None
  | String _ _, EmptyString => None
  end.

Fixpoint greedy (p : ascii -> bool) (k : cont) (s : string) : option outcome :=
  match s with
  | String c s' =>
      if p c
      then match greedy p k s' with
           | Some r => Some r
           | None => k s
           end
      else k s
  | EmptyString => k s
  end.

Fixpoint lazy (p : ascii -> bool) (k : cont) (s : string) : option outcome :=
  match k s with
  | Some r => Some r
  | None =>
      match s with
      | String c s' => if p c then lazy p k s' else None
      | EmptyString => None
      end
  end.

Fixpoint rmatch (r : regex) (s : string) : option outcome :=
  match r with
  | [] => Some ([], s)
  | a :: r' =>
      match a with
      | Lit l =>
          match eat l s with
          | Some s' => rmatch r' s'
          | None => None
          end
      | LitI l =>
          match eat_ci l s with
          | Some s' => rmatch r' s'
          | None => None
          end
      | StarGreedy p => greedy p (rmatch r') s
      | StarLazy p => lazy p (rmatch r') s
      | PlusGreedy p =>
          match s with
          | String c s' => if p c then greedy p (rmatch r') s' else None
          | EmptyString => None
          end
      | Opt p =>
          match s with
          | String c s' =>
              if p c
              then match rmatch r' s' with
                   | Some o => Some o
                   | None => rmatch r' s
                   end
              else rmatch r' s
          | EmptyString => rmatch r' s
          end
      | Mark =>
          match rmatch r' s with
          | Some (ms, rest) => Some (s :: ms, rest)
          | None => None
          end
      end
  end.

(** The text between two positions given as remaining suffixes. *)
Definition between (from to : string) : string :=
  PyStr.take (String.length from - String.length to) from.

(** [re.search]: the leftmost start at which the pattern matches. *)
Fixpoint search (r : regex) (s : string) : option outcome :=
  match rmatch r s with
  | Some o => Some o
  | None =>
      match s with
      | String _ s' => search r s'
      | EmptyString => None
      end
  end.

(** [re.sub(r, repl, s)] for a pattern that matches no empty text:
    [repl] builds the replacement from the marks of the match. *)
Fixpoint sub_go (r : regex) (repl : list string -> string)
    (skip : nat) (s : string) : string :=
  match s with
  | EmptyString => EmptyString
  | String c s' =>
      match skip with
      | S k => sub_go r repl k s'
      | O =>
          match rmatch r s with
          | Some (ms, rest) =>
              repl ms
              ++ sub_go r repl (String.length s - String.length rest - 1) s'
          | None => String c (sub_go r repl 0 s')
          end
      end
  end.

Definition sub (r : regex) (repl : list string -> string) (s : string) : string :=
  sub_go r repl 0 s.

Definition any_char (_ : ascii) : bool := true.

(** [.] without the [s] flag: anything but a line feed *)
Definition dot (c : ascii) : bool := negb (Ascii.eqb c "010"%char).

Definition one_of (cs : string) (c : ascii) : bool :=
  PyStr.contains (String c EmptyString) cs.

End Re.

(** ** Reasoning-marker stripping *)

(** r"<think>.*?</think>" with [re.DOTALL] *)
Definition think_pattern : Re.regex :=
  [Re.Lit "<think>"; Re.StarLazy Re.any_char; Re.Lit "</think>"].

Module Composition.

(** [strip_think_tags] of [patterns/composition.py] *)
Definition strip_think_tags (text : string) : string :=
  Re.sub think_pattern (fun _ => "") text.

End Composition.

(** [strip_think_tags] of [app.py] *)
Definition strip_think_tags (text : string) : string :=
  match text with
  | EmptyString => ""
  | _ => Re.sub think_pattern (fun _ => "") text
  end.


(** ** Values, exceptions and the outside world *)

(** A line feed and a double quote, for the literals that need them. *)
Definition nl : string := String (ascii_of_nat 10) EmptyString.
Definition dq : string := String (ascii_of_nat 34) EmptyString.

(** The Python values the pipeline handles: what [json.loads] returns.
    A [float] is carried by its [repr], which determines it; a [dict] by
    its items in insertion order (its keys are the strings of a JSON
    object, each bound once). *)
#[warnings="-register-all"]
Inductive pyval : Type :=
| PNone
| PBool (b : bool)
| PInt (z : Z)
| PFloat (repr : string)
| PStr (s : string)
| PList (l : list pyval)
| PDict (d : list (string * pyval)).

(** Instances of [Exception], by class, with their [str(e)]. *)
Inductive exn_class : Type :=
| JSONDecodeError | ValueError | KeyError | TypeError | AttributeError
| OtherException (name : string).

Record exn : Type := mkExn { exn_cls : exn_class; exn_str : string }.

Inductive result (A : Type) : Type :=
| Ok (a : A)
| Raise (e : exn).
Arguments Ok {A} a.
Arguments Raise {A} e.

Definition bind {A B} (c : result A) (k : A -> result B) : result B :=
  match c with
  | Ok a => k a
  | Raise e => Raise e
  end.

Notation "x <- c ;; k" := (bind c (fun x => k))
  (at level 61, c at next level, right associativity).

Fixpoint mapM {A B} (f : A -> result B) (l : list A) : result (list B) :=
  match l with
  | [] => Ok []
  | a :: l' => b <- f a ;; bs <- mapM f l' ;; Ok (b :: bs)
  end.

(** [try: x = body; <rest x> / except Exception as e: return <handler e>] *)
Definition try_except {A B} (body : result A) (handler : exn -> B) (rest : A -> B) : B :=
  match body with
  | Ok a => rest a
  | Raise e => handler e
  end.

(** The three stages, which each build a chain of their own prompt. *)
Inductive layer : Type := L1 | L2 | L3.

(** A chat client as [ModelFactory.get_model] configures it; the
    constructors of the two client classes are taken not to raise. *)
Inductive chat_model : Type :=
| ChatGoogleGenerativeAI (model temperature google_api_key : string)
| ChatOllama (model temperature : string).

(** What the program takes from outside the repository.
    - [getenv]: [os.getenv];
    - [invoke l m x]: [(prompt | m).invoke({var: x}).content] for the
      prompt of stage [l]; a stage invokes its chain once, so a response
      per stage covers a model that answers differently each time;
    - [json_loads], [json_dumps]: the [json] module, the latter with
      [indent=2];
    - [container_repr]: [repr] of a list or dict. *)
Record Env : Type := {
  getenv : string -> option string;
  invoke : layer -> chat_model -> string -> result string;
  json_loads : string -> result pyval;
  json_dumps : pyval -> string;
  container_repr : pyval -> string
}.

(** [str(v)], which an f-string applies to an interpolated value. *)
Definition py_str (E : Env) (v : pyval) : string :=
  match v with
  | PNone => "None"
  | PBool true => "True"
  | PBool false => "False"
  | PInt z => PyStr.str_of_int z
  | PFloat r => r
  | PStr s => s
  | PList _ | PDict _ => container_repr E v
  end.

(** The name of a value's type, as error messages print it. *)
Definition type_name (v : pyval) : string :=
  match v with
  | PNone => "NoneType"
  | PBool _ => "bool"
  | PInt _ => "int"
  | PFloat _ => "float"
  | PStr _ => "str"
  | PList _ => "list"
  | PDict _ => "dict"
  end.

Fixpoint dict_lookup (d : list (string * pyval)) (key : string) : option pyval :=
  match d with
  | [] => None
  | (k, v) :: d' => if String.eqb k key then Some v else dict_lookup d' key
  end.

(** [d.get(key, default)] *)
Definition dict_get (d : list (string * pyval)) (key : string) (default : pyval) : pyval :=
  match dict_lookup d key with
  | Some v => v
  | None => default
  end.

(** [v[key]] for a string literal [key]; the messages of the built-in
    errors, here and below, are those of CPython 3.12. *)
Definition getitem (v : pyval) (key : string) : result pyval :=
  match v with
  | PDict d =>
      match dict_lookup d key with
      | Some x => Ok x
      | None => Raise (mkExn KeyError ("'" ++ key ++ "'"))
      end
  | PStr _ => Raise (mkExn TypeError "string indices must be integers, not 'str'")
  | PList _ => Raise (mkExn TypeError "list indices must be integers or slices, not str")
  | _ => Raise (mkExn TypeError ("'" ++ type_name v ++ "' object is not subscriptable"))
  end.

(** [v.replace(old, new)] *)
Definition replace_method (v : pyval) (old new : string) : result string :=
  match v with
  | PStr s => Ok (PyStr.replace old new s)
  | _ => Raise (mkExn AttributeError
                  ("'" ++ type_name v ++ "' object has no attribute 'replace'"))
  end.

Fixpoint chars (s : string) : list pyval :=
  match s with
  | String c s' => PStr (String c EmptyString) :: chars s'
  | EmptyString => []
  end.

(** The items [for x in v] runs through. *)
Definition iterate (v : pyval) : result (list pyval) :=
  match v with
  | PList l => Ok l
  | PStr s => Ok (chars s)
  | PDict d => Ok (map (fun kv => PStr (fst kv)) d)
  | _ => Raise (mkExn TypeError ("'" ++ type_name v ++ "' object is not iterable"))
  end.

(** [len(v)] *)
Definition py_len (v : pyval) : result nat :=
  match v with
  | PList l => Ok (List.length l)
  | PStr s => Ok (String.length s)
  | PDict d => Ok (List.length d)
  | _ => Raise (mkExn TypeError ("object of type '" ++ type_name v ++ "' has no len()"))
  end.

(** [v[0]] *)
Definition first_item (v : pyval) : result pyval :=
  match v with
  | PList (x :: _) => Ok x
  | PList [] => Raise (mkExn (OtherException "IndexError") "list index out of range")
  | PStr (String c _) => Ok (PStr (String c EmptyString))
  | PStr EmptyString => Raise (mkExn (OtherException "IndexError") "string index out of range")
  | PDict _ => Raise (mkExn KeyError "0")
  | _ => Raise (mkExn TypeError ("'" ++ type_name v ++ "' object is not subscriptable"))
  end.

(** The items of [v[1:]] *)
Definition rest_items (v : pyval) : result (list pyval) :=
  match v with
  | PList l => Ok (tl l)
  | PStr s => Ok (chars (PyStr.drop 1 s))
  | PDict _ => Raise (mkExn TypeError "unhashable type: 'slice'")
  | _ => Raise (mkExn TypeError ("'" ++ type_name v ++ "' object is not subscriptable"))
  end.

(** ** The [json] module

    What [json.dumps] writes and what [json.loads] reads, as functions
    on the values above, after the module's [encoder.py], [scanner.py]
    and [decoder.py]; for the properties that depend on the text format
    itself, which [Env] leaves open.  As everywhere, a string is a
    sequence of code points below U+0100. *)

Module Json.

(** The white space [json.loads] skips between the items of a text. *)
Definition is_ws (c : ascii) : bool :=
  Ascii.eqb c " " || Ascii.eqb c "009" || Ascii.eqb c "010" || Ascii.eqb c "013".

Fixpoint skip_ws (s : string) : string :=
  match s with
  | String c s' => if is_ws c then skip_ws s' else s
  | EmptyString => EmptyString
  end.

Definition is_digit (c : ascii) : bool := Re.one_of "0123456789" c.

(** *** Writing *)

Definition hex_digit (n : nat) : ascii :=
  match String.get n "0123456789abcdef" with
  | Some c => c
  | None => "0"
  end.

(** The text of one character of a string, with [ensure_ascii] as it
    is by default: a short escape for the quote, the backslash and five
    control characters, the character itself from the space to the
    tilde, and a [\u] escape for every other one. *)
Definition escape_char (c : ascii) : string :=
  if Ascii.eqb c (ascii_of_nat 34) then String "\" dq
  else if Ascii.eqb c "\" then "\\"
  else if Ascii.eqb c "010" then "\n"
  else if Ascii.eqb c "013" then "\r"
  else if Ascii.eqb c "009" then "\t"
  else if Ascii.eqb c "008" then "\b"
  else if Ascii.eqb c "012" then "\f"
  else if (32 <=? nat_of_ascii c) && (nat_of_ascii c <=? 126) then String c EmptyString
  else "\u00" ++ String (hex_digit (nat_of_ascii c / 16))
                   (String (hex_digit (nat_of_ascii c mod 16)) EmptyString).

Fixpoint escape (s : string) : string :=
  match s with
  | String c s' => escape_char c ++ escape s'
  | EmptyString => EmptyString
  end.

Definition quote (s : string) : string := dq ++ escape s ++ dq.

(** The text of a float: its [repr], but for the three that JSON lacks. *)
Definition float_text (repr : string) : string :=
  if String.eqb repr "nan" then "NaN"
  else if String.eqb repr "inf" then "Infinity"
  else if String.eqb repr "-inf" then "-Infinity"
  else repr.

Fixpoint spaces (n : nat) : string :=
  match n with
  | O => EmptyString
  | S k => String " " (spaces k)
  end.

(** With [indent=n], a line feed and the indentation of the level; with
    no [indent], nothing. *)
Definition newline_indent (indent : option nat) (level : nat) : string :=
  match indent with
  | Some n => nl ++ spaces (n * level)
  | None => EmptyString
  end.

Definition item_separator (indent : option nat) (level : nat) : string :=
  match indent with
  | Some _ => "," ++ newline_indent indent level
  | None => ", "
  end.

(** The text of a value at a nesting level. *)
Fixpoint dumps_at (indent : option nat) (level : nat) (v : pyval) : string :=
  match v with
  | PNone => "null"
  | PBool true => "true"
  | PBool false => "false"
  | PInt z => PyStr.str_of_int z
  | PFloat repr => float_text repr
  | PStr s => quote s
  | PList [] => "[]"
  | PList l =>
      "[" ++ newline_indent indent (S level)
      ++ String.concat (item_separator indent (S level))
           (map (dumps_at indent (S level)) l)
      ++ newline_indent indent level ++ "]"
  | PDict [] => "{}"
  | PDict d =>
      "{" ++ newline_indent indent (S level)
      ++ String.concat (item_separator indent (S level))
           (map (fun kv => quote (fst kv) ++ ": " ++ dumps_at indent (S level) (snd kv)) d)
      ++ newline_indent indent level ++ "}"
  end.

(** [json.dumps(v, indent=indent)] for [indent=None] or a number, when
    it returns *)
Definition dumps (indent : option nat) (v : pyval) : string := dumps_at indent 0 v.

(** *** Reading *)

Definition hex_value (c : ascii) : option nat :=
  let n := nat_of_ascii c in
  if (48 <=? n) && (n <=? 57) then Some (n - 48)
  else if (97 <=? n) && (n <=? 102) then Some (n - 87)
  else if (65 <=? n) && (n <=? 70) then Some (n - 55)
  else None.

(** The character a one-letter escape stands for. *)
Definition unescape (e : ascii) : option ascii :=
  if Ascii.eqb e (ascii_of_nat 34) then Some (ascii_of_nat 34)
  else if Ascii.eqb e "\" then Some "\"%char
  else if Ascii.eqb e "/" then Some "/"%char
  else if Ascii.eqb e "b" then Some "008"%char
  else if Ascii.eqb e "f" then Some "012"%char
  else if Ascii.eqb e "n" then Some "010"%char
  else if Ascii.eqb e "r" then Some "013"%char
  else if Ascii.eqb e "t" then Some "009"%char
  else None.

(** The content of a string and what follows its closing quote, read
    from behind the opening quote.  A control character is refused, as
    is an escape of a code point from U+0100 on, which no string here
    holds. *)
Fixpoint scan_string (s : string) : option (string * string) :=
  match s with
  | EmptyString => None
  | String c s' =>
      if Ascii.eqb c (ascii_of_nat 34) then Some (EmptyString, s')
      else if Ascii.eqb c "\" then
        match s' with
        | String e s'' =>
            if Ascii.eqb e "u" then
              match s'' with
              | String h1 (String h2 (String h3 (String h4 s3))) =>
                  match hex_value h1, hex_value h2, hex_value h3, hex_value h4 with
                  | Some n1, Some n2, Some n3, Some n4 =>
                      if ((n1 =? 0) && (n2 =? 0))%nat then
                        match scan_string s3 with
                        | Some (x, rest) => Some (String (ascii_of_nat (n3 * 16 + n4)) x, rest)
                        | None => None
                        end
                      else None
                  | _, _, _, _ => None
                  end
              | _ => None
              end
            else
              match unescape e with
              | Some x =>
                  match scan_string s'' with
                  | Some (y, rest) => Some (String x y, rest)
                  | None => None
                  end
              | None => None
              end
        | EmptyString => None
        end
      else if nat_of_ascii c <? 32 then None
      else
        match scan_string s' with
        | Some (x, rest) => Some (String c x, rest)
        | None => None
        end
  end.

(** The longest run of digits at the front of a text, and the rest. *)
Fixpoint digits (s : string) : string * string :=
  match s with
  | String c s' =>
      if is_digit c then let (ds, rest) := digits s' in (String c ds, rest)
      else (EmptyString, s)
  | EmptyString => (EmptyString, EmptyString)
  end.

(** The fraction [.digits] at the front of a text, if there is one. *)
Definition scan_frac (s : string) : string * string :=
  match s with
  | String c s' =>
      if Ascii.eqb c "." then
        match digits s' with
        | (EmptyString, _) => (EmptyString, s)
        | (ds, rest) => (String c ds, rest)
        end
      else (EmptyString, s)
  | EmptyString => (EmptyString, s)
  end.

(** The exponent [e], [E], a sign or none, [digits], if there is one. *)
Definition scan_exp (s : string) : string * string :=
  match s with
  | String e s' =>
      if Ascii.eqb e "e" || Ascii.eqb e "E" then
        let (sign, s'') :=
          match s' with
          | String x r => if Ascii.eqb x "+" || Ascii.eqb x "-"
                          then (String x EmptyString, r) else (EmptyString, s')
          | EmptyString => (EmptyString, s')
          end in
        match digits s'' with
        | (EmptyString, _) => (EmptyString, s)
        | (ds, rest) => (String e (sign ++ ds), rest)
        end
      else (EmptyString, s)
  | EmptyString => (EmptyString, s)
  end.

(** The integer part: [0], or a digit from 1 to 9 and a run of digits. *)
Definition scan_int (s : string) : option (string * string) :=
  match s with
  | String c s' =>
      if Ascii.eqb c "0" then Some ("0", s')
      else if is_digit c then let (ds, rest) := digits s' in Some (String c ds, rest)
      else None
  | EmptyString => None
  end.

(** The number at the front of a text: its integer part with the sign,
    its fraction and exponent together, and the rest. *)
Definition scan_number (s : string) : option (string * string * string) :=
  let (sign, s0) :=
    match s with
    | String c s' => if Ascii.eqb c "-" then (String c EmptyString, s') else (EmptyString, s)
    | EmptyString => (EmptyString, s)
    end in
  match scan_int s0 with
  | Some (int_part, s1) =>
      let (frac, s2) := scan_frac s1 in
      let (exp, s3) := scan_exp s2 in
      Some (sign ++ int_part, frac ++ exp, s3)
  | None => None
  end.

(** What reading depends on besides the text: [float_of] gives the
    [repr] of the float that [float] makes of a number with a fraction
    or an exponent; [max_depth] is how deep arrays and objects may nest
    before the interpreter's recursion limit is reached; [max_digits]
    is how many digits the interpreter converts to an [int] (4300
    unless it is set otherwise, no limit when set to 0). *)
Record reader : Type := {
  float_of : string -> option string;
  max_depth : nat;
  max_digits : option nat
}.

(** The digits of an integer part, without its sign. *)
Definition unsigned (text : string) : string :=
  match text with
  | String c text' => if Ascii.eqb c "-" then text' else text
  | EmptyString => text
  end.

(** [int(text)] for an integer part with its sign *)
Definition int_of_text (r : reader) (text : string) : option Z :=
  let allowed :=
    match max_digits r with
    | Some n => String.length (unsigned text) <=? n
    | None => true
    end in
  if allowed then option_map Z.of_int (NilZero.int_of_string text) else None.

(** Binding a key as a dict does: a key already there keeps its place
    and takes the new value. *)
Fixpoint store (d : list (string * pyval)) (key : string) (v : pyval)
    : list (string * pyval) :=
  match d with
  | [] => [(key, v)]
  | (k, x) :: d' => if String.eqb k key then (k, v) :: d' else (k, x) :: store d' key v
  end.

Definition dict_of_pairs (pairs : list (string * pyval)) : list (string * pyval) :=
  fold_left (fun d kv => store d (fst kv) (snd kv)) pairs [].

(** The value at the front of a text and the rest, the items of an
    array from its first item on, and the pairs of an object from its
    first key on.  [depth] counts the arrays and objects around the
    value.  [fuel] bounds the calls; the length of the text is enough.
    The names [NaN], [Infinity] and [-Infinity], which are no JSON, are
    left out. *)
Fixpoint parse_value (r : reader) (depth fuel : nat) (s : string)
    : option (pyval * string) :=
  match fuel with
  | O => None
  | S fuel' =>
      match s with
      | EmptyString => None
      | String c s' =>
          if Ascii.eqb c (ascii_of_nat 34) then
            match scan_string s' with
            | Some (x, rest) => Some (PStr x, rest)
            | None => None
            end
          else if Ascii.eqb c "{" then
            if depth <? max_depth r then
              match skip_ws s' with
              | String c1 s1 =>
                  if Ascii.eqb c1 "}" then Some (PDict [], s1)
                  else
                    match parse_members r (S depth) fuel' (String c1 s1) with
                    | Some (pairs, rest) => Some (PDict (dict_of_pairs pairs), rest)
                    | None => None
                    end
              | EmptyString => None
              end
            else None
          else if Ascii.eqb c "[" then
            if depth <? max_depth r then
              match skip_ws s' with
              | String c1 s1 =>
                  if Ascii.eqb c1 "]" then Some (PList [], s1)
                  else
                    match parse_elements r (S depth) fuel' (String c1 s1) with
                    | Some (items, rest) => Some (PList items, rest)
                    | None => None
                    end
              | EmptyString => None
              end
            else None
          else if Ascii.eqb c "n" then
            match PyStr.after_prefix "ull" s' with
            | Some rest => Some (PNone, rest)
            | None => None
            end
          else if Ascii.eqb c "t" then
            match PyStr.after_prefix "rue" s' with
            | Some rest => Some (PBool true, rest)
            | None => None
            end
          else if Ascii.eqb c "f" then
            match PyStr.after_prefix "alse" s' with
            | Some rest => Some (PBool false, rest)
            | None => None
            end
          else
            match scan_number s with
            | Some (int_part, EmptyString, rest) =>
                match int_of_text r int_part with
                | Some z => Some (PInt z, rest)
                | None => None
                end
            | Some (int_part, tail, rest) =>
                match float_of r (int_part ++ tail) with
                | Some repr => Some (PFloat repr, rest)
                | None => None
                end
            | None => None
            end
      end
  end
with parse_elements (r : reader) (depth fuel : nat) (s : string)
    : option (list pyval * string) :=
  match fuel with
  | O => None
  | S fuel' =>
      match parse_value r depth fuel' s with
      | Some (v, rest) =>
          match skip_ws rest with
          | String c s1 =>
              if Ascii.eqb c "," then
                match parse_elements r depth fuel' (skip_ws s1) with
                | Some (items, rest') => Some (v :: items, rest')
                | None => None
                end
              else if Ascii.eqb c "]" then Some ([v], s1)
              else None
          | EmptyString => None
          end
      | None => None
      end
  end
with parse_members (r : reader) (depth fuel : nat) (s : string)
    : option (list (string * pyval) * string) :=
  match fuel with
  | O => None
  | S fuel' =>
      match s with
      | String q s0 =>
          if Ascii.eqb q (ascii_of_nat 34) then
            match scan_string s0 with
            | Some (key, rest0) =>
                match skip_ws rest0 with
                | String colon s1 =>
                    if Ascii.eqb colon ":" then
                      match parse_value r depth fuel' (skip_ws s1) with
                      | Some (v, rest) =>
                          match skip_ws rest with
                          | String c s2 =>
                              if Ascii.eqb c "," then
                                match parse_members r depth fuel' (skip_ws s2) with
                                | Some (pairs, rest') => Some ((key, v) :: pairs, rest')
                                | None => None
                                end
                              else if Ascii.eqb c "}" then Some ([(key, v)], s2)
                              else None
                          | EmptyString => None
                          end
                      | None => None
                      end
                    else None
                | EmptyString => None
                end
            | None => None
            end
          else None
      | EmptyString => None
      end
  end.

(** [json.loads(s)], when it returns: the value of the one JSON text in
    [s], with white space around it at most.  [None] where [json.loads]
    raises, and on the texts left out above. *)
Definition loads (r : reader) (s : string) : option pyval :=
  match parse_value r 0 (String.length s) (skip_ws s) with
  | Some (v, rest) =>
      match skip_ws rest with
      | EmptyString => Some v
      | String _ _ => None
      end
  | None => None
  end.

End Json.

(** ** [patterns/config.py] *)

Module ModelFactory.

(** [ModelFactory.get_model] *)
Definition get_model (E : Env) (model_name temperature : string) : result chat_model :=
  if PyStr.startswith (PyStr.lower model_name) "gemini" then
    match getenv E "GEMINI_API_KEY" with
    | None | Some EmptyString =>
        Raise (mkExn ValueError "GEMINI_API_KEY not found in environment variables.")
    | Some api_key => Ok (ChatGoogleGenerativeAI model_name temperature api_key)
    end
  else Ok (ChatOllama model_name temperature).

End ModelFactory.

(** ** [patterns/algebra.py] *)

Module AlgebraAnalyst.

(** [AlgebraAnalyst.__init__]: the object is its chain, the prompt of
    stage 1 piped into the client. *)
Definition init (E : Env) (model_name : string) : result chat_model :=
  ModelFactory.get_model E model_name "0.8".

(** [AlgebraAnalyst.analyze] *)
Definition analyze (E : Env) (self : chat_model) (text : string) : result string :=
  invoke E L1 self text.

End AlgebraAnalyst.

(** ** [patterns/composition.py] *)

Module Composer.

(** [Composer.__init__] *)
Definition init (E : Env) (model_name : string) : result chat_model :=
  ModelFactory.get_model E model_name "0.8".

(** The dict built when [json.loads] raises [JSONDecodeError]. *)
Definition degraded (e : exn) (text : string) : pyval :=
  PDict [ ("original_expression", PStr "Error parsing");
          ("schedule_logic", PStr "Linear");
          ("score", PList []);
          ("math_narrative", PStr ("Error: " ++ exn_str e));
          ("raw_output", PStr text) ].

(** The text [_parse_json_safely] hands to [json.loads]. *)
Definition unfence (text : string) : string :=
  let text := PyStr.strip text in
  let text := if PyStr.startswith text "```json" then PyStr.drop 7 text else text in
  let text := if PyStr.startswith text "```" then PyStr.drop 3 text else text in
  if PyStr.endswith text "```" then PyStr.drop_last 3 text else text.

(** [Composer._parse_json_safely] *)
Definition _parse_json_safely (E : Env) (text : string) : result pyval :=
  let text := unfence text in
  match json_loads E text with
  | Ok v => Ok v
  | Raise e =>
      match exn_cls e with
      | JSONDecodeError => Ok (degraded e text)
      | _ => Raise e
      end
  end.

(** [Composer.compose] *)
Definition compose (E : Env) (self : chat_model) (algebra_str : string) : result pyval :=
  raw_output <- invoke E L2 self algebra_str ;;
  let raw_output := Composition.strip_think_tags raw_output in
  _parse_json_safely E raw_output.

(** One row of the table. *)
Definition table_row (E : Env) (track : pyval) : result string :=
  formula <- getitem track "formula" ;;
  clean_formula <- replace_method formula "|" "\|" ;;
  voice <- getitem track "voice" ;;
  symbol <- getitem track "symbol" ;;
  mass <- getitem track "mass" ;;
  Ok ("| " ++ py_str E voice ++ " | `" ++ py_str E symbol ++ "` | $"
      ++ clean_formula ++ "$ | " ++ py_str E mass ++ " |" ++ nl).

(** The terms of the four kinds of master equation. *)
Fixpoint orbital_terms (E : Env) (i : nat) (tracks : list pyval) : result (list string) :=
  match tracks with
  | [] => Ok []
  | track :: tracks' =>
      let trig := if Nat.even i then "\sin" else "\cos" in
      mass <- getitem track "mass" ;;
      formula <- getitem track "formula" ;;
      terms <- orbital_terms E (S i) tracks' ;;
      Ok ((py_str E mass ++ " \cdot " ++ trig ++ "(\omega t) \cdot ["
           ++ py_str E formula ++ "]") :: terms)
  end.

Definition drag_first (E : Env) (t0 : pyval) : result string :=
  mass <- getitem t0 "mass" ;;
  formula <- getitem t0 "formula" ;;
  Ok ("(" ++ py_str E mass ++ " \cdot e^{-\lambda t}) \cdot [" ++ py_str E formula ++ "]").

Definition drag_next (E : Env) (track : pyval) : result string :=
  mass <- getitem track "mass" ;;
  formula <- getitem track "formula" ;;
  Ok ("(" ++ py_str E mass ++ " \cdot (1-e^{-\lambda t})) \cdot ["
      ++ py_str E formula ++ "]").

Definition adversarial_first (E : Env) (t0 : pyval) : result string :=
  mass <- getitem t0 "mass" ;;
  formula <- getitem t0 "formula" ;;
  Ok (py_str E mass ++ " \cdot [" ++ py_str E formula ++ "]").

Definition adversarial_next (E : Env) (track : pyval) : result string :=
  mass <- getitem track "mass" ;;
  formula <- getitem track "formula" ;;
  Ok (" - " ++ py_str E mass ++ " \cdot [" ++ py_str E formula ++ "]").

Definition linear_term (E : Env) (track : pyval) : result string :=
  mass <- getitem track "mass" ;;
  formula <- getitem track "formula" ;;
  Ok (py_str E mass ++ " \cdot [" ++ py_str E formula ++ "]").

(** [if len(score) > 0: first(score[0]); for track in score[1:]: next(track)] *)
Definition first_then_rest (score : pyval)
    (first next : pyval -> result string) : result (list string) :=
  n <- py_len score ;;
  if 0 <? n then
    t0 <- first_item score ;;
    term0 <- first t0 ;;
    others <- rest_items score ;;
    terms <- mapM next others ;;
    Ok (term0 :: terms)
  else Ok [].

(** [v == s] for a string literal [s] *)
Definition eq_str (v : pyval) (s : string) : bool :=
  match v with
  | PStr x => String.eqb x s
  | _ => false
  end.

(** The equation line, by [schedule_logic]. *)
Definition master_equation (E : Env) (logic score : pyval) : result string :=
  if eq_str logic "Orbital" then
    tracks <- iterate score ;;
    terms <- orbital_terms E 0 tracks ;;
    let eq := String.concat " + " terms in
    Ok ("$$ J(\theta) = \sum_{t} (" ++ eq ++ ") $$")
  else if eq_str logic "Drag" then
    terms <- first_then_rest score (drag_first E) (drag_next E) ;;
    let eq := String.concat " + " terms in
    Ok ("$$ J(\theta) = \int (" ++ eq ++ ") dt $$")
  else if eq_str logic "Adversarial" then
    terms <- first_then_rest score (adversarial_first E) (adversarial_next E) ;;
    let eq := String.concat "" terms in
    Ok ("$$ J(\theta) = \max_\pi (" ++ eq ++ ") $$")
  else
    tracks <- iterate score ;;
    terms <- mapM (linear_term E) tracks ;;
    let eq := String.concat " + " terms in
    Ok ("$$ J(\theta) = " ++ eq ++ " $$").

(** The first two lines and the head of the table. *)
Definition report_head (E : Env) (logic narrative freq : pyval) : string :=
  "### Cognitive Schedule: **" ++ py_str E logic ++ "**" ++ nl
  ++ "*" ++ py_str E narrative ++ "* (Global Accel: $\omega=" ++ py_str E freq ++ "$)"
  ++ nl ++ nl
  ++ "| Function | Objective Class | Math Form | Mass ($m$) |" ++ nl
  ++ "| :--- | :--- | :--- | :---: |" ++ nl.

(** [Composer.format_latex_report], for a [composition] that is a dict
    (the caller tests [isinstance(composition, dict)]). *)
Definition format_latex_report (E : Env) (composition : list (string * pyval)) : result string :=
  let logic := dict_get composition "schedule_logic" (PStr "Linear") in
  let narrative := dict_get composition "math_narrative" (PStr "") in
  let freq := dict_get composition "global_frequency" (PFloat "1.0") in
  let report := report_head E logic narrative freq in
  let score := dict_get composition "score" (PList []) in
  tracks <- iterate score ;;
  rows <- mapM (table_row E) tracks ;;
  let report := report ++ String.concat "" rows in
  let report := report ++ nl ++ "**Intercalation Dynamics:**" ++ nl in
  equation <- master_equation E logic score ;;
  Ok (report ++ equation).

End Composer.

(** ** [patterns/code.py] *)

Module CodeGenerator.

(** [CodeGenerator.__init__] *)
Definition init (E : Env) (model_name : string) : result chat_model :=
  ModelFactory.get_model E model_name "0.8".

(** [CodeGenerator.generate_code] *)
Definition generate_code (E : Env) (self : chat_model) (composition : pyval) : result string :=
  let schedule_json := json_dumps E composition in
  raw_code <- invoke E L3 self schedule_json ;;
  Ok raw_code.

(** [CodeGenerator._clean_output] *)
Definition _clean_output (text : string) : string :=
  let text := PyStr.strip text in
  let text :=
    if PyStr.startswith text "```python" then PyStr.drop 9 text
    else if PyStr.startswith text "```" then PyStr.drop 3 text
    else text in
  let text := if PyStr.endswith text "```" then PyStr.drop_last 3 text else text in
  PyStr.strip text.

End CodeGenerator.

(** ** [app.py] *)

(** The class [[\*\#\s]] *)
Definition decoration (c : ascii) : bool :=
  Re.one_of "*#" c || PyStr.isspace c.

(** The pattern of [re.search] in [clean_latex_formatting], under the
    flags [s] and [i]: group 1, a lazy run of any characters; then,
    in a group that captures nothing, a run of decoration, the heading,
    a run of white space, an optional colon and a run of decoration;
    group 2, a greedy run of any characters. *)
Definition heading_pattern : Re.regex :=
  [ Re.Mark; Re.StarLazy Re.any_char; Re.Mark;
    Re.StarGreedy decoration; Re.LitI "Intercalation Dynamics";
    Re.StarGreedy PyStr.isspace; Re.Opt (Re.one_of ":"); Re.StarGreedy decoration;
    Re.Mark; Re.StarGreedy Re.any_char; Re.Mark ].

(** r'`(\$+.*?\$+)`' *)
Definition inline_math_pattern : Re.regex :=
  [ Re.Lit "`"; Re.Mark; Re.PlusGreedy (Re.one_of "$"); Re.StarLazy Re.dot;
    Re.PlusGreedy (Re.one_of "$"); Re.Mark; Re.Lit "`" ].

(** [match.group(1)] of a pattern whose first group lies between its
    first two marks, and [match.group(2)] for the heading pattern, whose
    second group lies between its last two. *)
Definition group1 (ms : list string) : string :=
  Re.between (nth 0 ms "") (nth 1 ms "").

Definition group2 (ms : list string) : string :=
  Re.between (nth 2 ms "") (nth 3 ms "").

(** Steps 1 and 2 of [clean_latex_formatting]. *)
Definition strip_fences (text : string) : string :=
  PyStr.replace "```" "" (PyStr.replace "```markdown" "" (PyStr.replace "```latex" "" text)).

Definition fix_brackets (text : string) : string :=
  PyStr.replace "$]" ")" (PyStr.replace "[$" "(" text).

(** The equation section built from [match.group(2)]. *)
Definition equation_section (group : string) : string :=
  let equation_raw := PyStr.strip group in
  let equation_raw := PyStr.replace "*" "" (PyStr.replace "**" "" equation_raw) in
  if negb (PyStr.startswith equation_raw "$$" || PyStr.startswith equation_raw "\[")
  then "$$" ++ nl ++ equation_raw ++ nl ++ "$$"
  else equation_raw.

(** [clean_latex_formatting] *)
Definition clean_latex_formatting (text : string) : string :=
  match text with
  | EmptyString => ""
  | _ =>
      let text := strip_fences text in
      let text := fix_brackets text in
      match Re.search heading_pattern text with
      | Some (ms, _) =>
          let preamble := PyStr.strip (group1 ms) in
          preamble ++ nl ++ nl ++ "**Intercalation Dynamics:**" ++ nl ++ nl
          ++ equation_section (group2 ms)
      | None => Re.sub inline_math_pattern group1 text
      end
  end.

(** The bodies of the three [try] blocks of [process_pattern]. *)
Definition layer1 (E : Env) (text model_name : string) : result string :=
  analyst <- AlgebraAnalyst.init E model_name ;;
  out <- AlgebraAnalyst.analyze E analyst text ;;
  Ok (strip_think_tags out).

Definition layer2 (E : Env) (model_name algebraic_expr : string) : result (pyval * string) :=
  composer <- Composer.init E model_name ;;
  composition <- Composer.compose E composer algebraic_expr ;;
  match composition with
  | PDict d =>
      raw <- Composer.format_latex_report E d ;;
      Ok (composition, clean_latex_formatting raw)
  | _ => Ok (composition, "Error parsing JSON: " ++ py_str E composition)
  end.

Definition layer3 (E : Env) (model_name : string) (composition : pyval) : result string :=
  coder <- CodeGenerator.init E model_name ;;
  code <- CodeGenerator.generate_code E coder composition ;;
  Ok (strip_think_tags code).

(** The truth value of [os.getenv(name)]. *)
Definition env_set (E : Env) (name : string) : bool :=
  match getenv E name with
  | None | Some EmptyString => false
  | Some _ => true
  end.

(** [process_pattern] *)
Definition process_pattern (E : Env) (text model_name : string)
    : result (string * string * string) :=
  if String.eqb (PyStr.strip text) "" then Ok ("Please enter text.", "", "")
  else if PyStr.startswith (PyStr.lower model_name) "gemini"
          && negb (env_set E "GEMINI_API_KEY")
  then Ok ("Error: GOOGLE_API_KEY missing.", "", "")
  else
    try_except (layer1 E text model_name)
      (fun e => Ok ("Error L1: " ++ exn_str e, "", ""))
      (fun algebraic_expr =>
    try_except (layer2 E model_name algebraic_expr)
      (fun e => Ok (algebraic_expr, "Error L2: " ++ exn_str e, ""))
      (fun '(composition, math_report) =>
    try_except (layer3 E model_name composition)
      (fun e => Ok (algebraic_expr, math_report, "Error L3: " ++ exn_str e))
      (fun pytorch_code => Ok (algebraic_expr, math_report, pytorch_code)))).


(** [line.split()[0]] *)
Definition first_word (line : string) : result string :=
  match PyStr.split_whitespace line with
  | word :: _ => Ok word
  | [] => Raise (mkExn (OtherException "IndexError") "list index out of range")
  end.

(** [get_ollama_models].  [ollama_list] is what running the command
    [ollama list] with [check=True] gives: its standard output, or the
    exception raised when the command is missing or exits with an error.
    The handler is a bare [except], which catches everything. *)
Definition get_ollama_models (ollama_list : result string) : list string :=
  try_except
    (stdout <- ollama_list ;;
     let lines := PyStr.split "010" (PyStr.strip stdout) in
     if List.length lines <=? 1 then Ok ["llama3"]
     else mapM first_word (tl lines))
    (fun _ => ["Ollama Not Installed"])
    (fun models => models).



(** * Vocabulary of the properties *)

(** A text that is empty or made of white space only. *)
Definition blank (s : string) : Prop :=
  forall c, In c (list_ascii_of_string s) -> PyStr.isspace c = true.

(** The three stages in sequence, once the two preconditions hold. *)
Definition run_stages (E : Env) (text model_name : string)
    : result (string * string * string) :=
  try_except (layer1 E text model_name)
    (fun e => Ok ("Error L1: " ++ exn_str e, "", ""))
    (fun algebraic_expr =>
  try_except (layer2 E model_name algebraic_expr)
    (fun e => Ok (algebraic_expr, "Error L2: " ++ exn_str e, ""))
    (fun '(composition, math_report) =>
  try_except (layer3 E model_name composition)
    (fun e => Ok (algebraic_expr, math_report, "Error L3: " ++ exn_str e))
    (fun pytorch_code => Ok (algebraic_expr, math_report, pytorch_code)))).

(** The remote provider is asked for and its credential is not set. *)
Definition credential_missing (E : Env) (model_name : string) : bool :=
  PyStr.startswith (PyStr.lower model_name) "gemini" && negb (env_set E "GEMINI_API_KEY").

(** [isinstance(v, dict)] *)
Definition is_dict (v : pyval) : bool :=
  match v with
  | PDict _ => true
  | _ => false
  end.

(** An Objective Track as the renderer needs it: a dict with the four
    fields, the formula a string. *)
Definition is_track (track : pyval) : Prop :=
  exists voice symbol mass formula,
    getitem track "voice" = Ok voice
    /\ getitem track "symbol" = Ok symbol
    /\ getitem track "mass" = Ok mass
    /\ getitem track "formula" = Ok (PStr formula).

(** A field of a track, for stating what is rendered. *)
Definition field (track : pyval) (key : string) : pyval :=
  match getitem track key with
  | Ok v => v
  | Raise _ => PNone
  end.

(** The contribution 'mass \cdot [formula]' of a track. *)
Definition weighted (E : Env) (track : pyval) : string :=
  py_str E (field track "mass") ++ " \cdot [" ++ py_str E (field track "formula") ++ "]".

(** The master equation line of an Adversarial schedule: the first track
    as it is weighted, every later one behind ' - ', nothing between. *)
Definition adversarial_body (E : Env) (tracks : list pyval) : string :=
  match tracks with
  | [] => ""
  | t0 :: tracks' =>
      weighted E t0 ++ String.concat "" (map (fun t => " - " ++ weighted E t) tracks')
  end.

(** The equation an empty score leaves, by [schedule_logic]. *)
Definition skeleton (logic : pyval) : string :=
  if Composer.eq_str logic "Orbital" then "\sum_{t} ()"
  else if Composer.eq_str logic "Drag" then "\int () dt"
  else if Composer.eq_str logic "Adversarial" then "\max_\pi ()"
  else "".

(** A fenced block: the opening fence tagged json, the body, the closing fence. *)
Definition fenced (body : string) : string := "```json" ++ body ++ "```".

(** What follows the first occurrence of [p] in [s]. *)
Fixpoint after_first (p s : string) : option string :=
  match PyStr.after_prefix p s with
  | Some rest => Some rest
  | None =>
      match s with
      | String _ s' => after_first p s'
      | EmptyString => None
      end
  end.

(** The character [h] does not occur in [s]. *)
Fixpoint lacks (h : ascii) (s : string) : bool :=
  match s with
  | String c s' => negb (Ascii.eqb h c) && lacks h s'
  | EmptyString => true
  end.

(** A text has a span when the think pattern matches somewhere in it. *)
Definition has_span (s : string) : bool :=
  match Re.search think_pattern s with
  | Some _ => true
  | None => false
  end.

(** [s] behind its longest prefix of characters in [p]; that prefix;
    and whether [s] is made of such characters. *)
Fixpoint dropwhile (p : ascii -> bool) (s : string) : string :=
  match s with
  | String c s' => if p c then dropwhile p s' else s
  | EmptyString => EmptyString
  end.

Fixpoint takewhile (p : ascii -> bool) (s : string) : string :=
  match s with
  | String c s' => if p c then String c (takewhile p s') else EmptyString
  | EmptyString => EmptyString
  end.

Fixpoint all_of (p : ascii -> bool) (s : string) : bool :=
  match s with
  | String c s' => p c && all_of p s'
  | EmptyString => true
  end.

(** [:?] *)
Definition skip_colon (s : string) : string :=
  match s with
  | String c s' => if Re.one_of ":" c then s' else s
  | EmptyString => EmptyString
  end.

(** What group 2 captures, from the text behind the heading: white
    space, one colon and decoration are passed over, the rest is taken. *)
Definition after_heading (s : string) : string :=
  dropwhile decoration (skip_colon (dropwhile PyStr.isspace s)).

(** The heading, and the part of the pattern behind it. *)
Definition heading : string := "Intercalation Dynamics".

Definition heading_tail : Re.regex :=
  [ Re.StarGreedy PyStr.isspace; Re.Opt (Re.one_of ":"); Re.StarGreedy decoration;
    Re.Mark; Re.StarGreedy Re.any_char; Re.Mark ].

(** The heading with what may follow it, and the same behind a run of
    decoration. *)
Definition heading_here : Re.regex := Re.LitI heading :: heading_tail.
Definition decorated_heading : Re.regex := Re.StarGreedy decoration :: heading_here.

(** The search for the heading as a function: the text before the first
    place where, behind a run of decoration, the heading stands, and
    what group 2 captures behind it. *)
Fixpoint find_heading (s : string) : option (string * string) :=
  match Re.eat_ci heading (dropwhile decoration s) with
  | Some behind => Some (EmptyString, after_heading behind)
  | None =>
      match s with
      | String c s' =>
          match find_heading s' with
          | Some (before, body) => Some (String c before, body)
          | None => None
          end
      | EmptyString => None
      end
  end.

(** The heading [h] occurs in [s], up to case. *)
Fixpoint occurs_ci (h s : string) : bool :=
  match Re.eat_ci h s with
  | Some _ => true
  | None =>
      match s with
      | String _ s' => occurs_ci h s'
      | EmptyString => false
      end
  end.

(** No character of [s] is [x] up to case. *)
Fixpoint lacks_ci (x : ascii) (s : string) : bool :=
  match s with
  | String c s' => negb (Ascii.eqb (PyStr.lower_char x) (PyStr.lower_char c)) && lacks_ci x s'
  | EmptyString => true
  end.

(** [s] without the character [c]. *)
Fixpoint delete (c : ascii) (s : string) : string :=
  match s with
  | String x s' => if Ascii.eqb c x then delete c s' else String x (delete c s')
  | EmptyString => EmptyString
  end.

(** A pattern that holds no line feed and occurs neither in '$$' nor in
    the heading line. *)
Definition apart (p : string) : Prop :=
  p <> "" /\ lacks "010" p = true
  /\ PyStr.contains p "$$" = false
  /\ PyStr.contains p (nl ++ "**Intercalation Dynamics:**" ++ nl) = false.

(** A character that is not white space. *)
Definition nonspace (c : ascii) : bool := negb (PyStr.isspace c).

(** The first word of a line: what [line.split()[0]] is when the line
    is not blank. *)
Definition leading_word (line : string) : string :=
  takewhile nonspace (PyStr.lstrip line).

(** A model name that [get_model] gives to the remote client. *)
Definition is_gemini (model_name : string) : bool :=
  PyStr.startswith (PyStr.lower model_name) "gemini".

(** Every '|' of [s] stands behind a backslash; [after_backslash] tells
    whether the character before [s] is one. *)
Fixpoint pipes_escaped (after_backslash : bool) (s : string) : bool :=
  match s with
  | String c s' =>
      (if Ascii.eqb c "|" then after_backslash else true)
      && pipes_escaped (Ascii.eqb c "\") s'
  | EmptyString => true
  end.

(** The table row of a track. *)
Definition row_text (E : Env) (track : pyval) : string :=
  "| " ++ py_str E (field track "voice") ++ " | `" ++ py_str E (field track "symbol")
  ++ "` | $" ++ PyStr.replace "|" "\|" (py_str E (field track "formula")) ++ "$ | "
  ++ py_str E (field track "mass") ++ " |" ++ nl.

(** The term of the track at position [i] of an Orbital schedule: the
    sine at the even positions, the cosine at the odd ones. *)
Definition trig (i : nat) : string := if Nat.even i then "\sin" else "\cos".

Definition orbital_term (E : Env) (i : nat) (track : pyval) : string :=
  py_str E (field track "mass") ++ " \cdot " ++ trig i ++ "(\omega t) \cdot ["
  ++ py_str E (field track "formula") ++ "]".

(** The term of the track at position [i] of a Drag schedule: the first
    decays, every later one grows. *)
Definition envelope (i : nat) : string :=
  match i with
  | 0 => "e^{-\lambda t}"
  | S _ => "(1-e^{-\lambda t})"
  end.

Definition drag_term (E : Env) (i : nat) (track : pyval) : string :=
  "(" ++ py_str E (field track "mass") ++ " \cdot " ++ envelope i ++ ") \cdot ["
  ++ py_str E (field track "formula") ++ "]".

(** The report of a schedule with no track and no narrative. *)
Definition empty_report (E : Env) (logic narrative freq : pyval) : string :=
  Composer.report_head E logic narrative freq
  ++ nl ++ "**Intercalation Dynamics:**" ++ nl
  ++ "$$ J(\theta) = " ++ skeleton logic ++ " $$".

(** What [format_latex_report] reads for an absent key. *)
Definition defaults : list (string * pyval) :=
  [ ("schedule_logic", PStr "Linear"); ("math_narrative", PStr "");
    ("global_frequency", PFloat "1.0"); ("score", PList []) ].

(** A text of JSON white space only. *)
Definition json_blank (s : string) : bool := all_of Json.is_ws s.

(** What may follow a value in a JSON text: nothing, white space, a
    comma or a closing bracket. *)
Definition delimited (s : string) : bool :=
  match s with
  | String c _ =>
      Json.is_ws c || Ascii.eqb c "," || Ascii.eqb c "]" || Ascii.eqb c "}"
  | EmptyString => true
  end.

(** A JSON number with a fraction or an exponent and nothing behind it:
    what the [repr] of a finite float is. *)
Definition float_literal (repr : string) : bool :=
  match Json.scan_number repr with
  | Some (_, String _ _, EmptyString) => true
  | _ => false
  end.

Fixpoint distinct (keys : list string) : bool :=
  match keys with
  | [] => true
  | key :: keys' => negb (existsb (String.eqb key) keys') && distinct keys'
  end.

(** An integer with no more digits than the reader converts. *)
Definition int_allowed (r : Json.reader) (z : Z) : bool :=
  match Json.max_digits r with
  | Some n => String.length (Json.unsigned (PyStr.str_of_int z)) <=? n
  | None => true
  end.

(** A value that serializes to valid JSON, with scalars the reader [r]
    gives back: no dict binds a key twice (none does in Python); every
    float is finite, so that its [repr] is a JSON number, and is read
    from its [repr] as itself; every integer is within the digits
    Python converts. *)
Fixpoint serialisable (r : Json.reader) (v : pyval) : bool :=
  match v with
  | PInt z => int_allowed r z
  | PFloat repr =>
      float_literal repr
      && match Json.float_of r repr with
         | Some back => String.eqb back repr
         | None => false
         end
  | PList l => forallb (serialisable r) l
  | PDict d => distinct (map fst d) && forallb (fun kv => serialisable r (snd kv)) d
  | _ => true
  end.

(** How deep the arrays and objects of a value nest: 0 for a scalar, 3
    for a Schedule with tracks. *)
Fixpoint nesting (v : pyval) : nat :=
  match v with
  | PList l => S (list_max (map nesting l))
  | PDict d => S (list_max (map (fun kv => nesting (snd kv)) d))
  | _ => 0
  end.

(** The number of values in a value, itself included, and of items in
    its lists and dicts. *)
Fixpoint weight (v : pyval) : nat :=
  match v with
  | PList l => S (list_sum (map (fun x => S (weight x)) l))
  | PDict d => S (list_sum (map (fun kv => S (weight (snd kv))) d))
  | _ => 1
  end.

(** [json.loads] of the environment returns what the reader [r] of
    JSON returns. *)
Definition reads_json (E : Env) (r : Json.reader) : Prop :=
  forall text v, Json.loads r text = Some v -> json_loads E text = Ok v.

(** * Environments and data of the examples *)

(** Scripted environments for the examples: the chat model answers stage
    by stage as listed, [json.loads] decodes the listed texts and raises
    its error on any other. *)
Definition decode_with (table : list (string * pyval)) (s : string) : result pyval :=
  match find (fun kv => String.eqb (fst kv) s) table with
  | Some kv => Ok (snd kv)
  | None => Raise (mkExn JSONDecodeError "Expecting value: line 1 column 1 (char 0)")
  end.

Definition scripted (key : option string) (answers : layer -> result string)
    (table : list (string * pyval)) : Env :=
  {| getenv := fun name => if String.eqb name "GEMINI_API_KEY" then key else None;
     invoke := fun l _ _ => answers l;
     json_loads := decode_with table;
     json_dumps := fun _ => "{}";
     container_repr := fun _ => "[]" |}.

(** What an unreachable chat model raises. *)
Definition timeout_error : exn := mkExn (OtherException "ConnectionError") "connection refused".

(** A schedule whose only track has no formula. *)
Definition track_without_formula : pyval :=
  PDict [("score", PList [PDict [("voice", PStr "Se"); ("mass", PInt 7)]])].

(** A chat model that is down at stage 1. *)
Definition answers_stage1_down (l : layer) : result string :=
  match l with
  | L1 => Raise timeout_error
  | _ => Ok "unused"
  end.

(** A chat model whose stage-2 answer decodes to [track_without_formula]. *)
Definition answers_stage2_bad (l : layer) : result string :=
  match l with
  | L1 => Ok "<think>conflict</think>7Se ~ Ti"
  | L2 => Ok "{bad track}"
  | L3 => Ok "unused"
  end.

(** A chat model that answers stage 2 with no JSON and is down at stage 3. *)
Definition answers_stage3_down (l : layer) : result string :=
  match l with
  | L1 => Ok "7Se ~ Ti"
  | L2 => Ok "not json"
  | L3 => Raise timeout_error
  end.

(** A chat model that is down from stage 2 on. *)
Definition answers_stage2_down (l : layer) : result string :=
  match l with
  | L1 => Ok "7Se ~ Ti"
  | _ => Raise timeout_error
  end.

(** A chat model whose stage-2 answer is a fenced block of broken JSON
    behind a think span. *)
Definition answers_stage2_garbled (l : layer) : result string :=
  match l with
  | L1 => Ok "7Se ~ Ti"
  | L2 => Ok ("<think>map Se</think>```json" ++ nl ++ "{oops" ++ nl ++ "```")
  | L3 => Ok "import math"
  end.

(** An environment whose chat model answers stage 2 with a JSON array
    and whose stage 3 echoes the serialised schedule it is given. *)
Definition array_env : Env :=
  {| getenv := fun _ => None;
     invoke := fun l _ x =>
       match l with
       | L1 => Ok "7Se ~ Ti"
       | L2 => Ok "[1, 2]"
       | L3 => Ok ("# schedule: " ++ x)
       end;
     json_loads := decode_with [("[1, 2]", PList [PInt 1; PInt 2])];
     json_dumps := fun v =>
       match v with
       | PList [PInt 1; PInt 2] => "[" ++ nl ++ "  1," ++ nl ++ "  2" ++ nl ++ "]"
       | _ => "{}"
       end;
     container_repr := fun _ => "[1, 2]" |}.

(** The two tracks of the Adversarial scenario. *)
Definition track_Se : pyval :=
  PDict [("voice", PStr "Voice 1 (Se)"); ("symbol", PStr "ExplorationObjective");
         ("mass", PInt 5); ("formula", PStr "A"); ("description", PStr "entropy")].

Definition track_Fi : pyval :=
  PDict [("voice", PStr "Voice 2 (Fi)"); ("symbol", PStr "SelectionObjective");
         ("mass", PInt 3); ("formula", PStr "B"); ("description", PStr "consistency")].

(** The report of a schedule, cleaned once and twice. *)
Definition sample_report : string :=
  "### Cognitive Schedule: **Linear**" ++ nl
  ++ "| Se | `ExplorationObjective` | $A$ | 5 |" ++ nl ++ nl
  ++ "**Intercalation Dynamics:**" ++ nl
  ++ "$$ J(\theta) = 5 \cdot [A] $$".

(** An environment with a credential, whose chat model is down. *)
Definition keyed_env : Env := scripted (Some "secret") answers_stage1_down [].

(** What [ollama list] prints with two models installed. *)
Definition ollama_listing : string :=
  "NAME            ID      SIZE" ++ nl
  ++ "llama3:latest   365c0bd 4.7 GB" ++ nl
  ++ "  mistral:7b    f974a74 4.1 GB" ++ nl.

(** A track whose formula holds pipes, as a norm does. *)
Definition track_norm : pyval :=
  PDict [("voice", PStr "Voice 3 (Ti)"); ("symbol", PStr "ConsistencyObjective");
         ("mass", PInt 2); ("formula", PStr "||x||")].

(** A chat model whose stage-2 answer is no JSON at all. *)
Definition answers_stage2_prose (l : layer) : result string :=
  match l with
  | L1 => Ok "7Se ~ Ti"
  | L2 => Ok "I cannot map this expression."
  | L3 => Ok "import torch"
  end.

(** An environment whose chat model answers each stage with a think
    span before its answer, the stage-3 answer in a fenced block. *)
Definition fenced_code : string := "```python" ++ nl ++ "import torch" ++ nl ++ "```".

Definition thinking_env : Env :=
  {| getenv := fun _ => None;
     invoke := fun l _ x =>
       match l with
       | L1 => Ok "<think>two voices</think>5Se ~ 3Fi"
       | L2 => if String.eqb x "5Se ~ 3Fi" then Ok "<think>orbit</think>{schedule}"
               else Raise timeout_error
       | L3 => if String.eqb x "{dumped}" then Ok ("<think>loss</think>" ++ fenced_code)
               else Raise timeout_error
       end;
     json_loads := decode_with
       [("{schedule}", PDict [("schedule_logic", PStr "Orbital");
                              ("score", PList [track_Se; track_Fi])])];
     json_dumps := fun _ => "{dumped}";
     container_repr := fun _ => "[]" |}.

(** A schedule with a float, strings that need escapes and two tracks;
    a reader with Python's default limits that reads the two floats
    used here; and an environment whose [json] module is that reader
    and the writer of JSON above. *)
Definition sample_schedule : pyval :=
  PDict [("original_expression", PStr "5Se ~ 3Fi");
         ("schedule_logic", PStr "Orbital");
         ("global_frequency", PFloat "1.5");
         ("score",
          PList [PDict [("voice", PStr "Voice 1 (Se)"); ("symbol", PStr "ExplorationObjective");
                        ("mass", PInt 5); ("formula", PStr "\sum_t H(\pi)");
                        ("description", PStr ("the " ++ dq ++ "new" ++ dq ++ nl))];
                 PDict [("voice", PStr "Voice 2 (Fi)"); ("symbol", PStr "SelectionObjective");
                        ("mass", PFloat "1e-05"); ("formula", PStr "```");
                        ("description", PNone)]]);
         ("math_narrative", PStr "")].

Definition sample_floats (text : string) : option string :=
  if String.eqb text "1.5" then Some "1.5"
  else if String.eqb text "1e-05" then Some "1e-05"
  else None.

Definition sample_reader : Json.reader :=
  {| Json.float_of := sample_floats; Json.max_depth := 900; Json.max_digits := Some 4300 |}.

Definition json_module_env : Env :=
  {| getenv := fun _ => None;
     invoke := fun _ _ _ => Raise timeout_error;
     json_loads := fun text =>
       match Json.loads sample_reader text with
       | Some v => Ok v
       | None => Raise (mkExn JSONDecodeError "Expecting value: line 1 column 1 (char 0)")
       end;
     json_dumps := Json.dumps (Some 2);
     container_repr := fun _ => "[]" |}.

(** * Properties *)

(** ** The string and pattern model at work *)

Example strip_white_space :
  PyStr.strip (" " ++ nl ++ "a b" ++ String (ascii_of_nat 160) (String (ascii_of_nat 9) ""))
  = "a b".
Proof. reflexivity. Qed.

Example replace_left_to_right : PyStr.replace "```" "" "````a```latex" = "`alatex".
Proof. reflexivity. Qed.

Example think_span_is_lazy :
  strip_think_tags "<think>a<think>b</think>c</think>" = "c</think>".
Proof. reflexivity. Qed.

Example think_open_needs_close : strip_think_tags "a<think>b" = "a<think>b".
Proof. reflexivity. Qed.

Example inline_math_backtracks : Re.sub inline_math_pattern group1 "`$$`" = "$$".
Proof. reflexivity. Qed.

Example inline_math_stops_at_line_end :
  Re.sub inline_math_pattern group1 ("`$a" ++ nl ++ "$`") = "`$a" ++ nl ++ "$`".
Proof. reflexivity. Qed.

Example heading_groups :
  match Re.search heading_pattern ("| Se |" ++ nl ++ "## intercalation DYNAMICS : ** $$x$$") with
  | Some (ms, _) => Some (group1 ms, group2 ms)
  | None => None
  end
  = Some ("| Se |", "$$x$$").
Proof. reflexivity. Qed.

Example report_is_cleaned :
  clean_latex_formatting
    ("```markdown" ++ nl ++ "| Se |" ++ nl ++ "### Intercalation Dynamics" ++ nl
     ++ "J = *5* [$A$]" ++ nl ++ "```")
  = "| Se |" ++ nl ++ nl ++ "**Intercalation Dynamics:**" ++ nl ++ nl
    ++ "$$" ++ nl ++ "J = 5 (A)" ++ nl ++ "$$".
Proof. reflexivity. Qed.

(** ** Blank text *)

Lemma blank_cons c s : blank (String c s) <-> PyStr.isspace c = true /\ blank s.
Proof.
  unfold blank; simpl; split.
  - intros H; split; [apply H; now left | intros d Hd; apply H; now right].
  - intros [Hc Hs] d [<- | Hd]; auto.
Qed.

Lemma lstrip_blank s : PyStr.lstrip s = "" <-> blank s.
Proof.
  induction s as [| c s IH]; simpl.
  - split; [intros _ d [] | reflexivity].
  - rewrite blank_cons. destruct (PyStr.isspace c) eqn:Hc.
    + rewrite IH; tauto.
    + split; [discriminate | intros [? _]; discriminate].
Qed.

Lemma rstrip_blank s : PyStr.rstrip s = "" <-> blank s.
Proof.
  induction s as [| c s IH]; simpl.
  - split; [intros _ d [] | reflexivity].
  - rewrite blank_cons. destruct (PyStr.rstrip s) eqn:Hr.
    + destruct (PyStr.isspace c); split; try discriminate; try tauto.
      intros [? _]; discriminate.
    + split; [discriminate |].
      intros [_ Hs]. apply IH in Hs. discriminate.
Qed.

Lemma lstrip_head s :
  match PyStr.lstrip s with
  | String c _ => PyStr.isspace c = false
  | EmptyString => True
  end.
Proof.
  induction s as [| c s IH]; simpl; auto.
  destruct (PyStr.isspace c) eqn:Hc; auto.
Qed.

Lemma strip_blank s : PyStr.strip s = "" <-> blank s.
Proof.
  unfold PyStr.strip. rewrite rstrip_blank. split.
  - intros H. apply lstrip_blank.
    pose proof (lstrip_head s) as Hh.
    destruct (PyStr.lstrip s) as [| c t]; auto.
    apply blank_cons in H. destruct H as [H _]. congruence.
  - intros H. apply lstrip_blank in H. rewrite H. intros d [].
Qed.

Lemma strip_eqb_blank s : String.eqb (PyStr.strip s) "" = true <-> blank s.
Proof. rewrite String.eqb_eq. apply strip_blank. Qed.

(** ** The orchestrator *)

Lemma process_pattern_stages E text model_name :
  ~ blank text -> credential_missing E model_name = false ->
  process_pattern E text model_name = run_stages E text model_name.
Proof.
  intros Hb Hc. unfold process_pattern.
  destruct (String.eqb (PyStr.strip text) "") eqn:Hs.
  - apply strip_eqb_blank in Hs. contradiction.
  - unfold credential_missing in Hc. rewrite Hc. reflexivity.
Qed.

Lemma run_stages_returns E text model_name :
  exists t, run_stages E text model_name = Ok t.
Proof.
  unfold run_stages, try_except.
  destruct (layer1 E text model_name) as [a | e]; [| eauto].
  destruct (layer2 E model_name a) as [[c r] | e]; [| eauto].
  destruct (layer3 E model_name c) as [p | e]; eauto.
Qed.

(** C1. If stage k of [process_pattern] raises, the returned triple holds
    the outputs of the stages before k, the message prefixed by
    'Error L<k>: ' in slot k and the empty string in the later slots; and
    [process_pattern] returns a triple on every input, whatever a stage
    raises. *)
Theorem process_pattern_stage_failure (E : Env) (text model_name : string)
    (Htext : ~ blank text) (Hcred : credential_missing E model_name = false) :
  (forall e, layer1 E text model_name = Raise e ->
     process_pattern E text model_name = Ok ("Error L1: " ++ exn_str e, "", ""))
  /\ (forall out1 e,
        layer1 E text model_name = Ok out1 ->
        layer2 E model_name out1 = Raise e ->
        process_pattern E text model_name = Ok (out1, "Error L2: " ++ exn_str e, ""))
  /\ (forall out1 composition out2 e,
        layer1 E text model_name = Ok out1 ->
        layer2 E model_name out1 = Ok (composition, out2) ->
        layer3 E model_name composition = Raise e ->
        process_pattern E text model_name = Ok (out1, out2, "Error L3: " ++ exn_str e))
  /\ (forall E' text' model_name', exists t, process_pattern E' text' model_name' = Ok t).
Proof.
  rewrite (process_pattern_stages E text model_name Htext Hcred).
  unfold run_stages, try_except. repeat split.
  - intros e ->. reflexivity.
  - intros out1 e -> ->. reflexivity.
  - intros out1 c out2 e -> -> ->. reflexivity.
  - intros E' text' model'. unfold process_pattern.
    destruct (String.eqb (PyStr.strip text') ""); [eauto |].
    destruct (_ && _); [eauto |].
    apply run_stages_returns.
Qed.

Lemma not_blank_strip s : PyStr.strip s <> "" -> ~ blank s.
Proof. intros H Hb. apply H. now apply strip_blank. Qed.

Lemma process_pattern_stage_failure_witness :
  process_pattern (scripted None answers_stage1_down []) "I feel calm" "llama3"
  = Ok ("Error L1: connection refused", "", "")
  /\ process_pattern (scripted None answers_stage2_bad [("{bad track}", track_without_formula)])
       "I feel calm" "llama3"
     = Ok ("7Se ~ Ti", "Error L2: 'formula'", "")
  /\ exists report,
       process_pattern (scripted None answers_stage3_down []) "I feel calm" "llama3"
       = Ok ("7Se ~ Ti", report, "Error L3: connection refused").
Proof.
  split; [| split].
  - apply (proj1 (process_pattern_stage_failure
                    (scripted None answers_stage1_down []) "I feel calm" "llama3"
                    (not_blank_strip "I feel calm" ltac:(discriminate)) eq_refl)
             timeout_error).
    reflexivity.
  - apply (proj1 (proj2 (process_pattern_stage_failure
                    (scripted None answers_stage2_bad [("{bad track}", track_without_formula)])
                    "I feel calm" "llama3"
                    (not_blank_strip "I feel calm" ltac:(discriminate)) eq_refl))
             "7Se ~ Ti" (mkExn KeyError "'formula'")).
    + reflexivity.
    + vm_compute. reflexivity.
  - eexists.
    eapply (proj1 (proj2 (proj2 (process_pattern_stage_failure
                    (scripted None answers_stage3_down []) "I feel calm" "llama3"
                    (not_blank_strip "I feel calm" ltac:(discriminate)) eq_refl)))
              "7Se ~ Ti" _ _ timeout_error).
    + reflexivity.
    + vm_compute. reflexivity.
    + reflexivity.
Defined.

(** C8. On a user text that is empty or white space only,
    [process_pattern] returns ("Please enter text.", "", "") for every
    model name, whatever the environment: no stage is consulted. *)
Theorem process_pattern_blank (E : Env) (text model_name : string) :
  blank text ->
  process_pattern E text model_name = Ok ("Please enter text.", "", "").
Proof.
  intros Hb. apply strip_eqb_blank in Hb.
  unfold process_pattern. rewrite Hb. reflexivity.
Qed.

Lemma process_pattern_blank_witness :
  blank (" " ++ nl ++ " ")
  /\ process_pattern (scripted None answers_stage1_down []) (" " ++ nl ++ " ") "gemini-2.5-pro"
     = Ok ("Please enter text.", "", "").
Proof.
  assert (Hb : blank (" " ++ nl ++ " ")) by (apply strip_blank; reflexivity).
  split; [exact Hb |].
  apply (process_pattern_blank _ _ _ Hb).
Defined.

(** C9. On a non-blank user text, when the model name starts with
    'gemini' up to case and GEMINI_API_KEY is absent, [process_pattern]
    returns the fixed message 'Error: GOOGLE_API_KEY missing.' in the
    first slot and empty strings in the other two, whatever the chat
    model would answer; and [get_model] raises a ValueError at every
    temperature. *)
Theorem process_pattern_missing_credential (E : Env) (text model_name : string) :
  ~ blank text ->
  PyStr.startswith (PyStr.lower model_name) "gemini" = true ->
  getenv E "GEMINI_API_KEY" = None ->
  process_pattern E text model_name = Ok ("Error: GOOGLE_API_KEY missing.", "", "")
  /\ forall temperature,
       ModelFactory.get_model E model_name temperature
       = Raise (mkExn ValueError "GEMINI_API_KEY not found in environment variables.").
Proof.
  intros Hb Hm Hk. split.
  - unfold process_pattern.
    destruct (String.eqb (PyStr.strip text) "") eqn:Hs.
    + apply strip_eqb_blank in Hs. contradiction.
    + unfold env_set. rewrite Hm, Hk. reflexivity.
  - intros temperature. unfold ModelFactory.get_model. rewrite Hm, Hk. reflexivity.
Qed.

Lemma process_pattern_missing_credential_witness :
  process_pattern (scripted None answers_stage3_down []) "I feel calm" "Gemini-2.5-flash"
  = Ok ("Error: GOOGLE_API_KEY missing.", "", "")
  /\ ModelFactory.get_model (scripted None answers_stage3_down []) "Gemini-2.5-flash" "0.8"
     = Raise (mkExn ValueError "GEMINI_API_KEY not found in environment variables.").
Proof.
  destruct (process_pattern_missing_credential
              (scripted None answers_stage3_down []) "I feel calm" "Gemini-2.5-flash"
              (not_blank_strip "I feel calm" ltac:(discriminate)) eq_refl eq_refl)
    as [H1 H2].
  split; [exact H1 | exact (H2 "0.8")].
Defined.

(** ** The composer *)

(** C2, as stated, fails: [compose] has no handler around the model
    call, so what the call raises escapes it. *)
Lemma compose_raises_counterexample :
  Composer.compose (scripted None answers_stage2_down []) (ChatOllama "llama3" "0.8") "7Se ~ Ti"
  = Raise timeout_error.
Proof. reflexivity. Qed.

(** C2, amended. [compose] raises what the model call raises. When the
    call returns text, let [text] be that text without think spans and
    fences: if [json.loads] accepts it, [compose] returns the parsed
    value as it is; if [json.loads] raises JSONDecodeError, [compose]
    returns the degraded schedule, with schedule_logic 'Linear', an
    empty score, the error message in math_narrative and [text] in
    raw_output; any other exception of [json.loads] escapes. *)
Theorem compose_parse_or_degrade (E : Env) (self : chat_model) (algebra : string) :
  (forall e, invoke E L2 self algebra = Raise e ->
     Composer.compose E self algebra = Raise e)
  /\ (forall raw, invoke E L2 self algebra = Ok raw ->
      let text := Composer.unfence (Composition.strip_think_tags raw) in
      (forall v, json_loads E text = Ok v -> Composer.compose E self algebra = Ok v)
      /\ (forall e, json_loads E text = Raise e -> exn_cls e = JSONDecodeError ->
            exists d,
              Composer.compose E self algebra = Ok (PDict d)
              /\ dict_lookup d "schedule_logic" = Some (PStr "Linear")
              /\ dict_lookup d "score" = Some (PList [])
              /\ dict_lookup d "math_narrative" = Some (PStr ("Error: " ++ exn_str e))
              /\ dict_lookup d "raw_output" = Some (PStr text))
      /\ (forall e, json_loads E text = Raise e -> exn_cls e <> JSONDecodeError ->
            Composer.compose E self algebra = Raise e)).
Proof.
  unfold Composer.compose, Composer._parse_json_safely. split.
  - intros e ->. reflexivity.
  - intros raw ->. cbn [bind]. repeat split.
    + intros v ->. reflexivity.
    + intros e -> Hc. rewrite Hc. eexists. split; [reflexivity |].
      repeat split; reflexivity.
    + intros e -> Hc. destruct (exn_cls e); congruence.
Qed.

Lemma compose_parse_or_degrade_witness :
  exists d,
    Composer.compose (scripted None answers_stage2_garbled []) (ChatOllama "llama3" "0.8") "7Se ~ Ti"
    = Ok (PDict d)
    /\ dict_lookup d "schedule_logic" = Some (PStr "Linear")
    /\ dict_lookup d "score" = Some (PList [])
    /\ dict_lookup d "math_narrative"
       = Some (PStr "Error: Expecting value: line 1 column 1 (char 0)")
    /\ dict_lookup d "raw_output" = Some (PStr (nl ++ "{oops" ++ nl)).
Proof.
  exact (proj1 (proj2 (proj2 (compose_parse_or_degrade
           (scripted None answers_stage2_garbled []) (ChatOllama "llama3" "0.8") "7Se ~ Ti")
           _ eq_refl))
         (mkExn JSONDecodeError "Expecting value: line 1 column 1 (char 0)")
         eq_refl eq_refl).
Defined.

(** C10. When stage 2's [json.loads] succeeds with a value that is not a
    dict, [compose] returns that value itself, the report slot is
    'Error parsing JSON: ' followed by the value's [str], and stage 3 is
    run on that value: its chain is invoked on the value's serialisation
    and its outcome fills the third slot. *)
Theorem non_dict_reaches_code_generator (E : Env) (text model_name out1 : string)
    (composer : chat_model) (raw : string) (v : pyval) :
  ~ blank text -> credential_missing E model_name = false ->
  layer1 E text model_name = Ok out1 ->
  Composer.init E model_name = Ok composer ->
  invoke E L2 composer out1 = Ok raw ->
  json_loads E (Composer.unfence (Composition.strip_think_tags raw)) = Ok v ->
  is_dict v = false ->
  Composer.compose E composer out1 = Ok v
  /\ process_pattern E text model_name
     = match layer3 E model_name v with
       | Ok code => Ok (out1, "Error parsing JSON: " ++ py_str E v, code)
       | Raise e => Ok (out1, "Error parsing JSON: " ++ py_str E v, "Error L3: " ++ exn_str e)
       end
  /\ layer3 E model_name v
     = (coder <- CodeGenerator.init E model_name ;;
        code <- invoke E L3 coder (json_dumps E v) ;;
        Ok (strip_think_tags code)).
Proof.
  intros Hb Hc H1 Hi Hr Hj Hd.
  assert (Hcomp : Composer.compose E composer out1 = Ok v).
  { unfold Composer.compose, Composer._parse_json_safely.
    rewrite Hr. cbn [bind]. rewrite Hj. reflexivity. }
  split; [exact Hcomp | split].
  - rewrite (process_pattern_stages E text model_name Hb Hc).
    unfold run_stages, try_except. rewrite H1.
    unfold layer2. rewrite Hi. cbn [bind]. rewrite Hcomp. cbn [bind].
    destruct v; try discriminate Hd;
      destruct (layer3 E model_name _); reflexivity.
  - unfold layer3, CodeGenerator.generate_code.
    destruct (CodeGenerator.init E model_name); cbn [bind]; [| reflexivity].
    destruct (invoke E L3 _ _); reflexivity.
Qed.

Lemma non_dict_reaches_code_generator_witness :
  process_pattern array_env "I feel calm" "llama3"
  = Ok ("7Se ~ Ti", "Error parsing JSON: [1, 2]",
        "# schedule: [" ++ nl ++ "  1," ++ nl ++ "  2" ++ nl ++ "]").
Proof.
  exact (proj1 (proj2 (non_dict_reaches_code_generator
           array_env "I feel calm" "llama3" "7Se ~ Ti" (ChatOllama "llama3" "0.8")
           "[1, 2]" (PList [PInt 1; PInt 2])
           (not_blank_strip "I feel calm" ltac:(discriminate))
           eq_refl eq_refl eq_refl eq_refl eq_refl eq_refl))).
Defined.

(** ** The report *)

Lemma append_assoc (a b c : string) : (a ++ b) ++ c = a ++ b ++ c.
Proof. induction a as [| x a IH]; simpl; [reflexivity | now rewrite IH]. Qed.

Lemma append_nil_r (a : string) : a ++ "" = a.
Proof. induction a as [| x a IH]; simpl; [reflexivity | now rewrite IH]. Qed.

Lemma length_append (a b : string) :
  String.length (a ++ b) = String.length a + String.length b.
Proof. induction a as [| x a IH]; simpl; [reflexivity | now rewrite IH]. Qed.

Lemma mapM_ok {A B} (f : A -> result B) (g : A -> B) (l : list A) :
  Forall (fun a => f a = Ok (g a)) l -> mapM f l = Ok (map g l).
Proof.
  induction 1 as [| a l Ha _ IH]; simpl; [reflexivity |].
  rewrite Ha. cbn [bind]. rewrite IH. reflexivity.
Qed.

Lemma mapM_returns {A B} (f : A -> result B) (l : list A) :
  Forall (fun a => exists b, f a = Ok b) l -> exists bs, mapM f l = Ok bs.
Proof.
  induction 1 as [| a l [b Hb] _ [bs IH]]; simpl; [eauto |].
  rewrite Hb. cbn [bind]. rewrite IH. cbn [bind]. eauto.
Qed.

Ltac track_fields H :=
  destruct H as (?voice & ?symbol & ?mass & ?formula & ?Hv & ?Hs & ?Hm & ?Hf).

Lemma table_row_returns E track :
  is_track track -> exists row, Composer.table_row E track = Ok row.
Proof.
  intros H. track_fields H. unfold Composer.table_row.
  rewrite Hf. cbn [bind replace_method]. rewrite Hv, Hs, Hm. cbn [bind]. eauto.
Qed.

Lemma linear_term_weighted E track :
  is_track track -> Composer.linear_term E track = Ok (weighted E track).
Proof.
  intros H. track_fields H. unfold Composer.linear_term, weighted, field.
  rewrite Hm, Hf. reflexivity.
Qed.

Lemma adversarial_first_weighted E track :
  is_track track -> Composer.adversarial_first E track = Ok (weighted E track).
Proof.
  intros H. track_fields H. unfold Composer.adversarial_first, weighted, field.
  rewrite Hm, Hf. reflexivity.
Qed.

Lemma adversarial_next_weighted E track :
  is_track track -> Composer.adversarial_next E track = Ok (" - " ++ weighted E track).
Proof.
  intros H. track_fields H. unfold Composer.adversarial_next, weighted, field.
  rewrite Hm, Hf. reflexivity.
Qed.

Lemma drag_first_returns E track :
  is_track track -> exists term, Composer.drag_first E track = Ok term.
Proof.
  intros H. track_fields H. unfold Composer.drag_first.
  rewrite Hm, Hf. cbn [bind]. eauto.
Qed.

Lemma drag_next_returns E track :
  is_track track -> exists term, Composer.drag_next E track = Ok term.
Proof.
  intros H. track_fields H. unfold Composer.drag_next.
  rewrite Hm, Hf. cbn [bind]. eauto.
Qed.

Lemma orbital_terms_returns E tracks :
  Forall is_track tracks ->
  forall i, exists terms, Composer.orbital_terms E i tracks = Ok terms.
Proof.
  induction 1 as [| track tracks H _ IH]; intros i; simpl; [eauto |].
  track_fields H. rewrite Hm, Hf. cbn [bind].
  destruct (IH (S i)) as [terms ->]. cbn [bind]. eauto.
Qed.

Lemma first_then_rest_returns tracks first next :
  Forall (fun t => exists term, first t = Ok term) tracks ->
  Forall (fun t => exists term, next t = Ok term) tracks ->
  exists terms,
    Composer.first_then_rest (PList tracks) first next = Ok terms
    /\ (tracks = [] -> terms = []).
Proof.
  intros Hfirst Hnext. unfold Composer.first_then_rest. cbn [py_len bind].
  destruct tracks as [| t0 tracks]; [cbn; eauto |].
  inversion Hfirst as [| ? ? Hterm0 _]; subst. destruct Hterm0 as [term0 Hterm0].
  inversion Hnext as [| ? ? _ Hrest]; subst.
  destruct (mapM_returns next tracks Hrest) as [terms Hterms].
  cbn [List.length Nat.ltb Nat.leb first_item rest_items tl bind].
  rewrite Hterm0. cbn [bind]. rewrite Hterms. cbn [bind].
  eexists; split; [reflexivity | discriminate].
Qed.

Lemma concat_cons_empty (x : string) (xs : list string) :
  String.concat "" (x :: xs) = x ++ String.concat "" xs.
Proof. destruct xs; simpl; [now rewrite append_nil_r | reflexivity]. Qed.

Lemma master_equation_adversarial E tracks :
  Forall is_track tracks ->
  Composer.master_equation E (PStr "Adversarial") (PList tracks)
  = Ok ("$$ J(\theta) = \max_\pi (" ++ adversarial_body E tracks ++ ") $$").
Proof.
  intros H. unfold Composer.master_equation. cbn [Composer.eq_str String.eqb Ascii.eqb Bool.eqb].
  unfold Composer.first_then_rest. cbn [py_len bind].
  destruct tracks as [| t0 tracks]; [reflexivity |].
  inversion H as [| ? ? H0 Hrest]; subst.
  cbn [List.length Nat.ltb Nat.leb first_item rest_items tl bind].
  rewrite (adversarial_first_weighted E t0 H0). cbn [bind].
  rewrite (mapM_ok _ (fun t => " - " ++ weighted E t)).
  - cbn [bind]. rewrite concat_cons_empty. reflexivity.
  - eapply Forall_impl; [| exact Hrest].
    intros t Ht. now apply adversarial_next_weighted.
Qed.

Lemma master_equation_returns E logic tracks :
  Forall is_track tracks ->
  exists equation,
    Composer.master_equation E logic (PList tracks)
    = Ok ("$$ J(\theta) = " ++ equation ++ " $$")
    /\ (tracks = [] -> equation = skeleton logic).
Proof.
  intros H. unfold Composer.master_equation, skeleton.
  destruct (Composer.eq_str logic "Orbital");
    [| destruct (Composer.eq_str logic "Drag");
       [| destruct (Composer.eq_str logic "Adversarial")]].
  - cbn [iterate bind].
    destruct (orbital_terms_returns E tracks H 0) as [terms Ht]. rewrite Ht. cbn [bind].
    exists ("\sum_{t} (" ++ String.concat " + " terms ++ ")"). split.
    + rewrite !append_assoc. reflexivity.
    + intros ->. simpl in Ht. injection Ht as <-. reflexivity.
  - destruct (first_then_rest_returns tracks (Composer.drag_first E) (Composer.drag_next E))
      as (terms & Ht & Hnil).
    + eapply Forall_impl; [| exact H]. intros t. apply drag_first_returns.
    + eapply Forall_impl; [| exact H]. intros t. apply drag_next_returns.
    + rewrite Ht. cbn [bind].
      exists ("\int (" ++ String.concat " + " terms ++ ") dt"). split.
      * rewrite !append_assoc. reflexivity.
      * intros Hn. rewrite (Hnil Hn). reflexivity.
  - destruct (first_then_rest_returns tracks
                (Composer.adversarial_first E) (Composer.adversarial_next E))
      as (terms & Ht & Hnil).
    + eapply Forall_impl; [| exact H]. intros t Ht. rewrite adversarial_first_weighted; eauto.
    + eapply Forall_impl; [| exact H]. intros t Ht. rewrite adversarial_next_weighted; eauto.
    + rewrite Ht. cbn [bind].
      exists ("\max_\pi (" ++ String.concat "" terms ++ ")"). split.
      * rewrite !append_assoc. reflexivity.
      * intros Hn. rewrite (Hnil Hn). reflexivity.
  - cbn [iterate bind].
    rewrite (mapM_ok _ (weighted E)).
    + cbn [bind]. eexists. split; [reflexivity |]. intros ->. reflexivity.
    + eapply Forall_impl; [| exact H]. intros t. apply linear_term_weighted.
Qed.

(** C3. For a schedule whose score is a list of tracks of any length
    (each a dict with voice, symbol, mass and a string formula; an
    absent score counts as empty), [format_latex_report] returns a text
    that begins with the title line naming schedule_logic and ends with
    the master equation between '$$ ' and ' $$'; with no track the
    equation is the bare skeleton of the schedule_logic. *)
Theorem format_latex_report_total (E : Env) (d : list (string * pyval)) (tracks : list pyval) :
  dict_get d "score" (PList []) = PList tracks ->
  Forall is_track tracks ->
  exists middle equation,
    Composer.format_latex_report E d
    = Ok ("### Cognitive Schedule: **"
          ++ py_str E (dict_get d "schedule_logic" (PStr "Linear")) ++ "**" ++ nl
          ++ middle ++ "$$ J(\theta) = " ++ equation ++ " $$")
    /\ (tracks = [] -> equation = skeleton (dict_get d "schedule_logic" (PStr "Linear"))).
Proof.
  intros Hscore Htracks. unfold Composer.format_latex_report.
  rewrite Hscore. cbn [iterate bind].
  destruct (mapM_returns (Composer.table_row E) tracks) as [rows Hrows].
  { eapply Forall_impl; [| exact Htracks]. intros t. apply table_row_returns. }
  rewrite Hrows. cbn [bind].
  destruct (master_equation_returns E (dict_get d "schedule_logic" (PStr "Linear"))
              tracks Htracks) as (equation & Heq & Hnil).
  rewrite Heq. cbn [bind].
  exists ("*" ++ py_str E (dict_get d "math_narrative" (PStr ""))
          ++ "* (Global Accel: $\omega="
          ++ py_str E (dict_get d "global_frequency" (PFloat "1.0")) ++ "$)"
          ++ nl ++ nl
          ++ "| Function | Objective Class | Math Form | Mass ($m$) |" ++ nl
          ++ "| :--- | :--- | :--- | :---: |" ++ nl
          ++ String.concat "" rows
          ++ nl ++ "**Intercalation Dynamics:**" ++ nl).
  exists equation. split; [| exact Hnil].
  unfold Composer.report_head. rewrite !append_assoc. reflexivity.
Qed.

Lemma track_Se_is_track : is_track track_Se.
Proof. repeat eexists; reflexivity. Qed.

Lemma track_Fi_is_track : is_track track_Fi.
Proof. repeat eexists; reflexivity. Qed.

Lemma format_latex_report_total_witness :
  exists middle equation,
    Composer.format_latex_report (scripted None answers_stage2_down [])
      [("schedule_logic", PStr "Drag"); ("score", PList [track_Se; track_Fi])]
    = Ok ("### Cognitive Schedule: **Drag**" ++ nl
          ++ middle ++ "$$ J(\theta) = " ++ equation ++ " $$")
    /\ ([track_Se; track_Fi] = [] -> equation = "\int () dt").
Proof.
  exact (format_latex_report_total (scripted None answers_stage2_down [])
           [("schedule_logic", PStr "Drag"); ("score", PList [track_Se; track_Fi])]
           [track_Se; track_Fi] eq_refl
           (Forall_cons _ track_Se_is_track
              (Forall_cons _ track_Fi_is_track (Forall_nil _)))).
Defined.

(** C4. For a schedule whose schedule_logic is 'Adversarial' and whose
    score is two tracks, of mass 5 and formula 'A' and of mass 3 and
    formula 'B' (any voice and symbol), the master equation is
    '$$ J(\theta) = \max_\pi (5 \cdot [A] - 3 \cdot [B]) $$' and the
    report ends with it; in general the first track contributes
    'mass \cdot [formula]' and every later one ' - mass \cdot [formula]',
    put together with nothing between. *)
Theorem adversarial_scenario (E : Env) (d : list (string * pyval)) (t1 t2 : pyval)
    (voice1 symbol1 voice2 symbol2 : pyval) :
  dict_lookup d "schedule_logic" = Some (PStr "Adversarial") ->
  dict_lookup d "score" = Some (PList [t1; t2]) ->
  getitem t1 "voice" = Ok voice1 -> getitem t1 "symbol" = Ok symbol1 ->
  getitem t1 "mass" = Ok (PInt 5) -> getitem t1 "formula" = Ok (PStr "A") ->
  getitem t2 "voice" = Ok voice2 -> getitem t2 "symbol" = Ok symbol2 ->
  getitem t2 "mass" = Ok (PInt 3) -> getitem t2 "formula" = Ok (PStr "B") ->
  Composer.master_equation E (PStr "Adversarial") (PList [t1; t2])
  = Ok "$$ J(\theta) = \max_\pi (5 \cdot [A] - 3 \cdot [B]) $$"
  /\ (exists head,
        Composer.format_latex_report E d
        = Ok (head ++ nl ++ "**Intercalation Dynamics:**" ++ nl
              ++ "$$ J(\theta) = \max_\pi (5 \cdot [A] - 3 \cdot [B]) $$"))
  /\ (forall tracks, Forall is_track tracks ->
        Composer.master_equation E (PStr "Adversarial") (PList tracks)
        = Ok ("$$ J(\theta) = \max_\pi (" ++ adversarial_body E tracks ++ ") $$")).
Proof.
  intros Hlogic Hscore Hv1 Hs1 Hm1 Hf1 Hv2 Hs2 Hm2 Hf2.
  assert (Htracks : Forall is_track [t1; t2]).
  { repeat constructor; unfold is_track; eauto 10. }
  assert (Heq : Composer.master_equation E (PStr "Adversarial") (PList [t1; t2])
                = Ok "$$ J(\theta) = \max_\pi (5 \cdot [A] - 3 \cdot [B]) $$").
  { rewrite (master_equation_adversarial E _ Htracks).
    unfold adversarial_body, weighted, field. rewrite Hm1, Hf1. cbn [map].
    rewrite Hm2, Hf2. reflexivity. }
  split; [exact Heq | split; [| apply master_equation_adversarial]].
  unfold Composer.format_latex_report, dict_get. rewrite Hlogic, Hscore.
  cbn [iterate bind].
  destruct (mapM_returns (Composer.table_row E) [t1; t2]) as [rows Hrows].
  { eapply Forall_impl; [| exact Htracks]. intros t. apply table_row_returns. }
  rewrite Hrows. cbn [bind]. rewrite Heq. cbn [bind].
  eexists. rewrite append_assoc. reflexivity.
Qed.

Lemma adversarial_scenario_witness :
  Composer.master_equation (scripted None answers_stage2_down [])
    (PStr "Adversarial") (PList [track_Se; track_Fi])
  = Ok "$$ J(\theta) = \max_\pi (5 \cdot [A] - 3 \cdot [B]) $$".
Proof.
  exact (proj1 (adversarial_scenario (scripted None answers_stage2_down [])
           [("schedule_logic", PStr "Adversarial"); ("score", PList [track_Se; track_Fi])]
           track_Se track_Fi _ _ _ _
           eq_refl eq_refl eq_refl eq_refl eq_refl eq_refl
           eq_refl eq_refl eq_refl eq_refl)).
Defined.

(** ** Fences around JSON *)

Lemma rstrip_last (x : string) (c : ascii) :
  PyStr.isspace c = false ->
  PyStr.rstrip (x ++ String c "") = x ++ String c "".
Proof.
  intros Hc. induction x as [| a x IH]; simpl.
  - now rewrite Hc.
  - rewrite IH. destruct (x ++ String c "") eqn:Hx; [| reflexivity].
    destruct x; discriminate.
Qed.

Lemma drop_length_append (a b : string) : PyStr.drop (String.length a) (a ++ b) = b.
Proof. induction a as [| x a IH]; simpl; [now destruct b | exact IH]. Qed.

Lemma take_length_append (a b : string) : PyStr.take (String.length a) (a ++ b) = a.
Proof. induction a as [| x a IH]; simpl; [now destruct b | now rewrite IH]. Qed.

Lemma endswith_append (a p : string) : PyStr.endswith (a ++ p) p = true.
Proof.
  unfold PyStr.endswith. rewrite length_append.
  replace (String.length a + String.length p - String.length p) with (String.length a) by lia.
  rewrite drop_length_append, String.eqb_refl. simpl.
  apply Nat.leb_le. lia.
Qed.

Lemma drop_last_append (a p : string) : PyStr.drop_last (String.length p) (a ++ p) = a.
Proof.
  unfold PyStr.drop_last. rewrite length_append.
  replace (String.length a + String.length p - String.length p) with (String.length a) by lia.
  apply take_length_append.
Qed.

(** A body that the closing fence completes to a text starting with a
    fence either starts with one or is made of at most two backquotes. *)
Lemma startswith_fence_append (body : string) :
  PyStr.startswith (body ++ "```") "```" = true ->
  PyStr.startswith body "```" = true \/ body = "" \/ body = "`" \/ body = "``".
Proof.
  unfold PyStr.startswith.
  destruct body as [| a body]; [tauto |].
  cbn [PyStr.after_prefix String.append].
  destruct (Ascii.eqb_spec "`" a) as [<- |]; [| discriminate].
  destruct body as [| b body]; [tauto |].
  cbn [PyStr.after_prefix String.append].
  destruct (Ascii.eqb_spec "`" b) as [<- |]; [| discriminate].
  destruct body as [| c body]; [tauto |].
  cbn [PyStr.after_prefix String.append].
  destruct (Ascii.eqb_spec "`" c) as [<- |]; [| discriminate].
  tauto.
Qed.

(** Fence stripping gives back the body of a fenced block, unless the
    body itself starts with a fence. *)
Lemma unfence_fenced (body : string) :
  PyStr.startswith body "```" = false ->
  Composer.unfence (fenced body) = body.
Proof.
  intros Hbody.
  destruct (PyStr.startswith (body ++ "```") "```") eqn:Hb.
  { apply startswith_fence_append in Hb.
    destruct Hb as [Hb | [-> | [-> | ->]]]; [congruence | reflexivity ..]. }
  unfold Composer.unfence, fenced.
  assert (Hstrip : PyStr.strip ("```json" ++ body ++ "```") = "```json" ++ body ++ "```").
  { unfold PyStr.strip.
    change (PyStr.lstrip ("```json" ++ body ++ "```")) with ("```json" ++ body ++ "```").
    replace ("```json" ++ body ++ "```") with (("```json" ++ body ++ "``") ++ "`")
      by (rewrite !append_assoc; reflexivity).
    apply rstrip_last. reflexivity. }
  rewrite Hstrip.
  change (PyStr.startswith ("```json" ++ body ++ "```") "```json") with true.
  cbn iota.
  change (PyStr.drop 7 ("```json" ++ body ++ "```")) with (body ++ "```").
  rewrite Hb, endswith_append.
  apply (drop_last_append body "```").
Qed.

(** ** The JSON text format *)

Example dumps_layout :
  Json.dumps (Some 2) (PDict [("a", PList [PInt 1; PNone]); ("b", PDict [])])
  = "{" ++ nl ++ "  " ++ dq ++ "a" ++ dq ++ ": [" ++ nl ++ "    1," ++ nl ++ "    null"
    ++ nl ++ "  ]," ++ nl ++ "  " ++ dq ++ "b" ++ dq ++ ": {}" ++ nl ++ "}"
  /\ Json.dumps None (PDict [("a", PList [PInt 1; PNone]); ("b", PDict [])])
     = "{" ++ dq ++ "a" ++ dq ++ ": [1, null], " ++ dq ++ "b" ++ dq ++ ": {}}".
Proof. split; reflexivity. Qed.

Example dumps_escapes :
  Json.dumps None (PStr ("a" ++ dq ++ "\" ++ nl ++ String (ascii_of_nat 233) "" ++ "/"))
  = dq ++ "a\" ++ dq ++ "\\\n\u00e9/" ++ dq.
Proof. reflexivity. Qed.

Example loads_numbers :
  Json.loads sample_reader " -0 " = Some (PInt 0)
  /\ Json.loads sample_reader "1.5" = Some (PFloat "1.5")
  /\ Json.loads sample_reader "01" = None
  /\ Json.loads sample_reader "1." = None
  /\ Json.loads sample_reader "[1,]" = None
  /\ Json.loads sample_reader "NaN" = None.
Proof. repeat split; reflexivity. Qed.

Example loads_strings :
  Json.loads sample_reader (dq ++ "\u00E9\/\t" ++ dq)
  = Some (PStr (String (ascii_of_nat 233) ("/" ++ String (ascii_of_nat 9) "")))
  /\ Json.loads sample_reader (dq ++ String (ascii_of_nat 9) "" ++ dq) = None
  /\ Json.loads sample_reader (dq ++ "\u0100" ++ dq) = None.
Proof. repeat split; reflexivity. Qed.

Example loads_key_twice :
  Json.loads sample_reader
    ("{" ++ dq ++ "a" ++ dq ++ ": 1, " ++ dq ++ "b" ++ dq ++ ": 2, " ++ dq ++ "a" ++ dq ++ ": 3}")
  = Some (PDict [("a", PInt 3); ("b", PInt 2)]).
Proof. reflexivity. Qed.

Lemma skip_ws_blank a b : json_blank a = true -> Json.skip_ws (a ++ b) = Json.skip_ws b.
Proof.
  unfold json_blank. induction a as [| c a IH]; [reflexivity |]. cbn [all_of String.append Json.skip_ws].
  intros H. apply andb_true_iff in H. destruct H as [Hc Ha]. rewrite Hc. now apply IH.
Qed.

Lemma skip_ws_head c s : Json.is_ws c = false -> Json.skip_ws (String c s) = String c s.
Proof. intros H. cbn [Json.skip_ws]. now rewrite H. Qed.

Lemma spaces_blank n : json_blank (Json.spaces n) = true.
Proof. induction n as [| n IH]; [reflexivity | exact IH]. Qed.

Lemma newline_indent_blank indent level : json_blank (Json.newline_indent indent level) = true.
Proof. destruct indent as [n |]; [apply spaces_blank | reflexivity]. Qed.

(** *** Strings *)

Lemma scan_string_escape_char c tail :
  Json.scan_string (Json.escape_char c ++ tail)
  = match Json.scan_string tail with
    | Some (x, rest) => Some (String c x, rest)
    | None => None
    end.
Proof.
  destruct c as [[] [] [] [] [] [] [] []]; reflexivity.
Qed.

Lemma scan_string_escape s rest :
  Json.scan_string (Json.escape s ++ dq ++ rest) = Some (s, rest).
Proof.
  induction s as [| c s IH]; [reflexivity |].
  cbn [Json.escape]. rewrite append_assoc, scan_string_escape_char, IH. reflexivity.
Qed.

(** *** Numbers *)

Lemma delimited_head c t :
  delimited (String c t) = true ->
  Json.is_digit c = false /\ Ascii.eqb c "." = false
  /\ Ascii.eqb c "e" || Ascii.eqb c "E" = false
  /\ Ascii.eqb c "+" || Ascii.eqb c "-" = false
  /\ Ascii.eqb c "-" = false /\ Ascii.eqb c "0" = false.
Proof.
  destruct c as [[] [] [] [] [] [] [] []];
    vm_compute; intros H; first [discriminate H | repeat split].
Qed.

Lemma digits_app s rest :
  delimited rest = true ->
  Json.digits (s ++ rest) = (fst (Json.digits s), snd (Json.digits s) ++ rest).
Proof.
  intros Hd. induction s as [| c s IH]; cbn [String.append Json.digits].
  - destruct rest as [| c t]; [reflexivity |].
    destruct (delimited_head c t Hd) as (Hc & _). cbn [Json.digits]. now rewrite Hc.
  - destruct (Json.is_digit c); [| reflexivity].
    rewrite IH. now destruct (Json.digits s).
Qed.

Lemma scan_frac_app s rest :
  delimited rest = true ->
  Json.scan_frac (s ++ rest) = (fst (Json.scan_frac s), snd (Json.scan_frac s) ++ rest).
Proof.
  intros Hd. destruct s as [| c s]; cbn [String.append].
  - destruct rest as [| c t]; [reflexivity |].
    destruct (delimited_head c t Hd) as (_ & Hc & _). unfold Json.scan_frac. now rewrite Hc.
  - unfold Json.scan_frac. destruct (Ascii.eqb c "."); [| reflexivity].
    rewrite (digits_app s rest Hd). destruct (Json.digits s) as [[| d ds] r]; reflexivity.
Qed.

Lemma scan_exp_app s rest :
  delimited rest = true ->
  Json.scan_exp (s ++ rest) = (fst (Json.scan_exp s), snd (Json.scan_exp s) ++ rest).
Proof.
  intros Hd. destruct s as [| e s]; cbn [String.append].
  - destruct rest as [| c t]; [reflexivity |].
    destruct (delimited_head c t Hd) as (_ & _ & Hc & _). unfold Json.scan_exp. now rewrite Hc.
  - unfold Json.scan_exp. destruct (Ascii.eqb e "e" || Ascii.eqb e "E"); [| reflexivity].
    destruct s as [| x s]; cbn [String.append].
    + destruct rest as [| c t]; [reflexivity |].
      destruct (delimited_head c t Hd) as (Hdig & _ & _ & Hc & _). rewrite Hc.
      cbn [Json.digits]. now rewrite Hdig.
    + destruct (Ascii.eqb x "+" || Ascii.eqb x "-").
      * rewrite (digits_app s rest Hd). destruct (Json.digits s) as [[| d ds] r]; reflexivity.
      * change (String x (s ++ rest)) with (String x s ++ rest).
        rewrite (digits_app (String x s) rest Hd).
        destruct (Json.digits (String x s)) as [[| d ds] r]; reflexivity.
Qed.

Lemma scan_int_app s rest int_part r :
  delimited rest = true ->
  Json.scan_int s = Some (int_part, r) ->
  Json.scan_int (s ++ rest) = Some (int_part, r ++ rest).
Proof.
  intros Hd. destruct s as [| c s]; [discriminate |]. cbn [String.append]. unfold Json.scan_int.
  destruct (Ascii.eqb c "0"); [now intros [= <- <-] |].
  destruct (Json.is_digit c); [| discriminate].
  rewrite (digits_app s rest Hd). destruct (Json.digits s) as [ds r']. now intros [= <- <-].
Qed.

Lemma scan_number_app s rest int_part tail r :
  delimited rest = true ->
  Json.scan_number s = Some (int_part, tail, r) ->
  Json.scan_number (s ++ rest) = Some (int_part, tail, r ++ rest).
Proof.
  intros Hd. unfold Json.scan_number.
  assert (Hsign :
    (match s ++ rest with
     | String c s' => if Ascii.eqb c "-" then (String c "", s') else ("", s ++ rest)
     | EmptyString => ("", s ++ rest)
     end)
    = (fst (match s with
            | String c s' => if Ascii.eqb c "-" then (String c "", s') else ("", s)
            | EmptyString => ("", s)
            end),
       snd (match s with
            | String c s' => if Ascii.eqb c "-" then (String c "", s') else ("", s)
            | EmptyString => ("", s)
            end) ++ rest)).
  { destruct s as [| c s]; cbn [String.append].
    - destruct rest as [| c t]; [reflexivity |].
      destruct (delimited_head c t Hd) as (_ & _ & _ & _ & Hc & _). now rewrite Hc.
    - now destruct (Ascii.eqb c "-"). }
  rewrite Hsign.
  destruct (match s with
            | String c s' => if Ascii.eqb c "-" then (String c "", s') else ("", s)
            | EmptyString => ("", s)
            end) as [sign s0]. cbn [fst snd].
  destruct (Json.scan_int s0) as [[ip s1] |] eqn:Hint; [| discriminate].
  rewrite (scan_int_app s0 rest ip s1 Hd Hint).
  rewrite (scan_frac_app s1 rest Hd). destruct (Json.scan_frac s1) as [frac s2]. cbn [fst snd].
  rewrite (scan_exp_app s2 rest Hd). destruct (Json.scan_exp s2) as [exp s3]. cbn [fst snd].
  now intros [= <- <- <-].
Qed.

(** A number read from a text is the front of the text. *)
Lemma digits_split s : s = fst (Json.digits s) ++ snd (Json.digits s).
Proof.
  induction s as [| c s IH]; [reflexivity |]. cbn [Json.digits].
  destruct (Json.is_digit c); [| reflexivity].
  destruct (Json.digits s) as [ds r]. cbn [fst snd String.append] in *. now rewrite <- IH.
Qed.

Lemma scan_frac_split s : s = fst (Json.scan_frac s) ++ snd (Json.scan_frac s).
Proof.
  destruct s as [| c s]; [reflexivity |]. unfold Json.scan_frac.
  destruct (Ascii.eqb c "."); [| reflexivity].
  pose proof (digits_split s) as H. destruct (Json.digits s) as [[| d ds] r]; [reflexivity |].
  cbn [fst snd String.append] in *. now rewrite <- H.
Qed.

Lemma scan_exp_split s : s = fst (Json.scan_exp s) ++ snd (Json.scan_exp s).
Proof.
  destruct s as [| e s]; [reflexivity |]. unfold Json.scan_exp.
  destruct (Ascii.eqb e "e" || Ascii.eqb e "E"); [| reflexivity].
  destruct s as [| x s].
  - reflexivity.
  - destruct (Ascii.eqb x "+" || Ascii.eqb x "-").
    + pose proof (digits_split s) as H. destruct (Json.digits s) as [[| d ds] r]; [reflexivity |].
      cbn [fst snd String.append] in *. now rewrite <- H.
    + pose proof (digits_split (String x s)) as H.
      destruct (Json.digits (String x s)) as [[| d ds] r]; [reflexivity |].
      cbn [fst snd String.append] in *. now rewrite <- H.
Qed.

Lemma scan_number_split s int_part tail r :
  Json.scan_number s = Some (int_part, tail, r) -> s = (int_part ++ tail) ++ r.
Proof.
  unfold Json.scan_number.
  assert (Hsign : forall sign s0,
            (match s with
             | String c s' => if Ascii.eqb c "-" then (String c "", s') else ("", s)
             | EmptyString => ("", s)
             end) = (sign, s0) -> s = sign ++ s0).
  { intros sign s0. destruct s as [| c s]; [now intros [= <- <-] |].
    destruct (Ascii.eqb c "-"); now intros [= <- <-]. }
  destruct (match s with
            | String c s' => if Ascii.eqb c "-" then (String c "", s') else ("", s)
            | EmptyString => ("", s)
            end) as [sign s0].
  specialize (Hsign sign s0 eq_refl).
  destruct (Json.scan_int s0) as [[ip s1] |] eqn:Hint; [| discriminate].
  assert (Hip : s0 = ip ++ s1).
  { destruct s0 as [| c s0]; [discriminate |]. unfold Json.scan_int in Hint.
    destruct (Ascii.eqb_spec c "0") as [-> |]; [now injection Hint as <- <- |].
    destruct (Json.is_digit c); [| discriminate].
    pose proof (digits_split s0) as H. destruct (Json.digits s0) as [ds r0].
    injection Hint as <- <-. cbn [fst snd String.append] in *. now rewrite <- H. }
  pose proof (scan_frac_split s1) as Hf. destruct (Json.scan_frac s1) as [frac s2].
  pose proof (scan_exp_split s2) as He. destruct (Json.scan_exp s2) as [exp s3].
  cbn [fst snd] in *. intros [= <- <- <-].
  rewrite Hsign, Hip, Hf, He. now rewrite !append_assoc.
Qed.

(** The text of an integer is a number without fraction or exponent. *)
Lemma uint_digits d :
  Json.digits (NilEmpty.string_of_uint d) = (NilEmpty.string_of_uint d, "").
Proof.
  induction d; cbn [NilEmpty.string_of_uint]; [reflexivity | ..];
    cbn [Json.digits]; rewrite IHd; reflexivity.
Qed.

Lemma to_uint_unorm p : Decimal.unorm (Pos.to_uint p) = Pos.to_uint p.
Proof.
  rewrite <- (DecimalPos.Unsigned.to_of (Pos.to_uint p)).
  now rewrite DecimalPos.Unsigned.of_to.
Qed.

Lemma to_uint_no_leading_zero p d : Pos.to_uint p <> Decimal.D0 d.
Proof.
  intros H. pose proof (to_uint_unorm p) as Hu. rewrite H in Hu.
  rewrite DecimalFacts.unorm_D0 in Hu.
  destruct (Decimal.nzhead d) eqn:Hn;
    [apply DecimalFacts.unorm_0 in Hn; rewrite Hn in Hu; injection Hu as <-;
     exact (DecimalPos.Unsigned.to_uint_nonzero p H) | ..];
    (rewrite DecimalFacts.unorm_nzhead in Hu by congruence;
     exact (DecimalFacts.nzhead_nonzero _ _ Hu)).
Qed.

Lemma scan_int_pos p :
  Json.scan_int (NilZero.string_of_uint (Pos.to_uint p))
  = Some (NilZero.string_of_uint (Pos.to_uint p), "").
Proof.
  pose proof (to_uint_no_leading_zero p) as Hz.
  pose proof (DecimalPos.Unsigned.to_uint_nonnil p) as Hn.
  destruct (Pos.to_uint p) as [| d | d | d | d | d | d | d | d | d | d];
    [congruence | now destruct (Hz d) | ..];
    cbn [NilZero.string_of_uint NilEmpty.string_of_uint]; unfold Json.scan_int;
    cbn [Ascii.eqb Bool.eqb]; change (Json.is_digit _) with true; cbn iota;
    rewrite uint_digits; reflexivity.
Qed.

Lemma scan_number_int z :
  Json.scan_number (PyStr.str_of_int z) = Some (PyStr.str_of_int z, "", "").
Proof.
  unfold PyStr.str_of_int. destruct z as [| p | p]; [reflexivity | |];
    cbn [Z.to_int NilZero.string_of_int].
  - unfold Json.scan_number.
    pose proof (scan_int_pos p) as Hp.
    destruct (NilZero.string_of_uint (Pos.to_uint p)) as [| c s] eqn:Hs; [discriminate |].
    assert (Hc : Ascii.eqb c "-" = false).
    { unfold Json.scan_int in Hp. destruct (Ascii.eqb_spec c "-") as [-> |]; [| reflexivity].
      discriminate. }
    rewrite Hc, Hp. reflexivity.
  - unfold Json.scan_number. rewrite Ascii.eqb_refl, scan_int_pos. reflexivity.
Qed.

Lemma int_of_text_str r z :
  int_allowed r z = true -> Json.int_of_text r (PyStr.str_of_int z) = Some z.
Proof.
  unfold Json.int_of_text, int_allowed. intros ->. unfold PyStr.str_of_int.
  rewrite NilZero.isi.
  - cbn [option_map]. now rewrite DecimalZ.of_to.
  - destruct z as [| p | p]; cbn [Z.to_int]; try discriminate.
    intros [= H]. exact (DecimalPos.Unsigned.to_uint_nonnil p H).
  - destruct z as [| p | p]; cbn [Z.to_int]; try discriminate.
    intros [= H]. exact (DecimalPos.Unsigned.to_uint_nonnil p H).
Qed.

(** *** Values *)

Lemma number_head c s :
  Json.scan_number (String c s) <> None -> Json.is_digit c || Ascii.eqb c "-" = true.
Proof.
  unfold Json.scan_number. destruct (Ascii.eqb c "-"); [now rewrite orb_true_r |].
  unfold Json.scan_int. destruct (Ascii.eqb_spec c "0") as [-> |]; [reflexivity |].
  destruct (Json.is_digit c); [reflexivity | congruence].
Qed.

(** What a number starts with starts no other value and ends none. *)
Lemma number_head_facts c :
  Json.is_digit c || Ascii.eqb c "-" = true ->
  Ascii.eqb c (ascii_of_nat 34) = false /\ Ascii.eqb c "{" = false /\ Ascii.eqb c "[" = false
  /\ Ascii.eqb c "n" = false /\ Ascii.eqb c "t" = false /\ Ascii.eqb c "f" = false
  /\ Json.is_ws c = false /\ Ascii.eqb c "]" = false /\ Ascii.eqb c "}" = false
  /\ Ascii.eqb "`" c = false.
Proof.
  destruct c as [[] [] [] [] [] [] [] []];
    vm_compute; intros H; first [discriminate H | repeat split].
Qed.

Lemma float_text_literal repr : float_literal repr = true -> Json.float_text repr = repr.
Proof.
  intros H. unfold Json.float_text.
  destruct (String.eqb_spec repr "nan") as [-> |]; [discriminate |].
  destruct (String.eqb_spec repr "inf") as [-> |]; [discriminate |].
  destruct (String.eqb_spec repr "-inf") as [-> |]; [discriminate | reflexivity].
Qed.

Lemma float_literal_scan repr :
  float_literal repr = true ->
  exists int_part c tail,
    Json.scan_number repr = Some (int_part, String c tail, "")
    /\ repr = int_part ++ String c tail.
Proof.
  unfold float_literal. destruct (Json.scan_number repr) as [[[ip [| c tail]] [| x r]] |] eqn:Hs;
    try discriminate.
  intros _. exists ip, c, tail. split; [reflexivity |].
  apply scan_number_split in Hs. now rewrite append_nil_r in Hs.
Qed.

Lemma dumps_list indent level x l :
  Json.dumps_at indent level (PList (x :: l))
  = "[" ++ Json.newline_indent indent (S level)
    ++ String.concat (Json.item_separator indent (S level))
         (map (Json.dumps_at indent (S level)) (x :: l))
    ++ Json.newline_indent indent level ++ "]".
Proof. reflexivity. Qed.

Lemma dumps_dict indent level kv d :
  Json.dumps_at indent level (PDict (kv :: d))
  = "{" ++ Json.newline_indent indent (S level)
    ++ String.concat (Json.item_separator indent (S level))
         (map (fun kv => Json.quote (fst kv) ++ ": " ++ Json.dumps_at indent (S level) (snd kv))
            (kv :: d))
    ++ Json.newline_indent indent level ++ "}".
Proof. reflexivity. Qed.

(** The text of a value starts with a character that is no white
    space, closes no array or object, and is no backquote. *)
Lemma dumps_head r indent level v :
  serialisable r v = true ->
  exists c t,
    Json.dumps_at indent level v = String c t
    /\ Json.is_ws c = false /\ Ascii.eqb c "]" = false /\ Ascii.eqb c "}" = false
    /\ Ascii.eqb "`" c = false.
Proof.
  intros Hv. destruct v as [| [] | z | repr | s | [| x l] | [| kv d]];
    try (do 2 eexists; split; [reflexivity | repeat split]).
  - pose proof (scan_number_int z) as Hz. cbn [Json.dumps_at].
    destruct (PyStr.str_of_int z) as [| c t]; [discriminate |].
    destruct (number_head_facts c (number_head c t ltac:(congruence)))
      as (_ & _ & _ & _ & _ & _ & Hw & Hb & Hc & Hq).
    now exists c, t.
  - cbn [serialisable] in Hv. apply andb_true_iff in Hv. destruct Hv as [Hl _].
    cbn [Json.dumps_at]. rewrite (float_text_literal repr Hl).
    destruct (float_literal_scan repr Hl) as (ip & c0 & tail & Hs & _).
    destruct repr as [| c t]; [discriminate |].
    destruct (number_head_facts c (number_head c t ltac:(congruence)))
      as (_ & _ & _ & _ & _ & _ & Hw & Hb & Hc & Hq).
    now exists c, t.
Qed.

Lemma item_separator_form indent level :
  exists gap, Json.item_separator indent level = String "," gap /\ json_blank gap = true.
Proof.
  destruct indent as [n |]; cbn [Json.item_separator].
  - exists (Json.newline_indent (Some n) level). split; [reflexivity |].
    apply newline_indent_blank.
  - now exists " ".
Qed.

Lemma delimited_close indent level (bracket : ascii) rest :
  Ascii.eqb bracket "]" || Ascii.eqb bracket "}" = true ->
  delimited (Json.newline_indent indent level ++ String bracket rest) = true.
Proof.
  intros Hb. destruct indent as [n |]; [reflexivity |].
  cbn [Json.newline_indent String.append delimited].
  apply orb_true_iff in Hb. destruct Hb as [-> | ->]; now rewrite ?orb_true_r.
Qed.

Lemma skip_ws_close indent level (bracket : ascii) rest :
  Json.is_ws bracket = false ->
  Json.skip_ws (Json.newline_indent indent level ++ String bracket rest) = String bracket rest.
Proof.
  intros Hb. rewrite (skip_ws_blank _ _ (newline_indent_blank indent level)).
  now apply skip_ws_head.
Qed.

Lemma concat_cons (sep x : string) (y : string) (l : list string) :
  String.concat sep (x :: y :: l) = x ++ sep ++ String.concat sep (y :: l).
Proof. reflexivity. Qed.

Lemma parse_value_number r depth fuel c s :
  Json.is_digit c || Ascii.eqb c "-" = true ->
  Json.parse_value r depth (S fuel) (String c s)
  = match Json.scan_number (String c s) with
    | Some (int_part, EmptyString, rest) =>
        match Json.int_of_text r int_part with
        | Some z => Some (PInt z, rest)
        | None => None
        end
    | Some (int_part, tail, rest) =>
        match Json.float_of r (int_part ++ tail) with
        | Some repr => Some (PFloat repr, rest)
        | None => None
        end
    | None => None
    end.
Proof.
  intros H. destruct (number_head_facts c H) as (H1 & H2 & H3 & H4 & H5 & H6 & _).
  cbn [Json.parse_value]. now rewrite H1, H2, H3, H4, H5, H6.
Qed.

Lemma store_fresh d key v :
  existsb (String.eqb key) (map fst d) = false -> Json.store d key v = (d ++ [(key, v)])%list.
Proof.
  induction d as [| [k x] d IH]; [reflexivity |]. cbn [map fst existsb Json.store app].
  intros H. apply orb_false_iff in H. destruct H as [Hk Hd].
  rewrite String.eqb_sym, Hk. now rewrite (IH Hd).
Qed.

Lemma existsb_app_false {A} (p : A -> bool) l1 l2 :
  existsb p l1 = false -> existsb p l2 = false -> existsb p (l1 ++ l2)%list = false.
Proof. intros H1 H2. rewrite existsb_app, H1, H2. reflexivity. Qed.

Lemma dict_of_pairs_distinct d :
  distinct (map fst d) = true -> Json.dict_of_pairs d = d.
Proof.
  unfold Json.dict_of_pairs.
  assert (H : forall pairs acc,
            distinct (map fst pairs) = true ->
            (forall kv, In kv pairs -> existsb (String.eqb (fst kv)) (map fst acc) = false) ->
            fold_left (fun d kv => Json.store d (fst kv) (snd kv)) pairs acc = (acc ++ pairs)%list).
  { induction pairs as [| [k x] pairs IH]; intros acc Hd Hacc; cbn [fold_left].
    - now rewrite app_nil_r.
    - cbn [map fst distinct] in Hd. apply andb_true_iff in Hd. destruct Hd as [Hk Hd].
      apply negb_true_iff in Hk. cbn [fst snd].
      rewrite (store_fresh acc k x (Hacc (k, x) (or_introl eq_refl))).
      rewrite IH; [now rewrite <- app_assoc | exact Hd |].
      intros kv Hin. rewrite map_app. apply existsb_app_false.
      + apply Hacc. now right.
      + cbn [map fst existsb]. rewrite orb_false_r.
        destruct (String.eqb_spec (fst kv) k) as [He |]; [| reflexivity].
        rewrite <- He in Hk.
        assert (Hex : existsb (String.eqb (fst kv)) (map fst pairs) = true).
        { apply existsb_exists. exists (fst kv). split; [| apply String.eqb_refl].
          apply in_map_iff. now exists kv. }
        congruence. }
  intros Hd. apply (H d [] Hd). reflexivity.
Qed.

Lemma parse_value_array r depth fuel s :
  depth < Json.max_depth r ->
  Json.parse_value r depth (S fuel) (String "[" s)
  = match Json.skip_ws s with
    | String c1 s1 =>
        if Ascii.eqb c1 "]" then Some (PList [], s1)
        else
          match Json.parse_elements r (S depth) fuel (String c1 s1) with
          | Some (items, rest) => Some (PList items, rest)
          | None => None
          end
    | EmptyString => None
    end.
Proof.
  intros H. apply Nat.ltb_lt in H. cbn [Json.parse_value].
  change (Ascii.eqb "[" (ascii_of_nat 34)) with false.
  change (Ascii.eqb "[" "{") with false. change (Ascii.eqb "[" "[") with true.
  cbn iota. now rewrite H.
Qed.

Lemma parse_value_object r depth fuel s :
  depth < Json.max_depth r ->
  Json.parse_value r depth (S fuel) (String "{" s)
  = match Json.skip_ws s with
    | String c1 s1 =>
        if Ascii.eqb c1 "}" then Some (PDict [], s1)
        else
          match Json.parse_members r (S depth) fuel (String c1 s1) with
          | Some (pairs, rest) => Some (PDict (Json.dict_of_pairs pairs), rest)
          | None => None
          end
    | EmptyString => None
    end.
Proof.
  intros H. apply Nat.ltb_lt in H. cbn [Json.parse_value].
  change (Ascii.eqb "{" (ascii_of_nat 34)) with false.
  change (Ascii.eqb "{" "{") with true.
  cbn iota. now rewrite H.
Qed.

Lemma parse_elements_unfold r depth fuel s :
  Json.parse_elements r depth (S fuel) s
  = match Json.parse_value r depth fuel s with
    | Some (v, rest) =>
        match Json.skip_ws rest with
        | String c s1 =>
            if Ascii.eqb c "," then
              match Json.parse_elements r depth fuel (Json.skip_ws s1) with
              | Some (items, rest') => Some (v :: items, rest')
              | None => None
              end
            else if Ascii.eqb c "]" then Some ([v], s1)
            else None
        | EmptyString => None
        end
    | None => None
    end.
Proof. reflexivity. Qed.

Lemma parse_members_unfold r depth fuel s :
  Json.parse_members r depth (S fuel) (String (ascii_of_nat 34) s)
  = match Json.scan_string s with
    | Some (key, rest0) =>
        match Json.skip_ws rest0 with
        | String colon s1 =>
            if Ascii.eqb colon ":" then
              match Json.parse_value r depth fuel (Json.skip_ws s1) with
              | Some (v, rest) =>
                  match Json.skip_ws rest with
                  | String c s2 =>
                      if Ascii.eqb c "," then
                        match Json.parse_members r depth fuel (Json.skip_ws s2) with
                        | Some (pairs, rest') => Some ((key, v) :: pairs, rest')
                        | None => None
                        end
                      else if Ascii.eqb c "}" then Some ([(key, v)], s2)
                      else None
                  | EmptyString => None
                  end
              | None => None
              end
            else None
        | EmptyString => None
        end
    | None => None
    end.
Proof. reflexivity. Qed.

Lemma parse_member r depth fuel indent level key v tail :
  serialisable r v = true ->
  Json.parse_value r depth fuel (Json.dumps_at indent level v ++ tail) = Some (v, tail) ->
  Json.parse_members r depth (S fuel)
    (Json.quote key ++ ": " ++ Json.dumps_at indent level v ++ tail)
  = match Json.skip_ws tail with
    | String c s2 =>
        if Ascii.eqb c "," then
          match Json.parse_members r depth fuel (Json.skip_ws s2) with
          | Some (pairs, rest') => Some ((key, v) :: pairs, rest')
          | None => None
          end
        else if Ascii.eqb c "}" then Some ([(key, v)], s2)
        else None
    | EmptyString => None
    end.
Proof.
  intros Hv Hparse. unfold Json.quote. rewrite !append_assoc.
  change (dq ++ Json.escape key ++ ?a) with (String (ascii_of_nat 34) (Json.escape key ++ a)).
  rewrite parse_members_unfold, scan_string_escape.
  change (": " ++ ?a) with (String ":" (" " ++ a)).
  rewrite (skip_ws_head ":" _ eq_refl). cbn [Ascii.eqb Bool.eqb].
  rewrite (skip_ws_blank " " _ eq_refl).
  destruct (dumps_head r indent level v Hv) as (c & t & Hd & Hws & _).
  rewrite Hd in Hparse |- *. cbn [String.append] in Hparse |- *.
  now rewrite (skip_ws_head c _ Hws), Hparse.
Qed.

Lemma weight_pos v : 1 <= weight v.
Proof. destruct v; cbn [weight]; lia. Qed.

Lemma nesting_pos_list l : nesting (PList l) = S (list_max (map nesting l)).
Proof. reflexivity. Qed.

(** The reader gives back the value whose text stands at the front of
    a text, with what follows the text, when the fuel covers the value
    and its nesting stays within the depth allowed. *)
Lemma parse_round_trip r indent : forall fuel,
  (forall v depth level rest,
     weight v <= fuel -> depth + nesting v <= Json.max_depth r ->
     serialisable r v = true -> delimited rest = true ->
     Json.parse_value r depth fuel (Json.dumps_at indent level v ++ rest) = Some (v, rest))
  /\ (forall x l depth level rest,
        list_sum (map (fun y => S (weight y)) (x :: l)) <= fuel ->
        depth + list_max (map nesting (x :: l)) <= Json.max_depth r ->
        forallb (serialisable r) (x :: l) = true ->
        Json.parse_elements r depth fuel
          (String.concat (Json.item_separator indent (S level))
             (map (Json.dumps_at indent (S level)) (x :: l))
           ++ Json.newline_indent indent level ++ "]" ++ rest)
        = Some (x :: l, rest))
  /\ (forall kv d depth level rest,
        list_sum (map (fun kv => S (weight (snd kv))) (kv :: d)) <= fuel ->
        depth + list_max (map (fun kv => nesting (snd kv)) (kv :: d)) <= Json.max_depth r ->
        forallb (fun kv => serialisable r (snd kv)) (kv :: d) = true ->
        Json.parse_members r depth fuel
          (String.concat (Json.item_separator indent (S level))
             (map (fun kv => Json.quote (fst kv) ++ ": "
                             ++ Json.dumps_at indent (S level) (snd kv)) (kv :: d))
           ++ Json.newline_indent indent level ++ "}" ++ rest)
        = Some (kv :: d, rest)).
Proof.
  induction fuel as [| f (IHv & IHe & IHm)].
  { repeat split.
    - intros v depth level rest Hw. pose proof (weight_pos v). lia.
    - intros x l depth level rest Hw. cbn [map list_sum fold_right] in Hw. lia.
    - intros kv d depth level rest Hw. cbn [map list_sum fold_right] in Hw. lia. }
  split; [| split].
  - (* a value *)
    intros v depth level rest Hw Hn Hv Hrest.
    destruct v as [| [] | z | repr | s | [| x l] | [| kv d]]; try reflexivity.
    + (* an integer *)
      cbn [Json.dumps_at]. pose proof (scan_number_int z) as Hz.
      cbn [serialisable] in Hv. pose proof (int_of_text_str r z Hv) as Hi.
      destruct (PyStr.str_of_int z) as [| c t]; [discriminate |].
      pose proof (scan_number_app _ rest _ _ _ Hrest Hz) as Hs.
      cbn [String.append] in Hs |- *.
      rewrite (parse_value_number r depth f c (t ++ rest) (number_head c t ltac:(congruence))).
      now rewrite Hs, Hi.
    + (* a float *)
      cbn [serialisable] in Hv. apply andb_true_iff in Hv. destruct Hv as [Hl Hback].
      cbn [Json.dumps_at]. rewrite (float_text_literal repr Hl).
      destruct (float_literal_scan repr Hl) as (ip & c0 & tail & Hs & Hrepr).
      destruct (Json.float_of r repr) as [back |] eqn:Hf; [| discriminate].
      apply String.eqb_eq in Hback. subst back.
      pose proof (scan_number_app _ rest _ _ _ Hrest Hs) as Hs'.
      destruct repr as [| c t]; [discriminate |].
      cbn [String.append] in Hs' |- *.
      rewrite (parse_value_number r depth f c (t ++ rest) (number_head c t ltac:(congruence))).
      rewrite Hs', <- Hrepr, Hf. reflexivity.
    + (* a string *)
      cbn [Json.dumps_at]. unfold Json.quote. rewrite !append_assoc.
      change (dq ++ Json.escape s ++ dq ++ rest)
        with (String (ascii_of_nat 34) (Json.escape s ++ dq ++ rest)).
      cbn [Json.parse_value]. rewrite Ascii.eqb_refl, scan_string_escape. reflexivity.
    + (* the empty array *)
      cbn [nesting map list_max fold_right] in Hn.
      change (Json.dumps_at indent level (PList []) ++ rest) with (String "[" (String "]" rest)).
      now rewrite parse_value_array by lia.
    + (* an array *)
      rewrite dumps_list. cbn [weight] in Hw. cbn [serialisable] in Hv.
      rewrite nesting_pos_list in Hn.
      assert (He : Json.parse_elements r (S depth) f
                     (String.concat (Json.item_separator indent (S level))
                        (map (Json.dumps_at indent (S level)) (x :: l))
                      ++ Json.newline_indent indent level ++ "]" ++ rest)
                   = Some (x :: l, rest)) by (apply IHe; [lia | lia | exact Hv]).
      assert (Hhead : exists c t,
                String.concat (Json.item_separator indent (S level))
                  (map (Json.dumps_at indent (S level)) (x :: l))
                ++ Json.newline_indent indent level ++ "]" ++ rest = String c t
                /\ Json.is_ws c = false /\ Ascii.eqb c "]" = false).
      { cbn [forallb] in Hv. apply andb_true_iff in Hv. destruct Hv as [Hx _].
        destruct (dumps_head r indent (S level) x Hx) as (c & t & Hd & Hws & Hb & _).
        destruct l as [| y l]; cbn [map].
        - cbn [String.concat]. rewrite Hd. cbn [String.append].
          do 2 eexists. split; [reflexivity | split; assumption].
        - rewrite concat_cons, Hd. cbn [String.append].
          do 2 eexists. split; [reflexivity | split; assumption]. }
      destruct Hhead as (c & t & Hd & Hws & Hb).
      rewrite !append_assoc.
      change ("[" ++ ?a) with (String "[" a).
      rewrite parse_value_array by lia.
      rewrite (skip_ws_blank _ _ (newline_indent_blank indent (S level))).
      rewrite Hd in He |- *. rewrite (skip_ws_head c t Hws), Hb, He. reflexivity.
    + (* the empty object *)
      cbn [nesting map list_max fold_right] in Hn.
      change (Json.dumps_at indent level (PDict []) ++ rest) with (String "{" (String "}" rest)).
      now rewrite parse_value_object by lia.
    + (* an object *)
      rewrite dumps_dict. cbn [weight] in Hw. cbn [serialisable] in Hv.
      apply andb_true_iff in Hv. destruct Hv as [Hkeys Hv].
      change (nesting (PDict (kv :: d)))
        with (S (list_max (map (fun kv => nesting (snd kv)) (kv :: d)))) in Hn.
      assert (He : Json.parse_members r (S depth) f
                     (String.concat (Json.item_separator indent (S level))
                        (map (fun kv => Json.quote (fst kv) ++ ": "
                                        ++ Json.dumps_at indent (S level) (snd kv)) (kv :: d))
                      ++ Json.newline_indent indent level ++ "}" ++ rest)
                   = Some (kv :: d, rest)) by (apply IHm; [lia | lia | exact Hv]).
      assert (Hhead : exists t,
                String.concat (Json.item_separator indent (S level))
                  (map (fun kv => Json.quote (fst kv) ++ ": "
                                  ++ Json.dumps_at indent (S level) (snd kv)) (kv :: d))
                ++ Json.newline_indent indent level ++ "}" ++ rest
                = String (ascii_of_nat 34) t).
      { destruct d as [| kv' d]; cbn [map].
        - cbn [String.concat]. unfold Json.quote. eexists. reflexivity.
        - rewrite concat_cons. unfold Json.quote. eexists. reflexivity. }
      destruct Hhead as (t & Hd).
      rewrite !append_assoc.
      change ("{" ++ ?a) with (String "{" a).
      rewrite parse_value_object by lia.
      rewrite (skip_ws_blank _ _ (newline_indent_blank indent (S level))).
      rewrite Hd in He |- *. rewrite (skip_ws_head (ascii_of_nat 34) t eq_refl).
      change (Ascii.eqb (ascii_of_nat 34) "}") with false. cbn iota.
      rewrite He, (dict_of_pairs_distinct _ Hkeys). reflexivity.
  - (* the items of an array *)
    intros x l depth level rest Hw Hn Hv.
    cbn [map list_sum fold_right] in Hw. cbn [map list_max fold_right] in Hn.
    cbn [forallb] in Hv. apply andb_true_iff in Hv. destruct Hv as [Hx Hl].
    rewrite parse_elements_unfold. destruct l as [| y l]; cbn [map].
    + cbn [String.concat]. change ("]" ++ rest) with (String "]" rest).
      rewrite (IHv x depth (S level) _ ltac:(lia) ltac:(lia) Hx
                 (delimited_close indent level "]" rest eq_refl)).
      rewrite (skip_ws_close indent level "]" rest eq_refl). reflexivity.
    + rewrite concat_cons, !append_assoc.
      destruct (item_separator_form indent (S level)) as (gap & Hsep & Hgap).
      rewrite Hsep at 1. cbn [String.append].
      rewrite (IHv x depth (S level)) by first [lia | exact Hx | reflexivity].
      rewrite (skip_ws_head "," _ eq_refl). cbn [Ascii.eqb Bool.eqb].
      rewrite (skip_ws_blank _ _ Hgap).
      assert (Hhead : exists c t,
                String.concat (Json.item_separator indent (S level))
                  (Json.dumps_at indent (S level) y :: map (Json.dumps_at indent (S level)) l)
                ++ Json.newline_indent indent level ++ "]" ++ rest = String c t
                /\ Json.is_ws c = false).
      { cbn [forallb] in Hl. apply andb_true_iff in Hl. destruct Hl as [Hy _].
        destruct (dumps_head r indent (S level) y Hy) as (c & t & Hd & Hws & _).
        destruct l as [| z l]; cbn [map].
        - cbn [String.concat]. rewrite Hd. cbn [String.append].
          do 2 eexists. split; [reflexivity | assumption].
        - rewrite concat_cons, Hd. cbn [String.append].
          do 2 eexists. split; [reflexivity | assumption]. }
      destruct Hhead as (c & t & Hd & Hws).
      pose proof (IHe y l depth level rest) as Hrec. cbn [map] in Hrec.
      change (String "]" rest) with ("]" ++ rest).
      rewrite Hd in Hrec |- *. rewrite (skip_ws_head c t Hws).
      rewrite Hrec;
        [reflexivity | cbn [map list_sum fold_right] in *; lia
         | cbn [map list_max fold_right] in *; lia | exact Hl].
  - (* the pairs of an object *)
    intros [k v] d depth level rest Hw Hn Hv.
    cbn [map list_sum fold_right snd] in Hw. cbn [map list_max fold_right snd] in Hn.
    cbn [forallb snd] in Hv.
    apply andb_true_iff in Hv. destruct Hv as [Hx Hl].
    destruct d as [| kv d]; cbn [map fst snd].
    + cbn [String.concat]. rewrite !append_assoc.
      change ("}" ++ rest) with (String "}" rest).
      rewrite (parse_member r depth f indent (S level) k v _ Hx
                 (IHv v depth (S level) _ ltac:(lia) ltac:(lia) Hx
                    (delimited_close indent level "}" rest eq_refl))).
      rewrite (skip_ws_close indent level "}" rest eq_refl). reflexivity.
    + rewrite concat_cons, !append_assoc.
      destruct (item_separator_form indent (S level)) as (gap & Hsep & Hgap).
      rewrite Hsep at 1. change (String "," gap ++ ?a) with (String "," (gap ++ a)).
      rewrite (parse_member r depth f indent (S level) k v _ Hx)
        by (apply IHv; first [lia | exact Hx | reflexivity]).
      rewrite (skip_ws_head "," _ eq_refl). cbn [Ascii.eqb Bool.eqb].
      rewrite (skip_ws_blank _ _ Hgap).
      pose proof (IHm kv d depth level rest) as Hrec. cbn [map] in Hrec.
      assert (Hhead : exists t,
                String.concat (Json.item_separator indent (S level))
                  ((Json.quote (fst kv) ++ ": " ++ Json.dumps_at indent (S level) (snd kv))
                   :: map (fun kv => Json.quote (fst kv) ++ ": "
                                     ++ Json.dumps_at indent (S level) (snd kv)) d)
                ++ Json.newline_indent indent level ++ "}" ++ rest
                = String (ascii_of_nat 34) t).
      { destruct d as [| kv' d]; cbn [map].
        - cbn [String.concat]. unfold Json.quote. eexists. reflexivity.
        - rewrite concat_cons. unfold Json.quote. eexists. reflexivity. }
      destruct Hhead as (t & Hd).
      rewrite Hd in Hrec |- *. rewrite (skip_ws_head (ascii_of_nat 34) t eq_refl).
      rewrite Hrec;
        [reflexivity | cbn [map list_sum fold_right] in *; lia
         | cbn [map list_max fold_right] in *; lia | exact Hl].
Qed.

(** The text of a value is at least as long as the value is heavy, so
    the length of a text is fuel enough to read it. *)
Lemma weight_bound r indent : forall n,
  (forall v level,
     weight v <= n -> serialisable r v = true ->
     weight v <= String.length (Json.dumps_at indent level v))
  /\ (forall x l level,
        list_sum (map (fun y => S (weight y)) (x :: l)) <= n ->
        forallb (serialisable r) (x :: l) = true ->
        list_sum (map (fun y => S (weight y)) (x :: l))
        <= S (String.length (String.concat (Json.item_separator indent level)
                               (map (Json.dumps_at indent level) (x :: l)))))
  /\ (forall kv d level,
        list_sum (map (fun kv => S (weight (snd kv))) (kv :: d)) <= n ->
        forallb (fun kv => serialisable r (snd kv)) (kv :: d) = true ->
        list_sum (map (fun kv => S (weight (snd kv))) (kv :: d))
        <= S (String.length
                (String.concat (Json.item_separator indent level)
                   (map (fun kv => Json.quote (fst kv) ++ ": "
                                   ++ Json.dumps_at indent level (snd kv)) (kv :: d))))).
Proof.
  induction n as [| n (IHv & IHe & IHm)].
  { repeat split.
    - intros v level Hw. pose proof (weight_pos v). lia.
    - intros x l level Hw. cbn [map list_sum fold_right] in Hw. lia.
    - intros kv d level Hw. cbn [map list_sum fold_right] in Hw. lia. }
  assert (Hsep : forall level, 1 <= String.length (Json.item_separator indent level)).
  { intros level. destruct (item_separator_form indent level) as (gap & -> & _).
    cbn [String.length]. lia. }
  split; [| split].
  - intros v level Hw Hv.
    destruct (dumps_head r indent level v Hv) as (c & t & Hd & _).
    destruct v as [| b | z | repr | s | [| x l] | [| kv d]];
      try (rewrite Hd; cbn [weight map list_sum fold_right String.length]; lia).
    + rewrite dumps_list, !length_append. cbn [weight] in Hw |- *. cbn [serialisable] in Hv.
      pose proof (IHe x l (S level) ltac:(lia) Hv). cbn [String.length]. lia.
    + rewrite dumps_dict, !length_append. cbn [weight] in Hw |- *. cbn [serialisable] in Hv.
      apply andb_true_iff in Hv. destruct Hv as [_ Hv].
      pose proof (IHm kv d (S level) ltac:(lia) Hv). cbn [String.length]. lia.
  - intros x l level Hw Hv. cbn [forallb] in Hv. apply andb_true_iff in Hv.
    destruct Hv as [Hx Hl]. cbn [map list_sum fold_right] in Hw.
    pose proof (IHv x level ltac:(lia) Hx) as Hbx.
    destruct l as [| y l]; cbn [map].
    + cbn [String.concat list_sum fold_right]. lia.
    + rewrite concat_cons, !length_append.
      pose proof (IHe y l level) as Hrec. cbn [map list_sum fold_right] in Hrec, Hw |- *.
      specialize (Hrec ltac:(lia) Hl). specialize (Hsep level). lia.
  - intros [k v] d level Hw Hv. cbn [forallb snd] in Hv. apply andb_true_iff in Hv.
    destruct Hv as [Hx Hl]. cbn [map list_sum fold_right snd] in Hw.
    pose proof (IHv v level ltac:(lia) Hx) as Hbx.
    destruct d as [| kv d]; cbn [map fst snd].
    + cbn [String.concat list_sum fold_right]. rewrite !length_append. lia.
    + rewrite concat_cons, !length_append.
      pose proof (IHm kv d level) as Hrec. cbn [map list_sum fold_right] in Hrec, Hw |- *.
      specialize (Hrec ltac:(lia) Hl). specialize (Hsep level). lia.
Qed.

Lemma json_blank_delimited w : json_blank w = true -> delimited w = true.
Proof.
  destruct w as [| c w]; [reflexivity |]. unfold json_blank. cbn [all_of delimited].
  intros H. apply andb_true_iff in H. destruct H as [-> _]. reflexivity.
Qed.

Lemma skip_ws_all w : json_blank w = true -> Json.skip_ws w = "".
Proof.
  intros H. rewrite <- (append_nil_r w). now rewrite (skip_ws_blank w "" H).
Qed.

(** Reading gives back what writing was given: [json.loads] of the
    text [json.dumps] writes for a serialisable value, with any
    [indent] and any white space around the text, is the value. *)
Lemma loads_dumps r indent v w1 w2 :
  serialisable r v = true -> nesting v <= Json.max_depth r ->
  json_blank w1 = true -> json_blank w2 = true ->
  Json.loads r (w1 ++ Json.dumps indent v ++ w2) = Some v.
Proof.
  intros Hv Hn H1 H2. unfold Json.loads, Json.dumps.
  rewrite (skip_ws_blank w1 _ H1).
  destruct (dumps_head r indent 0 v Hv) as (c & t & Hd & Hws & _).
  assert (Hskip : Json.skip_ws (Json.dumps_at indent 0 v ++ w2) = Json.dumps_at indent 0 v ++ w2).
  { rewrite Hd. cbn [String.append]. now apply skip_ws_head. }
  rewrite Hskip.
  destruct (parse_round_trip r indent
              (String.length (w1 ++ Json.dumps_at indent 0 v ++ w2))) as (Hparse & _).
  rewrite Hparse;
    [now rewrite (skip_ws_all w2 H2) | | exact Hn | exact Hv | now apply json_blank_delimited].
  destruct (weight_bound r indent (weight v)) as (Hbound & _).
  specialize (Hbound v 0 (le_n _) Hv). rewrite !length_append. lia.
Qed.

Lemma ws_not_backquote c : Json.is_ws c = true -> Ascii.eqb "`" c = false.
Proof.
  destruct c as [[] [] [] [] [] [] [] []]; vm_compute; intros H;
    first [discriminate H | reflexivity].
Qed.

(** A JSON text, with white space before it or none, starts with no fence. *)
Lemma json_text_no_fence r indent v w1 w2 :
  serialisable r v = true -> json_blank w1 = true ->
  PyStr.startswith (w1 ++ Json.dumps indent v ++ w2) "```" = false.
Proof.
  intros Hv H1. unfold PyStr.startswith. destruct w1 as [| c w1].
  - destruct (dumps_head r indent 0 v Hv) as (c & t & Hd & _ & _ & _ & Hq).
    unfold Json.dumps. rewrite Hd. cbn [String.append PyStr.after_prefix]. now rewrite Hq.
  - unfold json_blank in H1. cbn [all_of] in H1. apply andb_true_iff in H1.
    destruct H1 as [Hc _]. cbn [String.append PyStr.after_prefix].
    now rewrite (ws_not_backquote c Hc).
Qed.

(** C6. For every value [v] that serializes to valid JSON (no dict
    binds a key twice, every float is finite and [float] reads it back
    from its [repr], as holds of a Schedule), every [indent] and every
    white space [w1], [w2] between the text and the fences (a line feed
    each, in a Markdown block): the text [json.dumps] writes for [v] is
    read back as [v] by [json.loads]; fence stripping gives back the
    text between the opening fence tagged json and the closing fence,
    and nothing else; so [_parse_json_safely] returns [v] on the fenced
    block.  The same holds of the text the environment's own
    [json.dumps] writes, which is the text for [indent=2].  The value
    is taken to nest no deeper than the interpreter's recursion limit
    lets [json.loads] go and to hold no integer of more digits than it
    converts. *)
Theorem fenced_json_round_trip (E : Env) (r : Json.reader)
    (indent : option nat) (v : pyval) (w1 w2 : string) :
  reads_json E r ->
  serialisable r v = true -> nesting v <= Json.max_depth r ->
  json_blank w1 = true -> json_blank w2 = true ->
  Json.loads r (w1 ++ Json.dumps indent v ++ w2) = Some v
  /\ Composer.unfence (fenced (w1 ++ Json.dumps indent v ++ w2))
     = w1 ++ Json.dumps indent v ++ w2
  /\ Composer._parse_json_safely E (fenced (w1 ++ Json.dumps indent v ++ w2)) = Ok v
  /\ (json_dumps E v = Json.dumps (Some 2) v ->
      Composer._parse_json_safely E (fenced (w1 ++ json_dumps E v ++ w2)) = Ok v).
Proof.
  intros Hreads Hv Hn H1 H2.
  assert (Hparse : forall i,
            Composer._parse_json_safely E (fenced (w1 ++ Json.dumps i v ++ w2)) = Ok v).
  { intros i. unfold Composer._parse_json_safely.
    rewrite (unfence_fenced _ (json_text_no_fence r i v w1 w2 Hv H1)).
    now rewrite (Hreads _ _ (loads_dumps r i v w1 w2 Hv Hn H1 H2)). }
  split; [exact (loads_dumps r indent v w1 w2 Hv Hn H1 H2) |].
  split; [exact (unfence_fenced _ (json_text_no_fence r indent v w1 w2 Hv H1)) |].
  split; [apply Hparse |].
  intros ->. apply Hparse.
Qed.

Lemma fenced_json_round_trip_witness :
  Composer._parse_json_safely json_module_env
    ("```json" ++ nl ++ json_dumps json_module_env sample_schedule ++ nl ++ "```")
  = Ok sample_schedule.
Proof.
  refine (proj2 (proj2 (proj2 (fenced_json_round_trip json_module_env sample_reader (Some 2)
                                 sample_schedule nl nl _ eq_refl _ eq_refl eq_refl)))
            eq_refl).
  - intros text v H. cbn [json_loads json_module_env]. now rewrite H.
  - apply Nat.leb_le. reflexivity.
Defined.

Example sample_schedule_text :
  Json.dumps None sample_schedule
  = "{" ++ dq ++ "original_expression" ++ dq ++ ": " ++ dq ++ "5Se ~ 3Fi" ++ dq
    ++ ", " ++ dq ++ "schedule_logic" ++ dq ++ ": " ++ dq ++ "Orbital" ++ dq
    ++ ", " ++ dq ++ "global_frequency" ++ dq ++ ": 1.5"
    ++ ", " ++ dq ++ "score" ++ dq ++ ": [{"
    ++ dq ++ "voice" ++ dq ++ ": " ++ dq ++ "Voice 1 (Se)" ++ dq
    ++ ", " ++ dq ++ "symbol" ++ dq ++ ": " ++ dq ++ "ExplorationObjective" ++ dq
    ++ ", " ++ dq ++ "mass" ++ dq ++ ": 5"
    ++ ", " ++ dq ++ "formula" ++ dq ++ ": " ++ dq ++ "\\sum_t H(\\pi)" ++ dq
    ++ ", " ++ dq ++ "description" ++ dq ++ ": " ++ dq ++ "the \" ++ dq ++ "new\" ++ dq ++ "\n" ++ dq
    ++ "}, {"
    ++ dq ++ "voice" ++ dq ++ ": " ++ dq ++ "Voice 2 (Fi)" ++ dq
    ++ ", " ++ dq ++ "symbol" ++ dq ++ ": " ++ dq ++ "SelectionObjective" ++ dq
    ++ ", " ++ dq ++ "mass" ++ dq ++ ": 1e-05"
    ++ ", " ++ dq ++ "formula" ++ dq ++ ": " ++ dq ++ "```" ++ dq
    ++ ", " ++ dq ++ "description" ++ dq ++ ": null"
    ++ "}], " ++ dq ++ "math_narrative" ++ dq ++ ": " ++ dq ++ dq ++ "}".
Proof. reflexivity. Qed.

(** ** Substitution, generally *)

Lemma drop_nil k : PyStr.drop k "" = "".
Proof. now destruct k. Qed.

Lemma sub_go_skip r repl s : forall k,
  Re.sub_go r repl k s = Re.sub_go r repl 0 (PyStr.drop k s).
Proof.
  induction s as [| c s IH]; intros k.
  - now rewrite drop_nil.
  - destruct k as [| k]; [reflexivity |]. simpl. apply IH.
Qed.

Lemma replace_go_skip old new s : forall k,
  PyStr.replace_go old new k s = PyStr.replace_go old new 0 (PyStr.drop k s).
Proof.
  induction s as [| c s IH]; intros k.
  - now rewrite drop_nil.
  - destruct k as [| k]; [reflexivity |]. simpl. apply IH.
Qed.

Lemma after_prefix_spec p : forall s rest,
  PyStr.after_prefix p s = Some rest <-> s = p ++ rest.
Proof.
  induction p as [| a p IH]; intros s rest; simpl.
  - split; [now intros [= ->] | now intros ->].
  - destruct s as [| b s]; [split; discriminate |].
    destruct (Ascii.eqb_spec a b) as [<- | Hab].
    + rewrite IH. split; [now intros -> | now intros [= ->]].
    + split; [discriminate | intros [= ? ?]; congruence].
Qed.

Lemma after_prefix_append p rest : PyStr.after_prefix p (p ++ rest) = Some rest.
Proof. now apply after_prefix_spec. Qed.

(** Where no match starts, substitution leaves the text as it is. *)
Lemma sub_no_match r repl s :
  Re.search r s = None -> Re.sub r repl s = s.
Proof.
  unfold Re.sub. induction s as [| c s IH]; [reflexivity |].
  cbn [Re.search Re.sub_go].
  destruct (Re.rmatch r (String c s)) as [[ms rest] |]; [discriminate |].
  intros H. now rewrite (IH H).
Qed.

(** Deleting matches never lengthens the text, and shortens it when
    there is a match and the pattern matches no empty text. *)
Lemma sub_delete_length r s : forall k,
  String.length (Re.sub_go r (fun _ => "") k s) <= String.length s.
Proof.
  induction s as [| c s IH]; intros k; [simpl; lia |].
  cbn [Re.sub_go]. destruct k as [| k].
  - destruct (Re.rmatch r (String c s)) as [[ms rest] |].
    + cbn [String.append String.length].
      specialize (IH (String.length (String c s) - String.length rest - 1)). simpl in *. lia.
    + simpl. specialize (IH 0). lia.
  - specialize (IH k). simpl. lia.
Qed.

Lemma sub_delete_shorter r s :
  Re.rmatch r "" = None ->
  Re.search r s <> None ->
  String.length (Re.sub r (fun _ => "") s) < String.length s.
Proof.
  intros Hempty. unfold Re.sub. induction s as [| c s IH].
  - simpl. rewrite Hempty. congruence.
  - cbn [Re.search Re.sub_go].
    destruct (Re.rmatch r (String c s)) as [[ms rest] |].
    + intros _. cbn [String.append].
      pose proof (sub_delete_length r s
                    (String.length (String c s) - String.length rest - 1)).
      simpl in *. lia.
    + intros H. specialize (IH H). simpl. lia.
Qed.

(** ** Think spans *)

(** A match of the think pattern: an opening marker, then everything up
    to and including the first closing marker after it. *)
Lemma think_match s :
  Re.rmatch think_pattern s =
  match PyStr.after_prefix "<think>" s with
  | Some inner =>
      match after_first "</think>" inner with
      | Some rest => Some ([], rest)
      | None => None
      end
  | None => None
  end.
Proof.
  unfold think_pattern. cbn [Re.rmatch]. unfold Re.eat.
  destruct (PyStr.after_prefix "<think>" s) as [inner |]; [| reflexivity].
  induction inner as [| c inner IH].
  - reflexivity.
  - cbn [Re.lazy after_first]. unfold Re.eat.
    destruct (PyStr.after_prefix "</think>" (String c inner)); [reflexivity |].
    cbn [Re.any_char]. exact IH.
Qed.

Lemma prefix_before_char q h : lacks h q = true ->
  forall b rest,
    PyStr.after_prefix q (b ++ String h rest) <> None ->
    PyStr.after_prefix q b <> None.
Proof.
  induction q as [| x q IH]; intros Hq b rest; simpl; [congruence |].
  simpl in Hq. apply andb_true_iff in Hq. destruct Hq as [Hx Hq].
  destruct b as [| y b]; simpl.
  - rewrite Ascii.eqb_sym. apply negb_true_iff in Hx. rewrite Hx. congruence.
  - destruct (Ascii.eqb x y); [apply IH; exact Hq | congruence].
Qed.

(** A marker whose first character occurs nowhere else in it cannot
    start inside a text and end inside a copy of itself put behind. *)
Lemma no_straddle h t b rest : lacks h t = true ->
  b <> "" ->
  PyStr.startswith b (String h t) = false ->
  PyStr.startswith (b ++ String h t ++ rest) (String h t) = false.
Proof.
  intros Ht Hb. unfold PyStr.startswith.
  destruct b as [| y b]; [congruence |]. cbn [PyStr.after_prefix String.append].
  destruct (Ascii.eqb h y); [| reflexivity].
  pose proof (prefix_before_char t h Ht b (t ++ rest)) as H.
  destruct (PyStr.after_prefix t (b ++ String h (t ++ rest))).
  - destruct (PyStr.after_prefix t b); [discriminate |].
    exfalso. apply H; congruence.
  - reflexivity.
Qed.

Lemma startswith_false p s : PyStr.startswith s p = false -> PyStr.after_prefix p s = None.
Proof. unfold PyStr.startswith. now destruct (PyStr.after_prefix p s). Qed.

Lemma after_first_unfold p s :
  after_first p s =
  match PyStr.after_prefix p s with
  | Some rest => Some rest
  | None =>
      match s with
      | String _ s' => after_first p s'
      | EmptyString => None
      end
  end.
Proof. now destruct s. Qed.

Lemma after_first_found h t b rest : lacks h t = true ->
  PyStr.contains (String h t) b = false ->
  after_first (String h t) (b ++ String h t ++ rest) = Some rest.
Proof.
  intros Ht. induction b as [| y b IH]; intros Hb.
  - change ("" ++ String h t ++ rest) with (String h t ++ rest).
    now rewrite after_first_unfold, after_prefix_append.
  - cbn [PyStr.contains] in Hb. apply orb_false_iff in Hb. destruct Hb as [Hy Hb].
    rewrite after_first_unfold.
    rewrite (startswith_false _ _ (no_straddle h t (String y b) rest Ht ltac:(discriminate) Hy)).
    cbn [String.append]. apply IH. exact Hb.
Qed.

Lemma sub_go_cons_none r repl c s :
  Re.rmatch r (String c s) = None ->
  Re.sub_go r repl 0 (String c s) = String c (Re.sub_go r repl 0 s).
Proof. cbn [Re.sub_go]. now intros ->. Qed.

Lemma sub_go_cons_some r repl c s ms rest :
  Re.rmatch r (String c s) = Some (ms, rest) ->
  Re.sub_go r repl 0 (String c s)
  = repl ms ++ Re.sub_go r repl 0
                 (PyStr.drop (String.length (String c s) - String.length rest - 1) s).
Proof. cbn [Re.sub_go]. intros ->. now rewrite sub_go_skip. Qed.

Lemma sub_go_match_append r repl m rest ms :
  m <> "" ->
  Re.rmatch r (m ++ rest) = Some (ms, rest) ->
  Re.sub_go r repl 0 (m ++ rest) = repl ms ++ Re.sub_go r repl 0 rest.
Proof.
  intros Hm Hr. destruct m as [| c m]; [congruence |].
  change (String c m ++ rest) with (String c (m ++ rest)) in *.
  rewrite (sub_go_cons_some _ _ _ _ _ _ Hr). do 2 f_equal.
  replace (String.length (String c (m ++ rest)) - String.length rest - 1)
    with (String.length m) by (cbn [String.length]; rewrite length_append; lia).
  apply drop_length_append.
Qed.

Lemma think_no_match_before b rest :
  b <> "" ->
  PyStr.startswith b "<think>" = false ->
  Re.rmatch think_pattern (b ++ "<think>" ++ rest) = None.
Proof.
  intros Hb Hs. rewrite think_match.
  now rewrite (startswith_false _ _ (no_straddle "<" "think>" b rest eq_refl Hb Hs)).
Qed.

Lemma sub_think_before a rest :
  PyStr.contains "<think>" a = false ->
  Re.sub think_pattern (fun _ => "") (a ++ "<think>" ++ rest)
  = a ++ Re.sub think_pattern (fun _ => "") ("<think>" ++ rest).
Proof.
  unfold Re.sub. induction a as [| y a IH]; intros Ha; [reflexivity |].
  cbn [PyStr.contains] in Ha. apply orb_false_iff in Ha. destruct Ha as [Hy Ha].
  pose proof (think_no_match_before (String y a) rest ltac:(discriminate) Hy) as Hnone.
  set (tail := "<think>" ++ rest) in *.
  change (String y a ++ tail) with (String y (a ++ tail)) in *.
  rewrite (sub_go_cons_none _ _ _ _ Hnone).
  now rewrite (IH Ha).
Qed.

Lemma sub_think_span b rest :
  PyStr.contains "</think>" b = false ->
  Re.sub think_pattern (fun _ => "") ("<think>" ++ b ++ "</think>" ++ rest)
  = Re.sub think_pattern (fun _ => "") rest.
Proof.
  intros Hb. unfold Re.sub.
  assert (Hm : Re.rmatch think_pattern ("<think>" ++ b ++ "</think>" ++ rest)
               = Some ([], rest)).
  { rewrite think_match, after_prefix_append.
    now rewrite (after_first_found "<" "/think>" b rest eq_refl Hb). }
  replace ("<think>" ++ b ++ "</think>" ++ rest)
    with (("<think>" ++ b ++ "</think>") ++ rest) in * by (now rewrite !append_assoc).
  rewrite (sub_go_match_append _ _ ("<think>" ++ b ++ "</think>") rest []
             ltac:(cbn; discriminate) Hm).
  reflexivity.
Qed.

Lemma strip_think_tags_same s : strip_think_tags s = Composition.strip_think_tags s.
Proof. now destruct s. Qed.

(** C5, as stated, fails: deleting a span can bring the pieces of a new
    one together, which a second application deletes. *)
Lemma strip_think_tags_not_idempotent :
  strip_think_tags "<thi<think></think>nk>x</think>" = "<think>x</think>"
  /\ strip_think_tags (strip_think_tags "<thi<think></think>nk>x</think>") = ""
  /\ Composition.strip_think_tags "<thi<think></think>nk>x</think>" = "<think>x</think>"
  /\ Composition.strip_think_tags
       (Composition.strip_think_tags "<thi<think></think>nk>x</think>") = "".
Proof. repeat split; reflexivity. Qed.

(** C5, amended. One application deletes, left to right, every span
    from a '<think>' to the first '</think>' after it, whatever the span
    holds (further '<think>' markers included), keeps the text before
    it and goes on behind it; a text without a span is returned as it
    is.  Stripping twice gives the same as stripping once exactly when
    the first result has no span; the two copies of the function agree. *)
Theorem strip_think_tags_spans :
  (forall a b c,
      PyStr.contains "<think>" a = false ->
      PyStr.contains "</think>" b = false ->
      strip_think_tags (a ++ "<think>" ++ b ++ "</think>" ++ c)
      = a ++ strip_think_tags c)
  /\ (forall s, has_span s = false -> strip_think_tags s = s)
  /\ (forall s, strip_think_tags (strip_think_tags s) = strip_think_tags s
                <-> has_span (strip_think_tags s) = false)
  /\ (forall s, Composition.strip_think_tags s = strip_think_tags s).
Proof.
  assert (Hfix : forall s, has_span s = false -> strip_think_tags s = s).
  { intros s Hs. rewrite strip_think_tags_same. apply sub_no_match.
    unfold has_span in Hs. now destruct (Re.search think_pattern s). }
  repeat split.
  - intros a b c Ha Hb. rewrite !strip_think_tags_same.
    unfold Composition.strip_think_tags.
    rewrite (sub_think_before a _ Ha). now rewrite (sub_think_span b c Hb).
  - exact Hfix.
  - intros Hidem. destruct (has_span (strip_think_tags s)) eqn:Hs; [| reflexivity].
    exfalso.
    assert (Hlt : String.length (strip_think_tags (strip_think_tags s))
                  < String.length (strip_think_tags s)).
    { rewrite (strip_think_tags_same (strip_think_tags s)).
      apply sub_delete_shorter; [reflexivity |].
      unfold has_span in Hs. now destruct (Re.search think_pattern (strip_think_tags s)). }
    rewrite Hidem in Hlt. lia.
  - apply Hfix.
  - intros s. now rewrite strip_think_tags_same.
Qed.

Lemma strip_think_tags_spans_witness :
  strip_think_tags ("plan: " ++ "<think>" ++ "a<think>b" ++ "</think>" ++ "7Se ~ Ti")
  = "plan: " ++ strip_think_tags "7Se ~ Ti"
  /\ strip_think_tags "7Se ~ Ti" = "7Se ~ Ti".
Proof.
  split.
  - exact (proj1 strip_think_tags_spans "plan: " "a<think>b" "7Se ~ Ti" eq_refl eq_refl).
  - exact (proj1 (proj2 strip_think_tags_spans) "7Se ~ Ti" eq_refl).
Defined.

(** ** The heading pattern, read as a function *)

Lemma takewhile_dropwhile p s : s = takewhile p s ++ dropwhile p s.
Proof.
  induction s as [| c s IH]; [reflexivity |]. simpl.
  destruct (p c); [simpl; now rewrite <- IH | reflexivity].
Qed.

Lemma all_of_takewhile p s : all_of p (takewhile p s) = true.
Proof.
  induction s as [| c s IH]; [reflexivity |]. simpl.
  destruct (p c) eqn:Hc; [simpl; now rewrite Hc | reflexivity].
Qed.

Lemma dropwhile_idem p s : dropwhile p (dropwhile p s) = dropwhile p s.
Proof.
  induction s as [| c s IH]; [reflexivity |]. simpl.
  destruct (p c) eqn:Hc; [exact IH | simpl; now rewrite Hc].
Qed.

Lemma dropwhile_any s : dropwhile Re.any_char s = "".
Proof. induction s as [| c s IH]; [reflexivity | exact IH]. Qed.

(** A greedy run before a continuation that accepts what the longest
    run leaves takes the longest run. *)
Lemma greedy_first p k s o :
  k (dropwhile p s) = Some o -> Re.greedy p k s = Some o.
Proof.
  induction s as [| c s IH]; simpl; [auto |].
  destruct (p c); [| auto]. intros H. now rewrite (IH H).
Qed.

(** The same when the continuation rejects every text that starts with
    a character of the run: giving characters back cannot help. *)
Lemma greedy_longest p k s :
  (forall c v, p c = true -> k (String c v) = None) ->
  Re.greedy p k s = k (dropwhile p s).
Proof.
  intros Hk. induction s as [| c s IH]; simpl; [reflexivity |].
  destruct (p c) eqn:Hc; [| reflexivity].
  rewrite IH. destruct (k (dropwhile p s)); [reflexivity |]. now apply Hk.
Qed.

Lemma heading_tail_match s :
  Re.rmatch heading_tail s = Some ([after_heading s; ""], "").
Proof.
  assert (H7 : forall u, Re.rmatch [Re.Mark; Re.StarGreedy Re.any_char; Re.Mark] u
                         = Some ([u; ""], "")).
  { intros u. cbn [Re.rmatch].
    rewrite (greedy_first _ _ u ([""], "")); [reflexivity |].
    now rewrite dropwhile_any. }
  assert (H6 : forall u, Re.rmatch [Re.StarGreedy decoration; Re.Mark;
                                    Re.StarGreedy Re.any_char; Re.Mark] u
                         = Some ([dropwhile decoration u; ""], "")).
  { intros u. change (Re.rmatch (Re.StarGreedy decoration :: ?r) u)
      with (Re.greedy decoration (Re.rmatch r) u).
    apply greedy_first. apply H7. }
  assert (H5 : forall u, Re.rmatch [Re.Opt (Re.one_of ":"); Re.StarGreedy decoration; Re.Mark;
                                    Re.StarGreedy Re.any_char; Re.Mark] u
                         = Some ([dropwhile decoration (skip_colon u); ""], "")).
  { intros u. unfold skip_colon. destruct u as [| c u]; [exact (H6 "") |].
    change (Re.rmatch (Re.Opt ?p :: ?r) (String c u))
      with (if p c
            then match Re.rmatch r u with
                 | Some o => Some o
                 | None => Re.rmatch r (String c u)
                 end
            else Re.rmatch r (String c u)).
    destruct (Re.one_of ":" c); rewrite !H6; reflexivity. }
  unfold heading_tail, after_heading.
  change (Re.rmatch (Re.StarGreedy PyStr.isspace :: ?r) s)
    with (Re.greedy PyStr.isspace (Re.rmatch r) s).
  apply greedy_first. apply H5.
Qed.

Lemma decoration_not_heading_start c :
  decoration c = true ->
  Ascii.eqb (PyStr.lower_char "I") (PyStr.lower_char c) = false.
Proof.
  destruct c as [b0 b1 b2 b3 b4 b5 b6 b7].
  destruct b0, b1, b2, b3, b4, b5, b6, b7;
    (vm_compute; intros H; first [reflexivity | discriminate H]).
Qed.

Lemma eat_ci_spec l : forall s rest,
  Re.eat_ci l s = Some rest ->
  exists l', s = l' ++ rest /\ PyStr.lower l' = PyStr.lower l.
Proof.
  induction l as [| a l IH]; intros s rest; simpl.
  - intros [= ->]. now exists "".
  - destruct s as [| b s]; [discriminate |].
    destruct (Ascii.eqb_spec (PyStr.lower_char a) (PyStr.lower_char b)) as [Hab |];
      [| discriminate].
    intros H. destruct (IH _ _ H) as (l' & -> & Hl').
    exists (String b l'). simpl. now rewrite Hl', Hab.
Qed.

Lemma heading_here_match s :
  Re.rmatch heading_here s =
  match Re.eat_ci heading s with
  | Some behind => Some ([after_heading behind; ""], "")
  | None => None
  end.
Proof.
  unfold heading_here.
  change (Re.rmatch (Re.LitI heading :: heading_tail) s)
    with (match Re.eat_ci heading s with
          | Some s' => Re.rmatch heading_tail s'
          | None => None
          end).
  destruct (Re.eat_ci heading s); [apply heading_tail_match | reflexivity].
Qed.

Lemma decorated_heading_match s :
  Re.rmatch decorated_heading s = Re.rmatch heading_here (dropwhile decoration s).
Proof.
  change (Re.rmatch decorated_heading s)
    with (Re.greedy decoration (Re.rmatch heading_here) s).
  apply greedy_longest. intros c v Hc. rewrite heading_here_match.
  unfold heading. cbn [Re.eat_ci].
  now rewrite (decoration_not_heading_start c Hc).
Qed.

Lemma find_heading_unfold s :
  find_heading s =
  match Re.eat_ci heading (dropwhile decoration s) with
  | Some behind => Some (EmptyString, after_heading behind)
  | None =>
      match s with
      | String c s' =>
          match find_heading s' with
          | Some (before, body) => Some (String c before, body)
          | None => None
          end
      | EmptyString => None
      end
  end.
Proof. now destruct s. Qed.

Lemma lazy_unfold p k s :
  Re.lazy p k s =
  match k s with
  | Some r => Some r
  | None =>
      match s with
      | String c s' => if p c then Re.lazy p k s' else None
      | EmptyString => None
      end
  end.
Proof. now destruct s. Qed.

Lemma drop_0 s : PyStr.drop 0 s = s.
Proof. now destruct s. Qed.

Lemma lazy_find_heading s :
  Re.lazy Re.any_char (Re.rmatch (Re.Mark :: decorated_heading)) s =
  match find_heading s with
  | Some (before, body) => Some ([PyStr.drop (String.length before) s; body; ""], "")
  | None => None
  end.
Proof.
  induction s as [| c s IH]; rewrite lazy_unfold, find_heading_unfold;
    change (Re.rmatch (Re.Mark :: decorated_heading) ?u)
      with (match Re.rmatch decorated_heading u with
            | Some (ms, rest) => Some (u :: ms, rest)
            | None => None
            end);
    rewrite decorated_heading_match, heading_here_match.
  - destruct (Re.eat_ci heading (dropwhile decoration "")); reflexivity.
  - destruct (Re.eat_ci heading (dropwhile decoration (String c s))); [reflexivity |].
    cbn [Re.any_char]. rewrite IH.
    destruct (find_heading s) as [[before body] |]; reflexivity.
Qed.

Lemma heading_pattern_match s :
  Re.rmatch heading_pattern s =
  match find_heading s with
  | Some (before, body) =>
      Some ([s; PyStr.drop (String.length before) s; body; ""], "")
  | None => None
  end.
Proof.
  change (Re.rmatch heading_pattern s)
    with (match Re.lazy Re.any_char (Re.rmatch (Re.Mark :: decorated_heading)) s with
          | Some (ms, rest) => Some (s :: ms, rest)
          | None => None
          end).
  rewrite lazy_find_heading.
  destruct (find_heading s) as [[before body] |]; reflexivity.
Qed.

Lemma find_heading_tail c s : find_heading (String c s) = None -> find_heading s = None.
Proof.
  rewrite find_heading_unfold.
  destruct (Re.eat_ci heading (dropwhile decoration (String c s))); [discriminate |].
  destruct (find_heading s) as [[? ?] |]; [discriminate | reflexivity].
Qed.

Lemma search_unfold r s :
  Re.search r s =
  match Re.rmatch r s with
  | Some o => Some o
  | None =>
      match s with
      | String _ s' => Re.search r s'
      | EmptyString => None
      end
  end.
Proof. now destruct s. Qed.

Lemma search_heading s : Re.search heading_pattern s = Re.rmatch heading_pattern s.
Proof.
  destruct (Re.rmatch heading_pattern s) as [o |] eqn:Hm.
  - now rewrite search_unfold, Hm.
  - rewrite heading_pattern_match in Hm.
    assert (Hf : find_heading s = None)
      by (destruct (find_heading s) as [[? ?] |]; [discriminate | reflexivity]).
    clear Hm. induction s as [| c s IH];
      rewrite search_unfold, heading_pattern_match, Hf; [reflexivity |].
    apply IH. now apply find_heading_tail in Hf.
Qed.

Lemma find_heading_split s before body :
  find_heading s = Some (before, body) ->
  exists at_heading h behind,
    s = before ++ at_heading
    /\ dropwhile decoration at_heading = h ++ behind
    /\ PyStr.lower h = PyStr.lower heading
    /\ body = after_heading behind.
Proof.
  revert before. induction s as [| c s IH]; intros before;
    rewrite find_heading_unfold.
  - destruct (Re.eat_ci heading (dropwhile decoration "")) as [behind |] eqn:He;
      [| discriminate].
    intros [= <- <-]. destruct (eat_ci_spec _ _ _ He) as (h & Hs & Hh).
    exists "", h, behind. auto.
  - destruct (Re.eat_ci heading (dropwhile decoration (String c s))) as [behind |] eqn:He.
    + intros [= <- <-]. destruct (eat_ci_spec _ _ _ He) as (h & Hs & Hh).
      exists (String c s), h, behind. auto.
    + destruct (find_heading s) as [[before' body'] |]; [| discriminate].
      intros [= <- <-].
      destruct (IH before' eq_refl) as (u & h & behind & -> & Hd & Hh & Hb).
      exists u, h, behind. auto.
Qed.

Lemma take_all s : PyStr.take (String.length s) s = s.
Proof. induction s as [| c s IH]; simpl; [reflexivity | now rewrite IH]. Qed.

Lemma between_append a b : Re.between (a ++ b) b = a.
Proof.
  unfold Re.between. rewrite length_append.
  replace (String.length a + String.length b - String.length b) with (String.length a) by lia.
  apply take_length_append.
Qed.

Lemma between_end a : Re.between a "" = a.
Proof. unfold Re.between. simpl. rewrite Nat.sub_0_r. apply take_all. Qed.

(** [clean_latex_formatting], with the search replaced by [find_heading]. *)
Lemma clean_latex_formatting_find text :
  text <> "" ->
  clean_latex_formatting text =
  match find_heading (fix_brackets (strip_fences text)) with
  | Some (before, body) =>
      PyStr.strip before ++ nl ++ nl ++ "**Intercalation Dynamics:**" ++ nl ++ nl
      ++ equation_section body
  | None => Re.sub inline_math_pattern group1 (fix_brackets (strip_fences text))
  end.
Proof.
  intros Htext. unfold clean_latex_formatting.
  destruct text as [| c text]; [congruence |].
  set (t := fix_brackets (strip_fences (String c text))).
  rewrite search_heading, heading_pattern_match.
  destruct (find_heading t) as [[before body] |] eqn:Hf; [| reflexivity].
  destruct (find_heading_split _ _ _ Hf) as (u & h & behind & Ht & _).
  unfold group1, group2. cbn [nth]. rewrite Ht at 1 2.
  rewrite drop_length_append, between_append, between_end. reflexivity.
Qed.

(** ** The heading survives the rewriting *)

Lemma occurs_ci_unfold h s :
  occurs_ci h s =
  match Re.eat_ci h s with
  | Some _ => true
  | None =>
      match s with
      | String _ s' => occurs_ci h s'
      | EmptyString => false
      end
  end.
Proof. now destruct s. Qed.

Lemma occurs_ci_behind h a s : occurs_ci h s = true -> occurs_ci h (a ++ s) = true.
Proof.
  intros H. induction a as [| x a IH]; [exact H |].
  cbn [String.append]. rewrite occurs_ci_unfold.
  destruct (Re.eat_ci h (String x (a ++ s))); [reflexivity | exact IH].
Qed.

Lemma occurs_ci_skip h0 h old rest :
  lacks_ci h0 old = true ->
  occurs_ci (String h0 h) (old ++ rest) = true -> occurs_ci (String h0 h) rest = true.
Proof.
  induction old as [| x old IH]; intros Hl; [auto |].
  cbn [lacks_ci] in Hl. apply andb_true_iff in Hl. destruct Hl as [Hx Hl].
  cbn [String.append]. rewrite occurs_ci_unfold. cbn [Re.eat_ci].
  apply negb_true_iff in Hx. rewrite Hx. now apply IH.
Qed.

Lemma replace_match old new rest :
  old <> "" ->
  PyStr.replace old new (old ++ rest) = new ++ PyStr.replace old new rest.
Proof.
  intros Hold. destruct old as [| o old]; [congruence |].
  unfold PyStr.replace. cbn [String.append PyStr.replace_go].
  change (String o (old ++ rest)) with (String o old ++ rest).
  unfold PyStr.startswith. rewrite after_prefix_append.
  rewrite replace_go_skip.
  replace (String.length (String o old) - 1) with (String.length old)
    by (cbn [String.length]; lia).
  now rewrite drop_length_append.
Qed.

Lemma replace_no_match old new c s :
  PyStr.startswith (String c s) old = false ->
  PyStr.replace old new (String c s) = String c (PyStr.replace old new s).
Proof. unfold PyStr.replace. cbn [PyStr.replace_go]. now intros ->. Qed.

Lemma startswith_split s p :
  PyStr.startswith s p = true -> exists rest, s = p ++ rest.
Proof.
  unfold PyStr.startswith.
  destruct (PyStr.after_prefix p s) as [rest |] eqn:H; [| discriminate].
  intros _. exists rest. now apply after_prefix_spec.
Qed.

Lemma eat_ci_replace o0 old new h : lacks_ci o0 h = true ->
  forall s, Re.eat_ci h s <> None ->
            Re.eat_ci h (PyStr.replace (String o0 old) new s) <> None.
Proof.
  induction h as [| y h IH]; intros Hl s; [simpl; congruence |].
  cbn [lacks_ci] in Hl. apply andb_true_iff in Hl. destruct Hl as [Hy Hl].
  apply negb_true_iff in Hy.
  destruct s as [| c s]; [simpl; congruence |]. cbn [Re.eat_ci].
  destruct (Ascii.eqb_spec (PyStr.lower_char y) (PyStr.lower_char c)) as [Hyc |];
    [| congruence].
  intros Hs. rewrite replace_no_match.
  - cbn [Re.eat_ci]. rewrite Hyc, Ascii.eqb_refl. now apply IH.
  - unfold PyStr.startswith. cbn [PyStr.after_prefix].
    destruct (Ascii.eqb_spec o0 c) as [-> |]; [| reflexivity].
    rewrite Hyc, Ascii.eqb_refl in Hy. discriminate.
Qed.

(** Replacing [old] keeps an occurrence of the heading [h], when no
    character of [old] can start the heading and the first character of
    [old] is none of the heading's. *)
Lemma occurs_ci_replace h0 h o0 old new :
  lacks_ci h0 (String o0 old) = true ->
  lacks_ci o0 (String h0 h) = true ->
  forall s, occurs_ci (String h0 h) s = true ->
            occurs_ci (String h0 h) (PyStr.replace (String o0 old) new s) = true.
Proof.
  intros Hold Hh s.
  remember (String.length s) as n eqn:Hn.
  assert (Hle : String.length s <= n) by lia. clear Hn.
  revert s Hle. induction n as [| n IH]; intros s Hle.
  - destruct s; [| simpl in Hle; lia]. simpl. discriminate.
  - destruct s as [| c s]; [simpl; discriminate |].
    destruct (PyStr.startswith (String c s) (String o0 old)) eqn:Hs.
    + destruct (startswith_split _ _ Hs) as [rest Hrest]. rewrite Hrest.
      intros Hocc. rewrite replace_match by discriminate.
      apply occurs_ci_behind. apply IH.
      * assert (String.length (String c s) = String.length (String o0 old ++ rest))
          by now rewrite Hrest.
        rewrite length_append in *. simpl in *. lia.
      * now apply (occurs_ci_skip h0 h (String o0 old) rest Hold).
    + rewrite replace_no_match by exact Hs.
      rewrite occurs_ci_unfold.
      destruct (Re.eat_ci (String h0 h) (String c s)) eqn:He.
      * intros _.
        pose proof (eat_ci_replace o0 old new (String h0 h) Hh (String c s)) as Hr.
        rewrite replace_no_match in Hr by exact Hs.
        rewrite occurs_ci_unfold.
        destruct (Re.eat_ci (String h0 h) (String c (PyStr.replace (String o0 old) new s)));
          [reflexivity |].
        exfalso. apply Hr; congruence.
      * intros Hocc. rewrite occurs_ci_unfold.
        destruct (Re.eat_ci (String h0 h) (String c (PyStr.replace (String o0 old) new s)));
          [reflexivity |].
        apply IH; [simpl in Hle; lia | exact Hocc].
Qed.

Lemma occurs_ci_rewritten text :
  occurs_ci heading text = true ->
  occurs_ci heading (fix_brackets (strip_fences text)) = true.
Proof.
  intros H. unfold fix_brackets, strip_fences.
  repeat (apply (occurs_ci_replace "I" "ntercalation Dynamics"); [reflexivity .. |]).
  exact H.
Qed.

Lemma occurs_ci_find_heading s :
  occurs_ci heading s = true -> find_heading s <> None.
Proof.
  induction s as [| c s IH]; rewrite occurs_ci_unfold, find_heading_unfold.
  - simpl. discriminate.
  - destruct (Re.eat_ci heading (String c s)) as [behind |] eqn:He.
    + intros _.
      assert (Hd : decoration c = false).
      { destruct (decoration c) eqn:Hc; [| reflexivity].
        apply decoration_not_heading_start in Hc.
        unfold heading in He. cbn [Re.eat_ci] in He. rewrite Hc in He. discriminate. }
      cbn [dropwhile]. rewrite Hd, He. discriminate.
    + intros Hocc. specialize (IH Hocc).
      destruct (Re.eat_ci heading (dropwhile decoration (String c s))); [discriminate |].
      destruct (find_heading s) as [[? ?] |]; [discriminate | congruence].
Qed.

(** ** The equation section *)

Lemma replace_single c s : PyStr.replace (String c "") "" s = delete c s.
Proof.
  unfold PyStr.replace. induction s as [| x s IH]; [reflexivity |].
  cbn [PyStr.replace_go delete]. unfold PyStr.startswith. cbn [PyStr.after_prefix].
  destruct (Ascii.eqb c x); cbn; now rewrite IH.
Qed.

Lemma delete_replace_pair c s :
  delete c (PyStr.replace (String c (String c "")) "" s) = delete c s.
Proof.
  remember (String.length s) as n eqn:Hn.
  assert (Hle : String.length s <= n) by lia. clear Hn.
  revert s Hle. induction n as [| n IH]; intros s Hle.
  - destruct s; [reflexivity | simpl in Hle; lia].
  - destruct s as [| x s]; [reflexivity |].
    destruct (PyStr.startswith (String x s) (String c (String c ""))) eqn:Hs.
    + destruct (startswith_split _ _ Hs) as [rest Hrest]. rewrite Hrest.
      rewrite replace_match by discriminate.
      cbn [String.append delete]. rewrite Ascii.eqb_refl. apply IH.
      assert (String.length (String x s) = String.length (String c (String c "") ++ rest))
        by now rewrite Hrest.
      simpl in *. lia.
    + rewrite replace_no_match by exact Hs. cbn [delete].
      rewrite IH by (simpl in Hle; lia). reflexivity.
Qed.

Lemma lacks_delete c s : lacks c (delete c s) = true.
Proof.
  induction s as [| x s IH]; [reflexivity |]. cbn [delete].
  destruct (Ascii.eqb c x) eqn:Hc; [exact IH |]. cbn [lacks]. now rewrite Hc, IH.
Qed.

Lemma lacks_append c a b : lacks c (a ++ b) = lacks c a && lacks c b.
Proof.
  induction a as [| x a IH]; [reflexivity |]. cbn [String.append lacks].
  now rewrite IH, andb_assoc.
Qed.

(** The equation section: the captured text stripped and without its
    '*', between '$$' lines unless it opens a display itself. *)
Lemma equation_section_spec body :
  equation_section body =
  let equation := delete "*" (PyStr.strip body) in
  if PyStr.startswith equation "$$" || PyStr.startswith equation "\["
  then equation
  else "$$" ++ nl ++ equation ++ nl ++ "$$".
Proof.
  unfold equation_section. rewrite replace_single, delete_replace_pair. cbn zeta.
  destruct (PyStr.startswith (delete "*" (PyStr.strip body)) "$$"
            || PyStr.startswith (delete "*" (PyStr.strip body)) "\["); reflexivity.
Qed.

Lemma equation_section_display body :
  lacks "*" (equation_section body) = true
  /\ PyStr.startswith (equation_section body) "$$"
     || PyStr.startswith (equation_section body) "\[" = true.
Proof.
  rewrite equation_section_spec. cbn zeta.
  destruct (PyStr.startswith (delete "*" (PyStr.strip body)) "$$"
            || PyStr.startswith (delete "*" (PyStr.strip body)) "\[") eqn:Hs.
  - split; [apply lacks_delete | exact Hs].
  - split; [| reflexivity].
    rewrite !lacks_append, lacks_delete. reflexivity.
Qed.

Lemma skip_colon_split s : exists o, (o = "" \/ o = ":") /\ s = o ++ skip_colon s.
Proof.
  destruct s as [| c s]; [exists ""; auto |]. unfold skip_colon.
  destruct (Re.one_of ":" c) eqn:Hc; [| exists ""; auto].
  exists ":". split; [auto |].
  unfold Re.one_of, PyStr.contains, PyStr.startswith in Hc.
  cbn [PyStr.after_prefix] in Hc.
  destruct (Ascii.eqb_spec c ":") as [-> |]; [reflexivity | discriminate Hc].
Qed.

(** ** Occurrences and replacement *)

Lemma contains_unfold p s :
  PyStr.contains p s =
  PyStr.startswith s p ||
  match s with
  | String _ s' => PyStr.contains p s'
  | EmptyString => false
  end.
Proof. now destruct s. Qed.

Lemma contains_empty s : PyStr.contains "" s = true.
Proof. now destruct s. Qed.

Lemma startswith_append s p rest :
  PyStr.startswith s p = true -> PyStr.startswith (s ++ rest) p = true.
Proof.
  intros H. destruct (startswith_split _ _ H) as [r ->].
  unfold PyStr.startswith. now rewrite append_assoc, after_prefix_append.
Qed.

Lemma contains_append_l p a b :
  PyStr.contains p a = true -> PyStr.contains p (a ++ b) = true.
Proof.
  induction a as [| c a IH]; rewrite contains_unfold; intros H;
    apply orb_true_iff in H; rewrite contains_unfold; apply orb_true_iff.
  - destruct H as [H | H]; [| discriminate]. left. now apply startswith_append.
  - destruct H as [H | H]; [left; now apply startswith_append | right; now apply IH].
Qed.

Lemma contains_append_r p a b :
  PyStr.contains p b = true -> PyStr.contains p (a ++ b) = true.
Proof.
  intros H. induction a as [| c a IH]; [exact H |].
  cbn [String.append]. rewrite contains_unfold, IH. apply orb_true_r.
Qed.

Lemma contains_append_false p a b :
  PyStr.contains p (a ++ b) = false ->
  PyStr.contains p a = false /\ PyStr.contains p b = false.
Proof.
  intros H. split.
  - destruct (PyStr.contains p a) eqn:Ha; [| reflexivity].
    now rewrite (contains_append_l p a b Ha) in H.
  - destruct (PyStr.contains p b) eqn:Hb; [| reflexivity].
    now rewrite (contains_append_r p a b Hb) in H.
Qed.

(** Two texts without [p] stay so when joined at a character [p] lacks. *)
Lemma contains_join p a x b :
  lacks x p = true ->
  PyStr.contains p a = false -> PyStr.contains p (String x b) = false ->
  PyStr.contains p (a ++ String x b) = false.
Proof.
  intros Hx Ha Hb. induction a as [| c a IH]; [exact Hb |].
  rewrite contains_unfold in Ha. apply orb_false_iff in Ha. destruct Ha as [Hs Ha].
  cbn [String.append]. rewrite contains_unfold. apply orb_false_iff.
  split; [| now apply IH].
  change (String c (a ++ String x b)) with (String c a ++ String x b).
  unfold PyStr.startswith in *.
  pose proof (prefix_before_char p x Hx (String c a) b) as H.
  destruct (PyStr.after_prefix p (String c a ++ String x b)); [| reflexivity].
  destruct (PyStr.after_prefix p (String c a)); [discriminate |].
  exfalso. apply H; congruence.
Qed.

Lemma replace_absent old new s :
  PyStr.contains old s = false -> PyStr.replace old new s = s.
Proof.
  induction s as [| c s IH]; [reflexivity |].
  rewrite contains_unfold. intros H. apply orb_false_iff in H. destruct H as [Hs Ht].
  rewrite replace_no_match by exact Hs. now rewrite IH.
Qed.

Lemma contains_longer p q s :
  PyStr.contains p s = false -> PyStr.contains (p ++ q) s = false.
Proof.
  induction s as [| c s IH]; rewrite !(contains_unfold _ (String c s)) || rewrite !(contains_unfold _ "");
    intros H; apply orb_false_iff in H; destruct H as [Hs Ht]; apply orb_false_iff.
  - split; [| reflexivity].
    destruct (PyStr.startswith "" (p ++ q)) eqn:Hp; [| reflexivity].
    destruct (startswith_split _ _ Hp) as [r Hr]. rewrite append_assoc in Hr.
    unfold PyStr.startswith in Hs. now rewrite Hr, after_prefix_append in Hs.
  - split; [| now apply IH].
    destruct (PyStr.startswith (String c s) (p ++ q)) eqn:Hp; [| reflexivity].
    destruct (startswith_split _ _ Hp) as [r Hr]. rewrite append_assoc in Hr.
    unfold PyStr.startswith in Hs. now rewrite Hr, after_prefix_append in Hs.
Qed.

(** What the replaced text starts with, the text started with, when the
    replacement is one character the prefix lacks. *)
Lemma after_prefix_replace_back old n0 q : old <> "" -> lacks n0 q = true ->
  forall s, PyStr.after_prefix q (PyStr.replace old (String n0 "") s) <> None ->
            PyStr.after_prefix q s <> None.
Proof.
  intros Hold. induction q as [| x q IH]; intros Hq s; [simpl; congruence |].
  cbn [lacks] in Hq. apply andb_true_iff in Hq. destruct Hq as [Hx Hq].
  apply negb_true_iff in Hx.
  destruct s as [| c s]; [simpl; congruence |].
  destruct (PyStr.startswith (String c s) old) eqn:Hs.
  - destruct (startswith_split _ _ Hs) as [rest ->].
    rewrite replace_match by exact Hold. cbn [String.append PyStr.after_prefix].
    rewrite Ascii.eqb_sym, Hx. congruence.
  - rewrite replace_no_match by exact Hs. cbn [PyStr.after_prefix].
    destruct (Ascii.eqb x c); [now apply IH | congruence].
Qed.

Lemma string_length_induction (P : string -> Prop) :
  (forall s, (forall s', String.length s' < String.length s -> P s') -> P s) ->
  forall s, P s.
Proof.
  intros H s. remember (String.length s) as n eqn:Hn.
  assert (Hle : String.length s <= n) by lia. clear Hn.
  revert s Hle. induction n as [| n IH]; intros s Hle; apply H; intros s' Hs'.
  - lia.
  - apply IH. lia.
Qed.

Lemma length_after_prefix old rest :
  old <> "" -> String.length rest < String.length (old ++ rest).
Proof.
  intros H. rewrite length_append. destruct old; [congruence | simpl; lia].
Qed.

(** Replacing by one character that [p] lacks brings no [p] about. *)
Lemma contains_replace_char p old n0 : old <> "" -> lacks n0 p = true ->
  forall s, PyStr.contains p s = false ->
            PyStr.contains p (PyStr.replace old (String n0 "") s) = false.
Proof.
  intros Hold Hn s. induction s as [s IH] using string_length_induction.
  destruct s as [| c s]; [auto |].
  destruct (PyStr.startswith (String c s) old) eqn:Hs.
  - destruct (startswith_split _ _ Hs) as [rest Hrest]. rewrite Hrest in *.
    intros Hc. rewrite replace_match by exact Hold.
    destruct (contains_append_false _ _ _ Hc) as [_ Hr].
    cbn [String.append]. rewrite contains_unfold. apply orb_false_iff. split.
    + unfold PyStr.startswith.
      destruct p as [| x p]; [now rewrite contains_empty in Hc |].
      cbn [PyStr.after_prefix]. cbn [lacks] in Hn. apply andb_true_iff in Hn.
      destruct Hn as [Hx _]. apply negb_true_iff in Hx.
      now rewrite Ascii.eqb_sym, Hx.
    + apply IH; [now apply length_after_prefix | exact Hr].
  - intros Hc. rewrite contains_unfold in Hc. apply orb_false_iff in Hc.
    destruct Hc as [Hp Hc].
    pose proof (after_prefix_replace_back old n0 p Hold Hn (String c s)) as Hback.
    rewrite replace_no_match in * by exact Hs.
    rewrite contains_unfold. apply orb_false_iff. split.
    + unfold PyStr.startswith in *.
      destruct (PyStr.after_prefix p (String c (PyStr.replace old (String n0 "") s)));
        [| reflexivity].
      destruct (PyStr.after_prefix p (String c s)); [discriminate |].
      exfalso. apply Hback; congruence.
    + apply IH; [simpl; lia | exact Hc].
Qed.

(** Replacing [old] by one character it lacks leaves no [old]. *)
Lemma replace_char_removes old n0 : old <> "" -> lacks n0 old = true ->
  forall s, PyStr.contains old (PyStr.replace old (String n0 "") s) = false.
Proof.
  intros Hold Hn s. induction s as [s IH] using string_length_induction.
  destruct s as [| c s].
  - destruct old; [congruence | reflexivity].
  - destruct (PyStr.startswith (String c s) old) eqn:Hs.
    + destruct (startswith_split _ _ Hs) as [rest Hrest]. rewrite Hrest in *.
      rewrite replace_match by exact Hold.
      cbn [String.append]. rewrite contains_unfold. apply orb_false_iff. split.
      * unfold PyStr.startswith. destruct old as [| x old]; [congruence |].
        cbn [PyStr.after_prefix]. cbn [lacks] in Hn. apply andb_true_iff in Hn.
        destruct Hn as [Hx _]. apply negb_true_iff in Hx.
        now rewrite Ascii.eqb_sym, Hx.
      * apply IH. now apply length_after_prefix.
    + pose proof (after_prefix_replace_back old n0 old Hold Hn (String c s)) as Hback.
      rewrite replace_no_match in * by exact Hs.
      rewrite contains_unfold. apply orb_false_iff. split.
      * unfold PyStr.startswith in *.
        destruct (PyStr.after_prefix old (String c (PyStr.replace old (String n0 "") s)));
          [| reflexivity].
        destruct (PyStr.after_prefix old (String c s)); [discriminate |].
        exfalso. apply Hback; congruence.
      * apply IH. simpl; lia.
Qed.

Lemma startswith_cons c s x p :
  PyStr.startswith (String c s) (String x p) = Ascii.eqb x c && PyStr.startswith s p.
Proof.
  unfold PyStr.startswith. cbn [PyStr.after_prefix]. now destruct (Ascii.eqb x c).
Qed.

Lemma startswith_nil_l x p : PyStr.startswith "" (String x p) = false.
Proof. reflexivity. Qed.

Lemma startswith_nil_r s : PyStr.startswith s "" = true.
Proof. now destruct s. Qed.

(** Deleting the fences, left to right, leaves at most two backquotes
    in a row. *)
Lemma delete_fence_head s :
  PyStr.startswith s "`" = false ->
  PyStr.startswith (PyStr.replace "```" "" s) "`" = false.
Proof.
  destruct s as [| c s]; [reflexivity |].
  rewrite startswith_cons, startswith_nil_r, andb_true_r. intros Hc.
  rewrite replace_no_match by (now rewrite startswith_cons, Hc).
  now rewrite startswith_cons, Hc.
Qed.

Lemma delete_fence_start s : PyStr.startswith (PyStr.replace "```" "" s) "```" = false.
Proof.
  induction s as [s IH] using string_length_induction.
  destruct s as [| c1 s1]; [reflexivity |].
  destruct (PyStr.startswith (String c1 s1) "```") eqn:Hs.
  - destruct (startswith_split _ _ Hs) as [rest Hrest]. rewrite Hrest.
    rewrite replace_match by discriminate. cbn [String.append].
    apply IH. rewrite Hrest. now apply length_after_prefix.
  - rewrite replace_no_match by exact Hs.
    rewrite startswith_cons in Hs |- *.
    destruct (Ascii.eqb "`" c1); [| reflexivity]. cbn [andb] in Hs |- *.
    destruct s1 as [| c2 s2]; [reflexivity |].
    assert (Hs1 : PyStr.startswith (String c2 s2) "```" = false).
    { rewrite startswith_cons in Hs |- *.
      destruct (Ascii.eqb "`" c2); [| reflexivity]. cbn [andb] in Hs |- *.
      destruct s2 as [| c3 s3]; [reflexivity |].
      rewrite startswith_cons in Hs |- *. rewrite startswith_nil_r, andb_true_r in Hs.
      now rewrite Hs. }
    rewrite replace_no_match by exact Hs1.
    rewrite startswith_cons in Hs |- *.
    destruct (Ascii.eqb "`" c2); [| reflexivity]. cbn [andb] in Hs |- *.
    now apply delete_fence_head.
Qed.

Lemma delete_fence_removes s : PyStr.contains "```" (PyStr.replace "```" "" s) = false.
Proof.
  induction s as [s IH] using string_length_induction.
  destruct s as [| c s]; [reflexivity |].
  destruct (PyStr.startswith (String c s) "```") eqn:Hs.
  - destruct (startswith_split _ _ Hs) as [rest Hrest]. rewrite Hrest.
    rewrite replace_match by discriminate. cbn [String.append].
    apply IH. rewrite Hrest. now apply length_after_prefix.
  - pose proof (delete_fence_start (String c s)) as Hstart.
    rewrite replace_no_match in * by exact Hs.
    rewrite contains_unfold, Hstart. apply IH. simpl; lia.
Qed.

(** The rewritten text holds no fence and none of the two bracket pairs. *)
Lemma rewritten_clean text :
  let t := fix_brackets (strip_fences text) in
  PyStr.contains "```" t = false
  /\ PyStr.contains "[$" t = false
  /\ PyStr.contains "$]" t = false.
Proof.
  cbn zeta. unfold fix_brackets, strip_fences. repeat split.
  - apply contains_replace_char; [discriminate | reflexivity |].
    apply contains_replace_char; [discriminate | reflexivity |].
    apply delete_fence_removes.
  - apply contains_replace_char; [discriminate | reflexivity |].
    apply replace_char_removes; [discriminate | reflexivity].
  - apply replace_char_removes; [discriminate | reflexivity].
Qed.

(** A text without those three is left as it is by the rewriting. *)
Lemma rewriting_fixpoint s :
  PyStr.contains "```" s = false ->
  PyStr.contains "[$" s = false ->
  PyStr.contains "$]" s = false ->
  fix_brackets (strip_fences s) = s.
Proof.
  intros H1 H2 H3. unfold fix_brackets, strip_fences.
  rewrite (replace_absent "```latex" "" s) by (apply (contains_longer "```" "latex"), H1).
  rewrite (replace_absent "```markdown" "" s)
    by (apply (contains_longer "```" "markdown"), H1).
  rewrite (replace_absent "```" "" s) by exact H1.
  rewrite (replace_absent "[$" "(" s) by exact H2.
  now rewrite (replace_absent "$]" ")" s) by exact H3.
Qed.

(** ** A second pass over the result *)

Lemma rstrip_idem s : PyStr.rstrip (PyStr.rstrip s) = PyStr.rstrip s.
Proof.
  induction s as [| c s IH]; [reflexivity |]. cbn [PyStr.rstrip].
  destruct (PyStr.rstrip s) as [| x r] eqn:Hr.
  - destruct (PyStr.isspace c) eqn:Hc; [reflexivity |]. simpl. now rewrite Hc.
  - cbn [PyStr.rstrip]. cbn [PyStr.rstrip] in IH. now rewrite IH.
Qed.

Lemma lstrip_fixed c s : PyStr.isspace c = false -> PyStr.lstrip (String c s) = String c s.
Proof. intros H. simpl. now rewrite H. Qed.

Lemma rstrip_head c s :
  PyStr.isspace c = false -> exists r, PyStr.rstrip (String c s) = String c r.
Proof.
  intros H. cbn [PyStr.rstrip]. destruct (PyStr.rstrip s); [rewrite H |]; eauto.
Qed.

Lemma strip_idem s : PyStr.strip (PyStr.strip s) = PyStr.strip s.
Proof.
  unfold PyStr.strip. pose proof (lstrip_head s) as Hh.
  destruct (PyStr.lstrip s) as [| c y]; [reflexivity |].
  destruct (rstrip_head c y Hh) as [r Hr].
  rewrite Hr, (lstrip_fixed c r Hh), <- Hr. apply rstrip_idem.
Qed.

Lemma lstrip_suffix s : exists a, s = a ++ PyStr.lstrip s.
Proof.
  induction s as [| c s [a IH]]; [now exists "" |]. simpl.
  destruct (PyStr.isspace c); [| now exists ""].
  exists (String c a). simpl. now rewrite <- IH.
Qed.

Lemma rstrip_prefix s : exists r, s = PyStr.rstrip s ++ r.
Proof.
  induction s as [| c s [r IH]]; [now exists "" |]. cbn [PyStr.rstrip].
  destruct (PyStr.rstrip s) as [| x y] eqn:Hr.
  - destruct (PyStr.isspace c).
    + exists (String c s). reflexivity.
    + exists r. cbn [String.append]. f_equal. exact IH.
  - exists r. cbn [String.append]. f_equal. exact IH.
Qed.

Lemma strip_within s : exists a r, s = a ++ PyStr.strip s ++ r.
Proof.
  destruct (lstrip_suffix s) as [a Ha]. destruct (rstrip_prefix (PyStr.lstrip s)) as [r Hr].
  exists a, r. unfold PyStr.strip. now rewrite <- Hr.
Qed.

Lemma contains_strip p s : PyStr.contains p s = false -> PyStr.contains p (PyStr.strip s) = false.
Proof.
  intros H. destruct (strip_within s) as (a & r & Hs). rewrite Hs in H.
  apply contains_append_false in H. destruct H as [_ H].
  now apply contains_append_false in H.
Qed.

Lemma lacks_strip c s : lacks c s = true -> lacks c (PyStr.strip s) = true.
Proof.
  intros H. destruct (strip_within s) as (a & r & Hs). rewrite Hs in H.
  rewrite !lacks_append in H. apply andb_true_iff in H. destruct H as [_ H].
  now apply andb_true_iff in H.
Qed.

Lemma delete_lacks c s : lacks c s = true -> delete c s = s.
Proof.
  induction s as [| x s IH]; [reflexivity |]. cbn [lacks delete].
  intros H. apply andb_true_iff in H. destruct H as [Hx Hs].
  apply negb_true_iff in Hx. now rewrite Hx, IH.
Qed.

Lemma dropwhile_append_all p a b :
  all_of p a = true -> dropwhile p (a ++ b) = dropwhile p b.
Proof.
  induction a as [| c a IH]; [reflexivity |]. cbn [all_of String.append dropwhile].
  intros H. apply andb_true_iff in H. destruct H as [Hc Ha]. now rewrite Hc, IH.
Qed.

Lemma dropwhile_append_some p a b :
  dropwhile p a <> "" -> dropwhile p (a ++ b) = dropwhile p a ++ b.
Proof.
  induction a as [| c a IH]; [simpl; congruence |]. cbn [String.append dropwhile].
  destruct (p c); [exact IH | reflexivity].
Qed.

Lemma dropwhile_none p a : dropwhile p a = "" -> all_of p a = true.
Proof.
  induction a as [| c a IH]; [reflexivity |]. cbn [dropwhile all_of].
  destruct (p c); [exact IH | discriminate].
Qed.

Lemma eat_ci_append h h' rest :
  PyStr.lower h' = PyStr.lower h -> Re.eat_ci h (h' ++ rest) = Some rest.
Proof.
  revert h'. induction h as [| a h IH]; intros [| b h']; try discriminate; [reflexivity |].
  cbn [PyStr.lower]. intros [= Hb Hh]. cbn [String.append Re.eat_ci].
  now rewrite Hb, Ascii.eqb_refl, IH.
Qed.

(** The heading does not reach into a text that starts with a character
    it lacks. *)
Lemma eat_ci_other_tail h n : lacks_ci n h = true ->
  forall x u tail,
    Re.eat_ci h (x ++ u) = None -> Re.eat_ci h (x ++ String n tail) = None.
Proof.
  induction h as [| y h IH]; intros Hn x u tail; [discriminate |].
  cbn [lacks_ci] in Hn. apply andb_true_iff in Hn. destruct Hn as [Hy Hn].
  apply negb_true_iff in Hy.
  destruct x as [| c x]; cbn [String.append Re.eat_ci].
  - intros _. now rewrite Ascii.eqb_sym, Hy.
  - destruct u as [| c' u']; cbn [Re.eat_ci];
      (destruct (Ascii.eqb (PyStr.lower_char y) (PyStr.lower_char c));
       [now apply IH | reflexivity]).
Qed.

Lemma find_heading_here u body :
  find_heading u = Some ("", body) -> Re.eat_ci heading (dropwhile decoration u) <> None.
Proof.
  rewrite find_heading_unfold.
  destruct (Re.eat_ci heading (dropwhile decoration u)); [discriminate |].
  destruct u as [| c u]; [discriminate |].
  destruct (find_heading u) as [[? ?] |]; discriminate.
Qed.

Lemma find_heading_step c b u body :
  find_heading (String c b ++ u) = Some (String c b, body) ->
  Re.eat_ci heading (dropwhile decoration (String c b ++ u)) = None
  /\ find_heading (b ++ u) = Some (b, body).
Proof.
  rewrite find_heading_unfold.
  destruct (Re.eat_ci heading (dropwhile decoration (String c b ++ u))); [discriminate |].
  cbn [String.append].
  destruct (find_heading (b ++ u)) as [[b' body'] |]; [| discriminate].
  now intros [= -> ->].
Qed.

Lemma find_heading_at b : forall u body,
  find_heading (b ++ u) = Some (b, body) ->
  Re.eat_ci heading (dropwhile decoration u) <> None.
Proof.
  induction b as [| c b IH]; intros u body H.
  - now apply (find_heading_here u body).
  - apply find_heading_step in H. destruct H as [_ H]. now apply (IH u body).
Qed.

Lemma find_heading_suffix a : forall b u body,
  find_heading ((a ++ b) ++ u) = Some (a ++ b, body) ->
  find_heading (b ++ u) = Some (b, body).
Proof.
  induction a as [| c a IH]; intros b u body H; [exact H |].
  apply (find_heading_step c (a ++ b) u body) in H. destruct H as [_ H].
  now apply IH.
Qed.

(** The text before the heading does not end in white space. *)
Lemma find_heading_rstrip b : forall u body,
  find_heading (b ++ u) = Some (b, body) -> PyStr.rstrip b = b.
Proof.
  induction b as [| c b IH]; intros u body H; [reflexivity |].
  destruct (find_heading_step c b u body H) as [Hnone Hrest].
  cbn [PyStr.rstrip]. rewrite (IH u body Hrest).
  destruct b as [| x b]; [| reflexivity].
  destruct (PyStr.isspace c) eqn:Hc; [| reflexivity].
  exfalso. apply (find_heading_at "" u body Hrest).
  cbn [String.append dropwhile] in Hnone. unfold decoration in Hnone at 1.
  rewrite Hc, orb_true_r in Hnone. exact Hnone.
Qed.

(** The same search finds the same text before the heading when what
    stood from the heading on is replaced by a text [tail] that starts
    with a line feed and has the heading at its front. *)
Lemma find_heading_reanchor tail body' b : forall u body,
  find_heading (b ++ u) = Some (b, body) ->
  find_heading (String "010" tail) = Some ("", body') ->
  find_heading (b ++ String "010" tail) = Some (b, body').
Proof.
  induction b as [| c b IH]; intros u body H Htail; [exact Htail |].
  destruct (find_heading_step c b u body H) as [Hnone Hrest].
  specialize (IH u body Hrest Htail).
  rewrite find_heading_unfold. cbn [String.append]. rewrite IH.
  change (String c (b ++ String "010" tail)) with (String c b ++ String "010" tail).
  destruct (dropwhile decoration (String c b)) as [| x y] eqn:Hd.
  - exfalso. apply (find_heading_at b u body Hrest).
    apply dropwhile_none in Hd.
    now rewrite (dropwhile_append_all _ _ u Hd) in Hnone.
  - rewrite dropwhile_append_some in Hnone |- * by (rewrite Hd; discriminate).
    rewrite Hd in *.
    now rewrite (eat_ci_other_tail heading "010" eq_refl (String x y) u tail Hnone).
Qed.

Lemma dropwhile_fixed p c s : p c = false -> dropwhile p (String c s) = String c s.
Proof. intros H. simpl. now rewrite H. Qed.

(** The normalised heading line with an equation section behind is
    found at its front, and group 2 is that section. *)
Lemma find_heading_normalised section :
  dropwhile decoration section = section ->
  find_heading (String "010" (nl ++ "**Intercalation Dynamics:**" ++ nl ++ nl ++ section))
  = Some ("", section).
Proof.
  intros Hsec. rewrite find_heading_unfold.
  change (String "010" (nl ++ "**Intercalation Dynamics:**" ++ nl ++ nl ++ section))
    with ((nl ++ nl ++ "**") ++ heading ++ ":" ++ ("**" ++ nl ++ nl) ++ section).
  rewrite (dropwhile_append_all decoration (nl ++ nl ++ "**")) by reflexivity.
  change (heading ++ ":" ++ ("**" ++ nl ++ nl) ++ section)
    with (String "I" ("ntercalation Dynamics" ++ ":" ++ ("**" ++ nl ++ nl) ++ section)).
  rewrite dropwhile_fixed by reflexivity.
  change (String "I" ("ntercalation Dynamics" ++ ":" ++ ("**" ++ nl ++ nl) ++ section))
    with (heading ++ ":" ++ ("**" ++ nl ++ nl) ++ section).
  rewrite eat_ci_append by reflexivity.
  unfold after_heading.
  change (":" ++ ("**" ++ nl ++ nl) ++ section)
    with (String ":" (("**" ++ nl ++ nl) ++ section)).
  rewrite dropwhile_fixed by reflexivity.
  change (skip_colon (String ":" (("**" ++ nl ++ nl) ++ section)))
    with (("**" ++ nl ++ nl) ++ section).
  rewrite (dropwhile_append_all decoration ("**" ++ nl ++ nl)) by reflexivity.
  now rewrite Hsec.
Qed.

Lemma display_not_decorated s :
  PyStr.startswith s "$$" || PyStr.startswith s "\[" = true ->
  dropwhile decoration s = s.
Proof.
  destruct s as [| c s]; [reflexivity |].
  rewrite !startswith_cons. intros H. apply dropwhile_fixed.
  destruct (Ascii.eqb_spec "$" c) as [<- |]; [reflexivity |].
  destruct (Ascii.eqb_spec "\" c) as [<- |]; [reflexivity | discriminate H].
Qed.

Lemma contains_cons_other p c s :
  lacks c p = true -> p <> "" ->
  PyStr.contains p s = false -> PyStr.contains p (String c s) = false.
Proof.
  intros Hc Hp Hs. rewrite contains_unfold, Hs, orb_false_r.
  destruct p as [| x p]; [congruence |]. rewrite startswith_cons.
  cbn [lacks] in Hc. apply andb_true_iff in Hc. destruct Hc as [Hx _].
  apply negb_true_iff in Hx. now rewrite Ascii.eqb_sym, Hx.
Qed.

Lemma contains_equation_section p body :
  apart p -> lacks "*" body = true ->
  PyStr.contains p body = false ->
  PyStr.contains p (equation_section body) = false.
Proof.
  intros (Hp & Hnl & Hdd & _) Hstar Hbody. rewrite equation_section_spec. cbn zeta.
  rewrite (delete_lacks "*" _ (lacks_strip _ _ Hstar)).
  pose proof (contains_strip p body Hbody) as Heq.
  destruct (PyStr.startswith (PyStr.strip body) "$$"
            || PyStr.startswith (PyStr.strip body) "\["); [exact Heq |].
  change ("$$" ++ nl ++ PyStr.strip body ++ nl ++ "$$")
    with ("$$" ++ String "010" (PyStr.strip body ++ String "010" "$$")).
  apply contains_join; [exact Hnl | exact Hdd |].
  apply contains_cons_other; [exact Hnl | exact Hp |].
  apply contains_join; [exact Hnl | exact Heq |].
  now apply contains_cons_other.
Qed.

Lemma contains_result p preamble section :
  apart p ->
  PyStr.contains p preamble = false ->
  PyStr.contains p section = false ->
  PyStr.contains p (preamble ++ nl ++ nl ++ "**Intercalation Dynamics:**" ++ nl ++ nl ++ section)
  = false.
Proof.
  intros (Hp & Hnl & _ & Hline) Hpre Hsec.
  change (preamble ++ nl ++ nl ++ "**Intercalation Dynamics:**" ++ nl ++ nl ++ section)
    with (preamble
          ++ String "010" ((nl ++ "**Intercalation Dynamics:**" ++ nl) ++ String "010" section)).
  apply contains_join; [exact Hnl | exact Hpre |].
  apply contains_cons_other; [exact Hnl | exact Hp |].
  apply contains_join; [exact Hnl | exact Hline |].
  now apply contains_cons_other.
Qed.

Lemma strip_display equation :
  PyStr.strip ("$$" ++ nl ++ equation ++ nl ++ "$$") = "$$" ++ nl ++ equation ++ nl ++ "$$".
Proof.
  unfold PyStr.strip.
  change ("$$" ++ nl ++ equation ++ nl ++ "$$")
    with (String "$" ("$" ++ nl ++ equation ++ nl ++ "$$")) at 1.
  rewrite lstrip_fixed by reflexivity.
  change (String "$" ("$" ++ nl ++ equation ++ nl ++ "$$"))
    with ("$$" ++ nl ++ equation ++ nl ++ "$$").
  replace ("$$" ++ nl ++ equation ++ nl ++ "$$")
    with (("$$" ++ nl ++ equation ++ nl ++ "$") ++ "$")
    by (rewrite !append_assoc; reflexivity).
  apply rstrip_last. reflexivity.
Qed.

Lemma strip_equation_section body :
  lacks "*" body = true ->
  PyStr.strip (equation_section body) = equation_section body.
Proof.
  intros Hstar. rewrite equation_section_spec. cbn zeta.
  rewrite (delete_lacks "*" _ (lacks_strip _ _ Hstar)).
  destruct (PyStr.startswith (PyStr.strip body) "$$"
            || PyStr.startswith (PyStr.strip body) "\[");
    [apply strip_idem | apply strip_display].
Qed.

(** The equation section of a body without '*' is left as it is when
    taken as a body in turn. *)
Lemma equation_section_fixed body :
  lacks "*" body = true ->
  equation_section (equation_section body) = equation_section body.
Proof.
  intros Hstar. rewrite (equation_section_spec (equation_section body)). cbn zeta.
  rewrite (strip_equation_section body Hstar).
  destruct (equation_section_display body) as [Hl Hd].
  now rewrite (delete_lacks "*" _ Hl), Hd.
Qed.

Lemma find_heading_body s before body :
  find_heading s = Some (before, body) -> exists front, s = front ++ body.
Proof.
  intros H. destruct (find_heading_split _ _ _ H) as (u & h & behind & -> & Hd & _ & ->).
  destruct (skip_colon_split (dropwhile PyStr.isspace behind)) as (o & _ & Hcolon).
  exists (before ++ takewhile decoration u ++ h ++ takewhile PyStr.isspace behind ++ o
          ++ takewhile decoration (skip_colon (dropwhile PyStr.isspace behind))).
  rewrite !append_assoc. f_equal.
  rewrite (takewhile_dropwhile decoration u) at 1. f_equal. rewrite Hd. f_equal.
  rewrite (takewhile_dropwhile PyStr.isspace behind) at 1. f_equal.
  rewrite Hcolon at 1. f_equal.
  unfold after_heading. apply takewhile_dropwhile.
Qed.

(** On a text with the heading whose captured body holds no '*', a
    second pass changes nothing. *)
Lemma clean_latex_formatting_twice text before body :
  find_heading (fix_brackets (strip_fences text)) = Some (before, body) ->
  lacks "*" body = true ->
  clean_latex_formatting (clean_latex_formatting text) = clean_latex_formatting text.
Proof.
  intros Hf Hstar.
  assert (Htext : text <> "") by (intros ->; discriminate Hf).
  rewrite (clean_latex_formatting_find text Htext), Hf.
  destruct (rewritten_clean text) as (H1 & H2 & H3). cbn zeta in H1, H2, H3.
  destruct (find_heading_split _ _ _ Hf) as (u & h & behind & Ht & _).
  destruct (find_heading_body _ _ _ Hf) as (front & Hfront).
  (* the preamble is the text before the heading without its leading white space *)
  destruct (lstrip_suffix before) as [a Ha].
  assert (Hfb : find_heading (PyStr.lstrip before ++ u) = Some (PyStr.lstrip before, body)).
  { apply (find_heading_suffix a). rewrite <- Ha, <- Ht. exact Hf. }
  assert (Hpre : PyStr.strip before = PyStr.lstrip before).
  { unfold PyStr.strip. apply (find_heading_rstrip _ u body Hfb). }
  set (section := equation_section body).
  assert (Hfind : find_heading (PyStr.strip before ++ nl ++ nl ++ "**Intercalation Dynamics:**"
                                ++ nl ++ nl ++ section)
                  = Some (PyStr.strip before, section)).
  { rewrite Hpre.
    apply (find_heading_reanchor _ _ _ u body Hfb).
    apply find_heading_normalised. apply display_not_decorated.
    apply equation_section_display. }
  (* the result holds nothing for the rewriting to touch *)
  assert (Hkeep : forall p, apart p ->
            PyStr.contains p (fix_brackets (strip_fences text)) = false ->
            PyStr.contains p (PyStr.strip before ++ nl ++ nl ++ "**Intercalation Dynamics:**"
                              ++ nl ++ nl ++ section) = false).
  { intros p Hp Hc. apply contains_result; [exact Hp | |].
    - apply contains_strip. rewrite Ht in Hc. now apply contains_append_false in Hc.
    - apply contains_equation_section; [exact Hp | exact Hstar |].
      rewrite Hfront in Hc. now apply contains_append_false in Hc. }
  assert (Hfix : fix_brackets (strip_fences
                   (PyStr.strip before ++ nl ++ nl ++ "**Intercalation Dynamics:**"
                    ++ nl ++ nl ++ section))
                 = PyStr.strip before ++ nl ++ nl ++ "**Intercalation Dynamics:**"
                   ++ nl ++ nl ++ section).
  { apply rewriting_fixpoint; apply Hkeep; try assumption;
      (split; [discriminate | repeat split; reflexivity]). }
  rewrite clean_latex_formatting_find.
  - rewrite Hfix, Hfind, strip_idem. unfold section.
    now rewrite (equation_section_fixed body Hstar).
  - intros Hempty.
    assert (Hlen : String.length (PyStr.strip before ++ nl ++ nl ++ "**Intercalation Dynamics:**"
                                  ++ nl ++ nl ++ section) = 0) by now rewrite Hempty.
    rewrite length_append in Hlen. simpl in Hlen. lia.
Qed.

Lemma lacks_replace_go c old new s : lacks c new = true -> lacks c s = true ->
  forall k, lacks c (PyStr.replace_go old new k s) = true.
Proof.
  intros Hnew. induction s as [| x s IH]; intros Hs k; [reflexivity |].
  cbn [lacks] in Hs. apply andb_true_iff in Hs. destruct Hs as [Hx Hs].
  cbn [PyStr.replace_go]. destruct k as [| k]; [| now apply IH].
  destruct (PyStr.startswith (String x s) old).
  - rewrite lacks_append, Hnew. now apply IH.
  - cbn [lacks]. rewrite Hx. now apply IH.
Qed.

Lemma lacks_rewritten c text :
  lacks c "(" = true -> lacks c ")" = true -> lacks c text = true ->
  lacks c (fix_brackets (strip_fences text)) = true.
Proof.
  intros Ho Hc H. unfold fix_brackets, strip_fences, PyStr.replace.
  repeat (apply lacks_replace_go; [assumption || reflexivity |]). exact H.
Qed.

Lemma inline_math_needs_backquote s :
  lacks "`" s = true -> Re.search inline_math_pattern s = None.
Proof.
  induction s as [| c s IH]; [reflexivity |]. cbn [lacks].
  intros H. apply andb_true_iff in H. destruct H as [Hc Hs].
  apply negb_true_iff in Hc. rewrite search_unfold.
  unfold inline_math_pattern at 1. cbn [Re.rmatch]. unfold Re.eat.
  cbn [PyStr.after_prefix]. rewrite Hc. now apply IH.
Qed.

Lemma find_heading_occurs s : find_heading s <> None -> occurs_ci heading s = true.
Proof.
  destruct (find_heading s) as [[before body] |] eqn:Hf; [intros _ | congruence].
  destruct (find_heading_split _ _ _ Hf) as (u & h & behind & -> & Hd & Hh & _).
  apply occurs_ci_behind. rewrite (takewhile_dropwhile decoration u), Hd.
  apply occurs_ci_behind. rewrite occurs_ci_unfold.
  now rewrite (eat_ci_append heading h behind Hh).
Qed.

(** Without the heading and without a backquote, the pass is the
    rewriting alone, and a second pass changes nothing. *)
Lemma clean_latex_formatting_plain text :
  occurs_ci heading (fix_brackets (strip_fences text)) = false ->
  lacks "`" text = true ->
  clean_latex_formatting text = fix_brackets (strip_fences text)
  /\ clean_latex_formatting (clean_latex_formatting text) = clean_latex_formatting text.
Proof.
  intros Hocc Hbq.
  assert (Hnone : find_heading (fix_brackets (strip_fences text)) = None).
  { destruct (find_heading (fix_brackets (strip_fences text))) eqn:Hf; [| reflexivity].
    rewrite find_heading_occurs in Hocc; [discriminate | congruence]. }
  assert (Hsub : Re.sub inline_math_pattern group1 (fix_brackets (strip_fences text))
                 = fix_brackets (strip_fences text)).
  { apply sub_no_match, inline_math_needs_backquote.
    now apply lacks_rewritten. }
  assert (Hone : clean_latex_formatting text = fix_brackets (strip_fences text)).
  { destruct text as [| c text]; [reflexivity |].
    rewrite clean_latex_formatting_find by discriminate. now rewrite Hnone. }
  split; [exact Hone |]. rewrite Hone.
  destruct (rewritten_clean text) as (H1 & H2 & H3). cbn zeta in H1, H2, H3.
  destruct (fix_brackets (strip_fences text)) as [| c t] eqn:Ht; [reflexivity |].
  rewrite clean_latex_formatting_find by discriminate.
  rewrite (rewriting_fixpoint _ H1 H2 H3), Hnone. exact Hsub.
Qed.

(** C7, as stated, fails: the pass is not idempotent, neither where the
    heading is absent nor where it is present. *)
Lemma clean_latex_formatting_not_idempotent :
  clean_latex_formatting "``$x$``" = "`$x$`"
  /\ clean_latex_formatting (clean_latex_formatting "``$x$``") = "$x$"
  /\ clean_latex_formatting (clean_latex_formatting "Intercalation Dynamics [*$")
     <> clean_latex_formatting "Intercalation Dynamics [*$".
Proof. repeat split; try reflexivity. vm_compute. discriminate. Qed.

(** C7, amended. On an input containing the heading 'Intercalation
    Dynamics' (up to case), the pass deletes the fence markers, rewrites
    '[$' to '(' and '$]' to ')', and splits the rewritten text at the
    heading with its decoration; it returns the text before, stripped,
    the normalised heading, and the equation section: the text behind
    the heading stripped and without any '*', put between '$$' lines
    unless it starts with '$$' or '\[' already.  A second pass changes
    nothing when that text behind the heading holds no '*'; nor does it
    when the rewritten text is without the heading and the input
    without a backquote, where the pass is the rewriting alone. *)
Theorem clean_latex_formatting_heading (text : string) :
  (occurs_ci heading text = true ->
   exists before d1 h w o d2 body,
     fix_brackets (strip_fences text) = before ++ d1 ++ h ++ w ++ o ++ d2 ++ body
     /\ Re.search heading_pattern (fix_brackets (strip_fences text))
        = Some ([fix_brackets (strip_fences text); d1 ++ h ++ w ++ o ++ d2 ++ body;
                 body; ""], "")
     /\ all_of decoration d1 = true
     /\ PyStr.lower h = PyStr.lower heading
     /\ all_of PyStr.isspace w = true
     /\ (o = "" \/ o = ":")
     /\ all_of decoration d2 = true
     /\ dropwhile decoration body = body
     /\ clean_latex_formatting text
        = PyStr.strip before ++ nl ++ nl ++ "**Intercalation Dynamics:**" ++ nl ++ nl
          ++ equation_section body
     /\ equation_section body
        = (let equation := delete "*" (PyStr.strip body) in
           if PyStr.startswith equation "$$" || PyStr.startswith equation "\["
           then equation
           else "$$" ++ nl ++ equation ++ nl ++ "$$")
     /\ lacks "*" (equation_section body) = true
     /\ PyStr.startswith (equation_section body) "$$"
        || PyStr.startswith (equation_section body) "\[" = true
     /\ (lacks "*" body = true ->
         clean_latex_formatting (clean_latex_formatting text)
         = clean_latex_formatting text))
  /\ (occurs_ci heading (fix_brackets (strip_fences text)) = false ->
      lacks "`" text = true ->
      clean_latex_formatting text = fix_brackets (strip_fences text)
      /\ clean_latex_formatting (clean_latex_formatting text)
         = clean_latex_formatting text).
Proof.
  split; [| apply clean_latex_formatting_plain].
  intros Hocc.
  assert (Htext : text <> "") by (intros ->; discriminate Hocc).
  pose proof (occurs_ci_find_heading _ (occurs_ci_rewritten _ Hocc)) as Hfind.
  pose proof (clean_latex_formatting_twice text) as Htwice.
  rewrite (clean_latex_formatting_find text Htext) in *.
  destruct (find_heading (fix_brackets (strip_fences text))) as [[before body] |] eqn:Hf;
    [clear Hfind | congruence].
  destruct (find_heading_split _ _ _ Hf) as (u & h & behind & Ht & Hd & Hh & Hb).
  destruct (skip_colon_split (dropwhile PyStr.isspace behind)) as (o & Ho & Hcolon).
  exists before, (takewhile decoration u), h, (takewhile PyStr.isspace behind), o,
    (takewhile decoration (skip_colon (dropwhile PyStr.isspace behind))), body.
  assert (Hu : u = takewhile decoration u ++ h ++ takewhile PyStr.isspace behind ++ o
                   ++ takewhile decoration (skip_colon (dropwhile PyStr.isspace behind))
                   ++ body).
  { rewrite (takewhile_dropwhile decoration u) at 1. f_equal. rewrite Hd. f_equal.
    rewrite (takewhile_dropwhile PyStr.isspace behind) at 1. f_equal.
    rewrite Hcolon at 1. f_equal.
    rewrite Hb. unfold after_heading. apply takewhile_dropwhile. }
  repeat split.
  - rewrite Ht. f_equal. exact Hu.
  - rewrite search_heading, heading_pattern_match, Hf, <- Hu.
    rewrite Ht at 2. now rewrite drop_length_append.
  - apply all_of_takewhile.
  - exact Hh.
  - apply all_of_takewhile.
  - exact Ho.
  - apply all_of_takewhile.
  - rewrite Hb. unfold after_heading. apply dropwhile_idem.
  - apply equation_section_spec.
  - apply equation_section_display.
  - apply equation_section_display.
  - intros Hstar. exact (Htwice before body eq_refl Hstar).
Qed.

Lemma clean_latex_formatting_heading_witness :
  clean_latex_formatting sample_report
  = "### Cognitive Schedule: **Linear**" ++ nl
    ++ "| Se | `ExplorationObjective` | $A$ | 5 |" ++ nl ++ nl
    ++ "**Intercalation Dynamics:**" ++ nl ++ nl
    ++ "$$ J(\theta) = 5 \cdot [A] $$"
  /\ clean_latex_formatting (clean_latex_formatting sample_report)
     = clean_latex_formatting sample_report
  /\ clean_latex_formatting (clean_latex_formatting "7Se ~ [$Ti$]")
     = clean_latex_formatting "7Se ~ [$Ti$]".
Proof.
  destruct (proj1 (clean_latex_formatting_heading sample_report) eq_refl)
    as (before & d1 & h & w & o & d2 & body & _ & Hsearch & Hrest).
  split; [reflexivity | split].
  - apply Hrest.
    vm_compute in Hsearch. injection Hsearch as _ <-. reflexivity.
  - exact (proj2 (proj2 (clean_latex_formatting_heading "7Se ~ [$Ti$]") eq_refl eq_refl)).
Defined.

(** * Further properties of the code *)

(** ** The model gateway *)

Lemma env_set_spec E name :
  env_set E name = false <-> getenv E name = None \/ getenv E name = Some "".
Proof.
  unfold env_set. destruct (getenv E name) as [[| c k] |]; split; intros H; auto;
    try discriminate; destruct H as [H | H]; discriminate.
Qed.

(** X1. [get_model] raises its ValueError exactly when the model name
    is a gemini name (up to case) and GEMINI_API_KEY is unset or empty,
    which is the condition [process_pattern] tests before the stages;
    otherwise it returns the local client for any other name and the
    remote client with the key for a gemini name, so that once the test
    has passed the three stages all get a client. *)
Theorem get_model_by_name_and_credential (E : Env) (model_name temperature : string) :
  (credential_missing E model_name = true ->
   ModelFactory.get_model E model_name temperature
   = Raise (mkExn ValueError "GEMINI_API_KEY not found in environment variables."))
  /\ (is_gemini model_name = false ->
      ModelFactory.get_model E model_name temperature = Ok (ChatOllama model_name temperature))
  /\ (forall key, is_gemini model_name = true ->
        getenv E "GEMINI_API_KEY" = Some key -> key <> "" ->
        ModelFactory.get_model E model_name temperature
        = Ok (ChatGoogleGenerativeAI model_name temperature key))
  /\ (credential_missing E model_name = false ->
      exists client,
        AlgebraAnalyst.init E model_name = Ok client
        /\ Composer.init E model_name = Ok client
        /\ CodeGenerator.init E model_name = Ok client).
Proof.
  unfold credential_missing, is_gemini, AlgebraAnalyst.init, Composer.init,
    CodeGenerator.init, ModelFactory.get_model, env_set.
  destruct (PyStr.startswith (PyStr.lower model_name) "gemini");
    destruct (getenv E "GEMINI_API_KEY") as [[| c k] |]; cbn [andb negb];
    repeat split; try discriminate; try reflexivity; try congruence; eauto.
Qed.

Lemma get_model_by_name_and_credential_witness :
  ModelFactory.get_model (scripted (Some "") answers_stage1_down []) "GEMINI-2.5-pro" "0.8"
  = Raise (mkExn ValueError "GEMINI_API_KEY not found in environment variables.")
  /\ ModelFactory.get_model keyed_env "llama3" "0.8" = Ok (ChatOllama "llama3" "0.8")
  /\ ModelFactory.get_model keyed_env "Gemini-2.5-pro" "0.8"
     = Ok (ChatGoogleGenerativeAI "Gemini-2.5-pro" "0.8" "secret")
  /\ exists client, Composer.init keyed_env "Gemini-2.5-pro" = Ok client.
Proof.
  split; [| split; [| split]].
  - exact (proj1 (get_model_by_name_and_credential
                    (scripted (Some "") answers_stage1_down []) "GEMINI-2.5-pro" "0.8") eq_refl).
  - exact (proj1 (proj2 (get_model_by_name_and_credential keyed_env "llama3" "0.8")) eq_refl).
  - exact (proj1 (proj2 (proj2 (get_model_by_name_and_credential keyed_env "Gemini-2.5-pro" "0.8")))
             "secret" eq_refl eq_refl ltac:(discriminate)).
  - destruct (proj2 (proj2 (proj2 (get_model_by_name_and_credential
                                     keyed_env "Gemini-2.5-pro" "0.8"))) eq_refl)
      as (client & _ & H & _).
    exists client. exact H.
Defined.

(** ** The local model list *)

Lemma mapM_length {A B} (f : A -> result B) (l : list A) (bs : list B) :
  mapM f l = Ok bs -> List.length bs = List.length l.
Proof.
  revert bs. induction l as [| a l IH]; intros bs; simpl.
  - now intros [= <-].
  - destruct (f a) as [b | e]; [| discriminate]. cbn [bind].
    destruct (mapM f l) as [bs' | e]; [| discriminate]. cbn [bind].
    intros [= <-]. simpl. now rewrite (IH bs' eq_refl).
Qed.

Lemma split_single sep s : lacks sep s = true -> PyStr.split sep s = [s].
Proof.
  induction s as [| c s IH]; [reflexivity |]. cbn [lacks PyStr.split].
  intros H. apply andb_true_iff in H. destruct H as [Hc Hs].
  apply negb_true_iff in Hc. rewrite Ascii.eqb_sym, Hc. now rewrite (IH Hs).
Qed.

(** The words of a line start with its leading word; a blank line has none. *)
Lemma split_whitespace_head s :
  match PyStr.lstrip s with
  | EmptyString => PyStr.split_whitespace s = []
  | String _ _ => exists words, PyStr.split_whitespace s = leading_word s :: words
  end.
Proof.
  unfold leading_word. induction s as [| c s IH]; [reflexivity |].
  cbn [PyStr.lstrip PyStr.split_whitespace].
  destruct (PyStr.isspace c) eqn:Hc; [exact IH |].
  cbn [takewhile]. unfold nonspace at 1. rewrite Hc. cbn [negb].
  destruct s as [| d s]; [eexists; reflexivity |].
  cbn [PyStr.lstrip] in IH. cbn [takewhile]. unfold nonspace at 1.
  destruct (PyStr.isspace d) eqn:Hd; cbn [negb]; [eexists; reflexivity |].
  destruct IH as [words IH]. rewrite IH. cbn [takewhile]. unfold nonspace at 1.
  rewrite Hd. cbn [negb]. eexists; reflexivity.
Qed.

Lemma first_word_blank line :
  blank line ->
  first_word line = Raise (mkExn (OtherException "IndexError") "list index out of range").
Proof.
  intros H. apply lstrip_blank in H. unfold first_word.
  pose proof (split_whitespace_head line) as Hh. rewrite H in Hh. now rewrite Hh.
Qed.

Lemma first_word_leading line :
  ~ blank line -> first_word line = Ok (leading_word line).
Proof.
  intros H. unfold first_word. pose proof (split_whitespace_head line) as Hh.
  destruct (PyStr.lstrip line) eqn:Hl.
  - exfalso. apply H. now apply lstrip_blank.
  - destruct Hh as [words ->]. reflexivity.
Qed.

Lemma leading_word_proper line :
  ~ blank line -> leading_word line <> "" /\ all_of nonspace (leading_word line) = true.
Proof.
  intros H. split; [| apply all_of_takewhile].
  unfold leading_word. pose proof (lstrip_head line) as Hh.
  destruct (PyStr.lstrip line) as [| c rest] eqn:Hl.
  - exfalso. apply H. now apply lstrip_blank.
  - cbn [takewhile]. unfold nonspace at 1. rewrite Hh. discriminate.
Qed.

Lemma blank_dec line : blank line \/ ~ blank line.
Proof.
  destruct (string_dec (PyStr.lstrip line) "") as [H | H].
  - left. now apply lstrip_blank.
  - right. intros Hb. apply H. now apply lstrip_blank.
Qed.

Lemma mapM_first_word_blank rows :
  Exists blank rows ->
  mapM first_word rows = Raise (mkExn (OtherException "IndexError") "list index out of range").
Proof.
  induction rows as [| row rows IH]; intros H; [inversion H |].
  cbn [mapM]. destruct (blank_dec row) as [Hb | Hb].
  - now rewrite (first_word_blank row Hb).
  - rewrite (first_word_leading row Hb). cbn [bind].
    inversion H as [? ? Hrow | ? ? Hrest]; subst; [contradiction |].
    now rewrite (IH Hrest).
Qed.

Lemma get_ollama_models_nonempty ollama_list : get_ollama_models ollama_list <> [].
Proof.
  unfold get_ollama_models, try_except.
  destruct ollama_list as [stdout | e]; cbn [bind]; [| discriminate].
  destruct (List.length (PyStr.split "010" (PyStr.strip stdout)) <=? 1) eqn:Hlen;
    [discriminate |].
  destruct (mapM first_word (tl (PyStr.split "010" (PyStr.strip stdout))))
    as [models | e] eqn:Hm; [| discriminate].
  apply mapM_length in Hm. apply Nat.leb_gt in Hlen.
  destruct (PyStr.split "010" (PyStr.strip stdout)) as [| header [| row rows]];
    simpl in Hlen, Hm; try lia.
  destruct models; discriminate.
Qed.

(** X2. [get_ollama_models] never returns an empty list, so its first
    element can be taken: it gives the one name 'Ollama Not Installed'
    when the command fails and the one name 'llama3' when the output,
    stripped, is a single line (a header alone, or nothing). *)
Theorem get_ollama_models_never_empty (ollama_list : result string) :
  get_ollama_models ollama_list <> []
  /\ (forall e, ollama_list = Raise e ->
        get_ollama_models ollama_list = ["Ollama Not Installed"])
  /\ (forall stdout, ollama_list = Ok stdout ->
        lacks "010" (PyStr.strip stdout) = true ->
        get_ollama_models ollama_list = ["llama3"]).
Proof.
  split; [apply get_ollama_models_nonempty |].
  unfold get_ollama_models, try_except. split.
  - intros e ->. reflexivity.
  - intros stdout -> Hone. cbn [bind]. now rewrite (split_single _ _ Hone).
Qed.

Lemma get_ollama_models_never_empty_witness :
  get_ollama_models (Raise timeout_error) = ["Ollama Not Installed"]
  /\ get_ollama_models (Ok ("NAME   ID   SIZE" ++ nl)) = ["llama3"].
Proof.
  split.
  - exact (proj1 (proj2 (get_ollama_models_never_empty (Raise timeout_error)))
             timeout_error eq_refl).
  - exact (proj2 (proj2 (get_ollama_models_never_empty (Ok ("NAME   ID   SIZE" ++ nl))))
             _ eq_refl eq_refl).
Defined.

(** X3. When the stripped output of [ollama list] has a header line and
    further lines, [get_ollama_models] returns the first word of every
    further line, in order, each a non-empty name without white space,
    provided none of those lines is blank; a single blank line among
    them makes it return 'Ollama Not Installed' instead, although the
    command succeeded. *)
Theorem get_ollama_models_listing (stdout header : string) (rows : list string) :
  PyStr.split "010" (PyStr.strip stdout) = header :: rows ->
  rows <> [] ->
  (Forall (fun row => ~ blank row) rows ->
   get_ollama_models (Ok stdout) = map leading_word rows
   /\ Forall (fun name => name <> "" /\ all_of nonspace name = true)
        (get_ollama_models (Ok stdout)))
  /\ (Exists blank rows -> get_ollama_models (Ok stdout) = ["Ollama Not Installed"]).
Proof.
  intros Hsplit Hrows. unfold get_ollama_models, try_except. cbn [bind].
  rewrite Hsplit. destruct rows as [| row rows]; [congruence |].
  cbn [List.length Nat.leb tl]. split.
  - intros Hall.
    rewrite (mapM_ok first_word leading_word).
    + split; [reflexivity |]. apply Forall_map.
      eapply Forall_impl; [| exact Hall]. intros r Hr. now apply leading_word_proper.
    + eapply Forall_impl; [| exact Hall]. intros r Hr. now apply first_word_leading.
  - intros Hex. now rewrite (mapM_first_word_blank _ Hex).
Qed.

Lemma get_ollama_models_listing_witness :
  get_ollama_models (Ok ollama_listing) = ["llama3:latest"; "mistral:7b"]
  /\ get_ollama_models (Ok ("NAME" ++ nl ++ "llama3:latest" ++ nl ++ nl ++ "mistral:7b"))
     = ["Ollama Not Installed"].
Proof.
  split.
  - refine (proj1 (proj1 (get_ollama_models_listing ollama_listing
                            "NAME            ID      SIZE"
                            ["llama3:latest   365c0bd 4.7 GB"; "  mistral:7b    f974a74 4.1 GB"]
                            eq_refl ltac:(discriminate)) _)).
    repeat constructor; apply not_blank_strip; discriminate.
  - refine (proj2 (get_ollama_models_listing
                     ("NAME" ++ nl ++ "llama3:latest" ++ nl ++ nl ++ "mistral:7b")
                     "NAME" ["llama3:latest"; ""; "mistral:7b"]
                     eq_refl ltac:(discriminate)) _).
    apply Exists_cons_tl, Exists_cons_hd. intros c [].
Defined.



(** ** The table and the master equation *)

Lemma field_of track key v : getitem track key = Ok v -> field track key = v.
Proof. unfold field. now intros ->. Qed.

Lemma table_row_text E track :
  is_track track -> Composer.table_row E track = Ok (row_text E track).
Proof.
  intros H. track_fields H. unfold Composer.table_row, row_text.
  rewrite (field_of _ _ _ Hv), (field_of _ _ _ Hs), (field_of _ _ _ Hm), (field_of _ _ _ Hf).
  rewrite Hf. cbn [bind replace_method]. rewrite Hv, Hs, Hm. reflexivity.
Qed.

Lemma escape_cons c s :
  PyStr.replace "|" "\|" (String c s)
  = if Ascii.eqb "|" c then "\|" ++ PyStr.replace "|" "\|" s
    else String c (PyStr.replace "|" "\|" s).
Proof.
  destruct (Ascii.eqb_spec "|" c) as [<- | Hc].
  - change (String "|" s) with ("|" ++ s). now rewrite replace_match.
  - apply replace_no_match. rewrite startswith_cons.
    apply andb_false_iff. left. now apply Ascii.eqb_neq.
Qed.

Lemma pipes_escaped_escape s : forall after_backslash,
  pipes_escaped after_backslash (PyStr.replace "|" "\|" s) = true.
Proof.
  induction s as [| c s IH]; intros b; [reflexivity |].
  rewrite escape_cons. destruct (Ascii.eqb_spec "|" c) as [<- | Hc].
  - cbn [String.append pipes_escaped]. rewrite IH. reflexivity.
  - cbn [pipes_escaped]. rewrite IH, andb_true_r.
    destruct (Ascii.eqb_spec c "|") as [-> | _]; [congruence | reflexivity].
Qed.

Lemma escape_head s : PyStr.startswith (PyStr.replace "|" "\|" s) "|" = false.
Proof.
  destruct s as [| c s]; [reflexivity |]. rewrite escape_cons.
  destruct (Ascii.eqb_spec "|" c) as [<- | Hc]; [reflexivity |].
  rewrite startswith_cons. apply andb_false_iff. left. now apply Ascii.eqb_neq.
Qed.

Lemma unescape_escape s : PyStr.replace "\|" "|" (PyStr.replace "|" "\|" s) = s.
Proof.
  induction s as [| c s IH]; [reflexivity |].
  rewrite escape_cons. destruct (Ascii.eqb_spec "|" c) as [<- | Hc].
  - rewrite replace_match by discriminate. now rewrite IH.
  - rewrite replace_no_match; [now rewrite IH |].
    rewrite startswith_cons, escape_head. apply andb_false_r.
Qed.

Lemma format_latex_report_rendered E d tracks equation :
  dict_get d "score" (PList []) = PList tracks ->
  Forall is_track tracks ->
  Composer.master_equation E (dict_get d "schedule_logic" (PStr "Linear")) (PList tracks)
  = Ok equation ->
  Composer.format_latex_report E d
  = Ok (((Composer.report_head E (dict_get d "schedule_logic" (PStr "Linear"))
            (dict_get d "math_narrative" (PStr ""))
            (dict_get d "global_frequency" (PFloat "1.0"))
          ++ String.concat "" (map (row_text E) tracks))
         ++ nl ++ "**Intercalation Dynamics:**" ++ nl)
        ++ equation).
Proof.
  intros Hscore Htracks Heq. unfold Composer.format_latex_report.
  rewrite Hscore. cbn [iterate bind].
  rewrite (mapM_ok _ (row_text E)).
  - cbn [bind]. rewrite Heq. reflexivity.
  - eapply Forall_impl; [| exact Htracks]. intros t. apply table_row_text.
Qed.

(** X5. The table of the report has one row per track, in the order of
    the score, with the cells voice, symbol, formula and mass, and the
    report ends with the heading line and the equation that
    [master_equation] returns.  The formula cell is the formula with
    each '|' replaced by '\|' and every other character copied as it
    is: each '|' of the cell stands directly behind a backslash, and
    replacing '\|' by '|' gives the formula back.  Nothing but the pipe
    is escaped: a backslash or a line feed of the formula is copied, so
    that a formula which holds '\|' gives a cell which holds '\\|'. *)
Theorem table_rows_escape_pipes (E : Env) (d : list (string * pyval)) (tracks : list pyval) :
  dict_get d "score" (PList []) = PList tracks ->
  Forall is_track tracks ->
  (exists equation,
     Composer.master_equation E (dict_get d "schedule_logic" (PStr "Linear")) (PList tracks)
     = Ok equation
     /\ Composer.format_latex_report E d
        = Ok (((Composer.report_head E (dict_get d "schedule_logic" (PStr "Linear"))
                  (dict_get d "math_narrative" (PStr ""))
                  (dict_get d "global_frequency" (PFloat "1.0"))
                ++ String.concat "" (map (row_text E) tracks))
               ++ nl ++ "**Intercalation Dynamics:**" ++ nl)
              ++ equation))
  /\ (forall track formula,
        In track tracks -> getitem track "formula" = Ok (PStr formula) ->
        Composer.table_row E track
        = Ok ("| " ++ py_str E (field track "voice") ++ " | `"
              ++ py_str E (field track "symbol") ++ "` | $"
              ++ PyStr.replace "|" "\|" formula ++ "$ | "
              ++ py_str E (field track "mass") ++ " |" ++ nl))
  /\ (forall c formula,
        PyStr.replace "|" "\|" (String c formula)
        = (if Ascii.eqb "|" c then "\|" else String c "") ++ PyStr.replace "|" "\|" formula)
  /\ (forall formula,
        pipes_escaped false (PyStr.replace "|" "\|" formula) = true
        /\ PyStr.replace "\|" "|" (PyStr.replace "|" "\|" formula) = formula).
Proof.
  intros Hscore Htracks. split; [| split; [| split]].
  - destruct (master_equation_returns E (dict_get d "schedule_logic" (PStr "Linear"))
                tracks Htracks) as (equation & Heq & _).
    eexists. split; [exact Heq |].
    apply format_latex_report_rendered; [exact Hscore | exact Htracks | exact Heq].
  - intros track formula Hin Hf.
    rewrite Forall_forall in Htracks. rewrite (table_row_text E track (Htracks track Hin)).
    unfold row_text. now rewrite (field_of _ _ _ Hf).
  - intros c formula. rewrite escape_cons. now destruct (Ascii.eqb "|" c).
  - intros formula. split; [apply pipes_escaped_escape | apply unescape_escape].
Qed.

Lemma track_norm_is_track : is_track track_norm.
Proof. repeat eexists; reflexivity. Qed.

Lemma table_rows_escape_pipes_witness :
  Composer.table_row keyed_env track_norm
  = Ok ("| Voice 3 (Ti) | `ConsistencyObjective` | $\|\|x\|\|$ | 2 |" ++ nl)
  /\ PyStr.replace "|" "\|" ("a\|b" ++ nl ++ "c") = "a\\|b" ++ nl ++ "c".
Proof.
  pose proof (table_rows_escape_pipes keyed_env [("score", PList [track_norm])]
                [track_norm] eq_refl
                (Forall_cons _ track_norm_is_track (Forall_nil _))) as (_ & Hrow & Hchar & _).
  split.
  - exact (Hrow track_norm "||x||" (or_introl eq_refl) eq_refl).
  - exact (Hchar "a"%char ("\|b" ++ nl ++ "c")).
Defined.

Lemma orbital_terms_nth E tracks :
  Forall is_track tracks ->
  forall i, exists terms,
    Composer.orbital_terms E i tracks = Ok terms
    /\ List.length terms = List.length tracks
    /\ forall k track, nth_error tracks k = Some track ->
         nth_error terms k = Some (orbital_term E (i + k) track).
Proof.
  induction 1 as [| track tracks H _ IH]; intros i; cbn [Composer.orbital_terms].
  - exists []. repeat split. intros [| k] track; discriminate.
  - destruct (IH (S i)) as (terms & Ht & Hlen & Hnth).
    track_fields H. rewrite Hm, Hf. cbn [bind]. rewrite Ht. cbn [bind].
    eexists. split; [reflexivity |]. split; [simpl; now rewrite Hlen |].
    intros [| k] t; cbn [nth_error].
    + intros [= <-]. unfold orbital_term, trig.
      rewrite (field_of _ _ _ Hm), (field_of _ _ _ Hf), Nat.add_0_r.
      destruct (Nat.even i); reflexivity.
    + intros Hk. rewrite (Hnth k t Hk). now rewrite Nat.add_succ_r.
Qed.

(** X6. The master equation of an Orbital schedule is the sum, inside
    '\sum_{t} ( )', of one term per track joined by ' + ', the term of
    the track at position i being its mass times the sine (i even) or
    the cosine (i odd) of omega t times its formula: the two functions
    alternate along the score whatever the tracks are. *)
Theorem master_equation_orbital (E : Env) (tracks : list pyval) :
  Forall is_track tracks ->
  exists terms,
    Composer.master_equation E (PStr "Orbital") (PList tracks)
    = Ok ("$$ J(\theta) = \sum_{t} (" ++ String.concat " + " terms ++ ") $$")
    /\ List.length terms = List.length tracks
    /\ forall i track, nth_error tracks i = Some track ->
         nth_error terms i
         = Some (py_str E (field track "mass") ++ " \cdot "
                 ++ (if Nat.even i then "\sin" else "\cos") ++ "(\omega t) \cdot ["
                 ++ py_str E (field track "formula") ++ "]").
Proof.
  intros H. destruct (orbital_terms_nth E tracks H 0) as (terms & Ht & Hlen & Hnth).
  exists terms. unfold Composer.master_equation.
  cbn [Composer.eq_str String.eqb Ascii.eqb Bool.eqb iterate bind].
  rewrite Ht. cbn [bind]. repeat split; [exact Hlen |].
  intros i track Hi. exact (Hnth i track Hi).
Qed.

Lemma master_equation_orbital_witness :
  exists terms,
    Composer.master_equation keyed_env (PStr "Orbital") (PList [track_Se; track_Fi; track_norm])
    = Ok ("$$ J(\theta) = \sum_{t} (" ++ String.concat " + " terms ++ ") $$")
    /\ nth_error terms 0 = Some "5 \cdot \sin(\omega t) \cdot [A]"
    /\ nth_error terms 1 = Some "3 \cdot \cos(\omega t) \cdot [B]"
    /\ nth_error terms 2 = Some "2 \cdot \sin(\omega t) \cdot [||x||]".
Proof.
  destruct (master_equation_orbital keyed_env [track_Se; track_Fi; track_norm]
              (Forall_cons _ track_Se_is_track
                 (Forall_cons _ track_Fi_is_track
                    (Forall_cons _ track_norm_is_track (Forall_nil _)))))
    as (terms & Heq & _ & Hnth).
  exists terms. split; [exact Heq |]. split; [| split].
  - exact (Hnth 0 track_Se eq_refl).
  - exact (Hnth 1 track_Fi eq_refl).
  - exact (Hnth 2 track_norm eq_refl).
Defined.

Lemma drag_first_term E track :
  is_track track -> Composer.drag_first E track = Ok (drag_term E 0 track).
Proof.
  intros H. track_fields H. unfold Composer.drag_first, drag_term.
  rewrite (field_of _ _ _ Hm), (field_of _ _ _ Hf), Hm, Hf. reflexivity.
Qed.

Lemma drag_next_term E track k :
  is_track track -> Composer.drag_next E track = Ok (drag_term E (S k) track).
Proof.
  intros H. track_fields H. unfold Composer.drag_next, drag_term.
  rewrite (field_of _ _ _ Hm), (field_of _ _ _ Hf), Hm, Hf. reflexivity.
Qed.

(** X7. The master equation of a Drag schedule is the sum, inside
    '\int ( ) dt', of one term per track joined by ' + ': the first
    track of the score, whatever its mass, is the one that decays (its
    mass times e^{-lambda t}), and every later track grows (its mass
    times 1-e^{-lambda t}). *)
Theorem master_equation_drag (E : Env) (tracks : list pyval) :
  Forall is_track tracks ->
  exists terms,
    Composer.master_equation E (PStr "Drag") (PList tracks)
    = Ok ("$$ J(\theta) = \int (" ++ String.concat " + " terms ++ ") dt $$")
    /\ List.length terms = List.length tracks
    /\ forall i track, nth_error tracks i = Some track ->
         nth_error terms i
         = Some ("(" ++ py_str E (field track "mass") ++ " \cdot "
                 ++ (match i with 0 => "e^{-\lambda t}" | S _ => "(1-e^{-\lambda t})" end)
                 ++ ") \cdot [" ++ py_str E (field track "formula") ++ "]").
Proof.
  intros H. unfold Composer.master_equation.
  cbn [Composer.eq_str String.eqb Ascii.eqb Bool.eqb].
  unfold Composer.first_then_rest. cbn [py_len bind].
  destruct tracks as [| t0 tracks].
  - exists []. repeat split. intros [| i] track; discriminate.
  - inversion H as [| ? ? H0 Hrest]; subst.
    cbn [List.length Nat.ltb Nat.leb first_item rest_items tl bind].
    rewrite (drag_first_term E t0 H0). cbn [bind].
    rewrite (mapM_ok _ (drag_term E 1)).
    + cbn [bind]. eexists. split; [reflexivity |].
      split; [simpl; now rewrite length_map |].
      intros [| i] track; cbn [nth_error]; [now intros [= <-] |].
      intros Hi. rewrite nth_error_map, Hi. reflexivity.
    + eapply Forall_impl; [| exact Hrest]. intros t Ht. now apply drag_next_term.
Qed.

Lemma master_equation_drag_witness :
  exists terms,
    Composer.master_equation keyed_env (PStr "Drag") (PList [track_Fi; track_Se])
    = Ok ("$$ J(\theta) = \int (" ++ String.concat " + " terms ++ ") dt $$")
    /\ nth_error terms 0 = Some "(3 \cdot e^{-\lambda t}) \cdot [B]"
    /\ nth_error terms 1 = Some "(5 \cdot (1-e^{-\lambda t})) \cdot [A]".
Proof.
  destruct (master_equation_drag keyed_env [track_Fi; track_Se]
              (Forall_cons _ track_Fi_is_track (Forall_cons _ track_Se_is_track (Forall_nil _))))
    as (terms & Heq & _ & Hnth).
  exists terms. split; [exact Heq |]. split.
  - exact (Hnth 0 track_Fi eq_refl).
  - exact (Hnth 1 track_Se eq_refl).
Defined.

(** X8. Only the three names 'Orbital', 'Drag' and 'Adversarial',
    spelled exactly so, select an equation of their own: for every
    other schedule_logic, 'Stochastic Switching' and values that are not
    strings included, the master equation is that of 'Linear', the
    plain sum of the weighted formulas joined by ' + '. *)
Theorem master_equation_default (E : Env) (logic : pyval) (tracks : list pyval) :
  (forall name, logic = PStr name ->
     name <> "Orbital" /\ name <> "Drag" /\ name <> "Adversarial") ->
  Forall is_track tracks ->
  Composer.master_equation E logic (PList tracks)
  = Ok ("$$ J(\theta) = " ++ String.concat " + " (map (weighted E) tracks) ++ " $$")
  /\ Composer.master_equation E logic (PList tracks)
     = Composer.master_equation E (PStr "Linear") (PList tracks).
Proof.
  intros Hname Htracks.
  assert (Hlinear : forall l,
            Composer.eq_str l "Orbital" = false -> Composer.eq_str l "Drag" = false ->
            Composer.eq_str l "Adversarial" = false ->
            Composer.master_equation E l (PList tracks)
            = Ok ("$$ J(\theta) = " ++ String.concat " + " (map (weighted E) tracks) ++ " $$")).
  { intros l Ho Hd Ha. unfold Composer.master_equation. rewrite Ho, Hd, Ha.
    cbn [iterate bind]. rewrite (mapM_ok _ (weighted E)); [reflexivity |].
    eapply Forall_impl; [| exact Htracks]. intros t. apply linear_term_weighted. }
  assert (Hno : forall s, s <> "Orbital" /\ s <> "Drag" /\ s <> "Adversarial" ->
            Composer.eq_str (PStr s) "Orbital" = false
            /\ Composer.eq_str (PStr s) "Drag" = false
            /\ Composer.eq_str (PStr s) "Adversarial" = false).
  { intros s (Ho & Hd & Ha). cbn [Composer.eq_str].
    repeat split; now apply String.eqb_neq. }
  assert (Hlogic : Composer.master_equation E logic (PList tracks)
            = Ok ("$$ J(\theta) = " ++ String.concat " + " (map (weighted E) tracks) ++ " $$")).
  { destruct logic; try (apply Hlinear; reflexivity).
    destruct (Hno s (Hname s eq_refl)) as (Ho & Hd & Ha). now apply Hlinear. }
  split; [exact Hlogic |].
  rewrite Hlogic. symmetry. apply Hlinear; reflexivity.
Qed.

Lemma master_equation_default_witness :
  Composer.master_equation keyed_env (PStr "Stochastic Switching") (PList [track_Se; track_Fi])
  = Ok "$$ J(\theta) = 5 \cdot [A] + 3 \cdot [B] $$"
  /\ Composer.master_equation keyed_env (PStr "orbital") (PList [track_Se; track_Fi])
     = Ok "$$ J(\theta) = 5 \cdot [A] + 3 \cdot [B] $$"
  /\ Composer.master_equation keyed_env PNone (PList [track_Se; track_Fi])
     = Ok "$$ J(\theta) = 5 \cdot [A] + 3 \cdot [B] $$".
Proof.
  assert (Htracks : Forall is_track [track_Se; track_Fi])
    by exact (Forall_cons _ track_Se_is_track (Forall_cons _ track_Fi_is_track (Forall_nil _))).
  split; [| split].
  - refine (proj1 (master_equation_default keyed_env (PStr "Stochastic Switching")
                     [track_Se; track_Fi] _ Htracks)).
    intros name [= <-]. repeat split; discriminate.
  - refine (proj1 (master_equation_default keyed_env (PStr "orbital")
                     [track_Se; track_Fi] _ Htracks)).
    intros name [= <-]. repeat split; discriminate.
  - refine (proj1 (master_equation_default keyed_env PNone [track_Se; track_Fi] _ Htracks)).
    intros name [=].
Defined.

(** ** Tracks the renderer cannot read *)

Lemma mapM_raise {A B} (f : A -> result B) (good rest : list A) (bad : A) (e : exn) :
  Forall (fun a => exists b, f a = Ok b) good ->
  f bad = Raise e ->
  mapM f (good ++ bad :: rest) = Raise e.
Proof.
  intros Hgood Hbad. induction Hgood as [| a good [b Hb] _ IH]; cbn [app mapM].
  - now rewrite Hbad.
  - rewrite Hb. cbn [bind]. now rewrite IH.
Qed.

(** X9. [table_row] returns a row exactly for the tracks that are a dict
    with the fields voice, symbol and mass and a string formula.  Of
    any other track the formula is what it misses first: a dict without
    that key raises KeyError 'formula' even when other fields are
    missing too, a formula that is not a string raises AttributeError
    for 'replace', and a track that is a string raises the TypeError of
    indexing a string. *)
Theorem table_row_needs_track (E : Env) (track : pyval) :
  (is_track track <-> exists row, Composer.table_row E track = Ok row)
  /\ (forall fields, track = PDict fields -> dict_lookup fields "formula" = None ->
        Composer.table_row E track = Raise (mkExn KeyError "'formula'"))
  /\ (forall fields v, track = PDict fields -> dict_lookup fields "formula" = Some v ->
        (forall s, v <> PStr s) ->
        Composer.table_row E track
        = Raise (mkExn AttributeError
                   ("'" ++ type_name v ++ "' object has no attribute 'replace'")))
  /\ (forall s, track = PStr s ->
        Composer.table_row E track
        = Raise (mkExn TypeError "string indices must be integers, not 'str'")).
Proof.
  split; [split |].
  - intros H. exists (row_text E track). now apply table_row_text.
  - intros [row Hrow]. unfold Composer.table_row in Hrow. unfold is_track.
    destruct (getitem track "formula") as [formula |]; [| discriminate]. cbn [bind] in Hrow.
    destruct formula; try discriminate. cbn [replace_method bind] in Hrow.
    destruct (getitem track "voice") as [voice |]; [| discriminate]. cbn [bind] in Hrow.
    destruct (getitem track "symbol") as [symbol |]; [| discriminate]. cbn [bind] in Hrow.
    destruct (getitem track "mass") as [mass |]; [| discriminate].
    repeat eexists.
  - repeat split.
    + intros fields -> Hf. unfold Composer.table_row. cbn [getitem]. now rewrite Hf.
    + intros fields v -> Hf Hv. unfold Composer.table_row. cbn [getitem]. rewrite Hf.
      cbn [bind]. destruct v; try reflexivity. now destruct (Hv s).
    + intros s ->. reflexivity.
Qed.

Lemma table_row_needs_track_witness :
  Composer.table_row keyed_env (PDict [("voice", PStr "Se"); ("mass", PInt 7)])
  = Raise (mkExn KeyError "'formula'")
  /\ Composer.table_row keyed_env (PDict [("formula", PInt 3)])
     = Raise (mkExn AttributeError "'int' object has no attribute 'replace'")
  /\ Composer.table_row keyed_env (PStr "Se")
     = Raise (mkExn TypeError "string indices must be integers, not 'str'").
Proof.
  split; [| split].
  - exact (proj1 (proj2 (table_row_needs_track keyed_env
                           (PDict [("voice", PStr "Se"); ("mass", PInt 7)])))
             _ eq_refl eq_refl).
  - refine (proj1 (proj2 (proj2 (table_row_needs_track keyed_env (PDict [("formula", PInt 3)]))))
              [("formula", PInt 3)] (PInt 3) eq_refl eq_refl _).
    intros s [=].
  - exact (proj2 (proj2 (proj2 (table_row_needs_track keyed_env (PStr "Se")))) "Se" eq_refl).
Defined.

(** X10. [format_latex_report] reads the tracks in order and stops at
    the first it cannot read: when the tracks before it are well
    formed, the error of that track's row is the error of the whole
    report, whatever the schedule_logic and whatever follows it. *)
Theorem format_latex_report_first_bad_track (E : Env) (d : list (string * pyval))
    (good rest : list pyval) (bad : pyval) (e : exn) :
  dict_get d "score" (PList []) = PList (good ++ bad :: rest) ->
  Forall is_track good ->
  Composer.table_row E bad = Raise e ->
  Composer.format_latex_report E d = Raise e.
Proof.
  intros Hscore Hgood Hbad. unfold Composer.format_latex_report.
  rewrite Hscore. cbn [iterate bind].
  rewrite (mapM_raise (Composer.table_row E) good rest bad e); [reflexivity | | exact Hbad].
  eapply Forall_impl; [| exact Hgood]. intros t. apply table_row_returns.
Qed.

Lemma format_latex_report_first_bad_track_witness :
  Composer.format_latex_report keyed_env
    [("schedule_logic", PStr "Drag");
     ("score", PList [track_Se; PDict [("voice", PStr "Fi")]; PInt 4])]
  = Raise (mkExn KeyError "'formula'").
Proof.
  exact (format_latex_report_first_bad_track keyed_env
           [("schedule_logic", PStr "Drag");
            ("score", PList [track_Se; PDict [("voice", PStr "Fi")]; PInt 4])]
           [track_Se] [PInt 4] (PDict [("voice", PStr "Fi")]) (mkExn KeyError "'formula'")
           eq_refl (Forall_cons _ track_Se_is_track (Forall_nil _)) eq_refl).
Defined.

Lemma master_equation_nothing E logic score :
  py_len score = Ok 0 -> iterate score = Ok [] ->
  Composer.master_equation E logic score = Ok ("$$ J(\theta) = " ++ skeleton logic ++ " $$").
Proof.
  intros Hlen Hiter. unfold Composer.master_equation, skeleton, Composer.first_then_rest.
  rewrite Hlen, Hiter.
  destruct (Composer.eq_str logic "Orbital"); [reflexivity |].
  destruct (Composer.eq_str logic "Drag"); [reflexivity |].
  destruct (Composer.eq_str logic "Adversarial"); reflexivity.
Qed.

Lemma format_latex_report_no_track E d :
  py_len (dict_get d "score" (PList [])) = Ok 0 ->
  iterate (dict_get d "score" (PList [])) = Ok [] ->
  Composer.format_latex_report E d
  = Ok (empty_report E (dict_get d "schedule_logic" (PStr "Linear"))
          (dict_get d "math_narrative" (PStr ""))
          (dict_get d "global_frequency" (PFloat "1.0"))).
Proof.
  intros Hlen Hiter. unfold Composer.format_latex_report.
  rewrite Hiter. cbn [bind mapM].
  rewrite (master_equation_nothing E _ _ Hlen Hiter). cbn [bind].
  unfold empty_report. cbn [String.concat]. now rewrite append_nil_r, !append_assoc.
Qed.

(** X11. The score is only iterated, never checked to be a list: a score
    that is null, a number or a boolean makes [format_latex_report]
    raise the TypeError of iterating it, a non-empty string that of
    indexing a string, while an empty string or an empty object passes
    for an empty score. *)
Theorem format_latex_report_score_type (E : Env) (d : list (string * pyval)) :
  (forall e, iterate (dict_get d "score" (PList [])) = Raise e ->
     Composer.format_latex_report E d = Raise e
     /\ e = mkExn TypeError
              ("'" ++ type_name (dict_get d "score" (PList [])) ++ "' object is not iterable"))
  /\ (forall c s, dict_get d "score" (PList []) = PStr (String c s) ->
        Composer.format_latex_report E d
        = Raise (mkExn TypeError "string indices must be integers, not 'str'"))
  /\ (dict_get d "score" (PList []) = PStr "" \/ dict_get d "score" (PList []) = PDict [] ->
      Composer.format_latex_report E d
      = Ok (empty_report E (dict_get d "schedule_logic" (PStr "Linear"))
              (dict_get d "math_narrative" (PStr ""))
              (dict_get d "global_frequency" (PFloat "1.0")))).
Proof.
  repeat split.
  - unfold Composer.format_latex_report. rewrite H. reflexivity.
  - destruct (dict_get d "score" (PList [])); cbn [iterate] in H; try discriminate;
      now injection H as <-.
  - intros c s Hscore. unfold Composer.format_latex_report. rewrite Hscore. reflexivity.
  - intros Hscore.
    apply format_latex_report_no_track; destruct Hscore as [-> | ->]; reflexivity.
Qed.

Lemma format_latex_report_score_type_witness :
  Composer.format_latex_report keyed_env [("score", PNone)]
  = Raise (mkExn TypeError "'NoneType' object is not iterable")
  /\ Composer.format_latex_report keyed_env [("score", PStr "5Se")]
     = Raise (mkExn TypeError "string indices must be integers, not 'str'")
  /\ Composer.format_latex_report keyed_env [("schedule_logic", PStr "Drag"); ("score", PDict [])]
     = Ok (empty_report keyed_env (PStr "Drag") (PStr "") (PFloat "1.0")).
Proof.
  split; [| split].
  - exact (proj1 (proj1 (format_latex_report_score_type keyed_env [("score", PNone)])
                    _ eq_refl)).
  - exact (proj1 (proj2 (format_latex_report_score_type keyed_env [("score", PStr "5Se")]))
             "5"%char "Se" eq_refl).
  - exact (proj2 (proj2 (format_latex_report_score_type keyed_env
                           [("schedule_logic", PStr "Drag"); ("score", PDict [])]))
             (or_intror eq_refl)).
Defined.

(** X12. A key the schedule lacks is read as its default ('Linear', an
    empty narrative, frequency 1.0, an empty score): binding the key to
    its default changes nothing in what [format_latex_report] returns,
    and the empty object is rendered, not refused, as the empty Linear
    report. *)
Theorem format_latex_report_defaults (E : Env) (d : list (string * pyval))
    (key : string) (v : pyval) :
  In (key, v) defaults ->
  dict_lookup d key = None ->
  Composer.format_latex_report E ((key, v) :: d) = Composer.format_latex_report E d
  /\ Composer.format_latex_report E []
     = Ok (empty_report E (PStr "Linear") (PStr "") (PFloat "1.0")).
Proof.
  intros Hin Hnone. split; [| reflexivity].
  assert (Hget : forall k dflt, In (k, dflt) defaults ->
            dict_get ((key, v) :: d) k dflt = dict_get d k dflt).
  { intros k dflt Hk. unfold dict_get. cbn [dict_lookup].
    destruct (String.eqb_spec key k) as [<- | Hne]; [| reflexivity].
    rewrite Hnone.
    destruct Hin as [[= <- <-] | [[= <- <-] | [[= <- <-] | [[= <- <-] | []]]]];
      destruct Hk as [[= <-] | [[= <-] | [[= <-] | [[= <-] | []]]]]; reflexivity. }
  unfold Composer.format_latex_report.
  rewrite !Hget by (cbn; tauto). reflexivity.
Qed.

Lemma format_latex_report_defaults_witness :
  Composer.format_latex_report keyed_env [("score", PList []); ("note", PStr "x")]
  = Composer.format_latex_report keyed_env [("note", PStr "x")].
Proof.
  exact (proj1 (format_latex_report_defaults keyed_env [("note", PStr "x")] "score" (PList [])
                  ltac:(cbn; tauto) eq_refl)).
Defined.

(** ** Stage 2 on an answer that is no JSON *)

(** X13. When [json.loads] rejects the stage-2 answer, stage 2 does not
    fail: [compose] returns the fallback schedule, which
    [format_latex_report] renders as an empty Linear report whose
    narrative is 'Error: ' followed by the decoder's message, so the
    report slot of [process_pattern] holds that report, cleaned, and
    not an 'Error L2' message, and stage 3 is run on the fallback
    schedule. *)
Theorem parse_failure_renders_fallback (E : Env) (model_name algebraic_expr : string)
    (composer : chat_model) (raw : string) (e : exn) :
  Composer.init E model_name = Ok composer ->
  invoke E L2 composer algebraic_expr = Ok raw ->
  json_loads E (Composer.unfence (Composition.strip_think_tags raw)) = Raise e ->
  exn_cls e = JSONDecodeError ->
  let fallback := Composer.degraded e (Composer.unfence (Composition.strip_think_tags raw)) in
  let report :=
    clean_latex_formatting
      (empty_report E (PStr "Linear") (PStr ("Error: " ++ exn_str e)) (PFloat "1.0")) in
  layer2 E model_name algebraic_expr = Ok (fallback, report)
  /\ forall text,
       ~ blank text -> credential_missing E model_name = false ->
       layer1 E text model_name = Ok algebraic_expr ->
       process_pattern E text model_name
       = match layer3 E model_name fallback with
         | Ok code => Ok (algebraic_expr, report, code)
         | Raise e3 => Ok (algebraic_expr, report, "Error L3: " ++ exn_str e3)
         end.
Proof.
  intros Hinit Hinvoke Hloads Hcls fallback report.
  assert (H2 : layer2 E model_name algebraic_expr = Ok (fallback, report)).
  { unfold layer2, Composer.compose, Composer._parse_json_safely.
    rewrite Hinit. cbn [bind]. rewrite Hinvoke. cbn [bind]. rewrite Hloads, Hcls.
    cbn [Composer.degraded bind].
    rewrite format_latex_report_no_track by reflexivity. reflexivity. }
  split; [exact H2 |].
  intros text Hb Hc H1. rewrite (process_pattern_stages E text model_name Hb Hc).
  unfold run_stages. rewrite H1. cbn [try_except]. rewrite H2. cbn [try_except].
  now destruct (layer3 E model_name fallback).
Qed.

Lemma parse_failure_renders_fallback_witness :
  process_pattern (scripted None answers_stage2_prose []) "I feel calm" "llama3"
  = Ok ("7Se ~ Ti",
        "### Cognitive Schedule: **Linear**" ++ nl
        ++ "*Error: Expecting value: line 1 column 1 (char 0)* (Global Accel: $\omega=1.0$)"
        ++ nl ++ nl
        ++ "| Function | Objective Class | Math Form | Mass ($m$) |" ++ nl
        ++ "| :--- | :--- | :--- | :---: |"
        ++ nl ++ nl ++ "**Intercalation Dynamics:**" ++ nl ++ nl ++ "$$ J(\theta) =  $$",
        "import torch").
Proof.
  exact (proj2 (parse_failure_renders_fallback (scripted None answers_stage2_prose [])
                  "llama3" "7Se ~ Ti" (ChatOllama "llama3" "0.8")
                  "I cannot map this expression."
                  (mkExn JSONDecodeError "Expecting value: line 1 column 1 (char 0)")
                  eq_refl eq_refl eq_refl eq_refl)
           "I feel calm" (not_blank_strip "I feel calm" ltac:(discriminate)) eq_refl eq_refl).
Defined.

(** ** Fences around an answer *)

Lemma startswith_longer s p q :
  PyStr.startswith s p = false -> PyStr.startswith s (p ++ q) = false.
Proof.
  unfold PyStr.startswith. revert s. induction p as [| a p IH]; intros s; [discriminate |].
  destruct s as [| b s]; [reflexivity |]. cbn [String.append PyStr.after_prefix].
  destruct (Ascii.eqb a b); [apply IH | reflexivity].
Qed.

Lemma strip_between_marks (a z : ascii) (x : string) :
  PyStr.isspace a = false -> PyStr.isspace z = false ->
  PyStr.strip (String a (x ++ String z "")) = String a (x ++ String z "").
Proof.
  intros Ha Hz. unfold PyStr.strip. rewrite (lstrip_fixed a _ Ha).
  change (String a (x ++ String z "")) with (String a x ++ String z "").
  now apply rstrip_last.
Qed.

Lemma strip_fence_pair x : PyStr.strip ("```" ++ x ++ "```") = "```" ++ x ++ "```".
Proof.
  replace ("```" ++ x ++ "```") with (String "`" (("``" ++ x ++ "``") ++ "`"))
    by (cbn [String.append]; now rewrite !append_assoc).
  now apply strip_between_marks.
Qed.

(** X14. Apart from the block tagged json, [_parse_json_safely] decodes
    an answer with no fence at either end after stripping the white
    space around it and nothing more, and decodes the body of a block
    between two untagged fences; stripping the answer beforehand
    changes nothing. *)
Theorem unfence_plain_and_untagged (E : Env) (text : string) :
  (PyStr.startswith (PyStr.strip text) "```" = false ->
   PyStr.endswith (PyStr.strip text) "```" = false ->
   Composer.unfence text = PyStr.strip text
   /\ forall v, json_loads E (PyStr.strip text) = Ok v ->
        Composer._parse_json_safely E text = Ok v)
  /\ (PyStr.startswith text "json" = false ->
      Composer.unfence ("```" ++ text ++ "```") = text
      /\ forall v, json_loads E text = Ok v ->
           Composer._parse_json_safely E ("```" ++ text ++ "```") = Ok v)
  /\ Composer.unfence (PyStr.strip text) = Composer.unfence text.
Proof.
  split; [| split].
  - intros Hs He.
    assert (Hu : Composer.unfence text = PyStr.strip text).
    { assert (Hj : PyStr.startswith (PyStr.strip text) "```json" = false)
        by exact (startswith_longer (PyStr.strip text) "```" "json" Hs).
      unfold Composer.unfence. now rewrite Hj, Hs, He. }
    split; [exact Hu |].
    intros v Hv. unfold Composer._parse_json_safely. now rewrite Hu, Hv.
  - intros Hj.
    assert (Hu : Composer.unfence ("```" ++ text ++ "```") = text).
    { unfold Composer.unfence. rewrite strip_fence_pair.
      assert (Htag : PyStr.startswith ("```" ++ text ++ "```") "```json" = false).
      { change (PyStr.startswith ("```" ++ text ++ "```") "```json")
          with (PyStr.startswith (text ++ "```") "json").
        destruct (PyStr.startswith (text ++ "```") "json") eqn:Hp; [| reflexivity].
        exfalso. unfold PyStr.startswith in Hp, Hj.
        destruct (PyStr.after_prefix "json" text) eqn:Ht; [discriminate |].
        apply (prefix_before_char "json" "`" eq_refl text "``"); [| exact Ht].
        destruct (PyStr.after_prefix "json" (text ++ "```")); [discriminate | discriminate]. }
      rewrite Htag.
      change (PyStr.startswith ("```" ++ text ++ "```") "```") with true. cbn iota.
      change (PyStr.drop 3 ("```" ++ text ++ "```")) with (text ++ "```").
      rewrite endswith_append. apply (drop_last_append text "```"). }
    split; [exact Hu |].
    intros v Hv. unfold Composer._parse_json_safely. now rewrite Hu, Hv.
  - unfold Composer.unfence. now rewrite strip_idem.
Qed.

Lemma unfence_plain_and_untagged_witness :
  Composer.unfence (nl ++ "  {}  " ++ nl) = "{}"
  /\ Composer.unfence ("```" ++ nl ++ "{}" ++ nl ++ "```") = nl ++ "{}" ++ nl.
Proof.
  split.
  - exact (proj1 (proj1 (unfence_plain_and_untagged keyed_env (nl ++ "  {}  " ++ nl))
                    eq_refl eq_refl)).
  - exact (proj1 (proj1 (proj2 (unfence_plain_and_untagged keyed_env (nl ++ "{}" ++ nl)))
                    eq_refl)).
Defined.

(** X15. [_clean_output] returns the stripped body of a block fenced
    with the tag python or with no tag, and what it returns is always
    stripped; but [generate_code] does not apply it: the stage-3 answer
    is returned as the model wrote it, a fenced answer with its
    fences. *)
Theorem clean_output_not_applied (E : Env) (body : string) :
  CodeGenerator._clean_output ("```python" ++ body ++ "```") = PyStr.strip body
  /\ (PyStr.startswith body "python" = false ->
      CodeGenerator._clean_output ("```" ++ body ++ "```") = PyStr.strip body)
  /\ (forall text,
        PyStr.strip (CodeGenerator._clean_output text) = CodeGenerator._clean_output text)
  /\ (forall coder composition,
        invoke E L3 coder (json_dumps E composition) = Ok ("```python" ++ body ++ "```") ->
        CodeGenerator.generate_code E coder composition
        = Ok ("```python" ++ body ++ "```")).
Proof.
  split; [| split; [| split]].
  - unfold CodeGenerator._clean_output.
    change ("```python" ++ body ++ "```") with ("```" ++ ("python" ++ body) ++ "```").
    rewrite strip_fence_pair.
    change (PyStr.startswith ("```" ++ ("python" ++ body) ++ "```") "```python") with true.
    cbn iota.
    change (PyStr.drop 9 ("```" ++ ("python" ++ body) ++ "```")) with (body ++ "```").
    rewrite endswith_append.
    change (PyStr.drop_last 3 (body ++ "```"))
      with (PyStr.drop_last (String.length "```") (body ++ "```")).
    now rewrite drop_last_append.
  - intros Hp. unfold CodeGenerator._clean_output. rewrite strip_fence_pair.
    assert (Htag : PyStr.startswith ("```" ++ body ++ "```") "```python" = false).
    { change (PyStr.startswith ("```" ++ body ++ "```") "```python")
        with (PyStr.startswith (body ++ "```") "python").
      destruct (PyStr.startswith (body ++ "```") "python") eqn:Hq; [| reflexivity].
      exfalso. unfold PyStr.startswith in Hq, Hp.
      destruct (PyStr.after_prefix "python" body) eqn:Ht; [discriminate |].
      apply (prefix_before_char "python" "`" eq_refl body "``"); [| exact Ht].
      destruct (PyStr.after_prefix "python" (body ++ "```")); [discriminate | discriminate]. }
    rewrite Htag.
    change (PyStr.startswith ("```" ++ body ++ "```") "```") with true. cbn iota.
    change (PyStr.drop 3 ("```" ++ body ++ "```")) with (body ++ "```").
    rewrite endswith_append.
    change (PyStr.drop_last 3 (body ++ "```"))
      with (PyStr.drop_last (String.length "```") (body ++ "```")).
    now rewrite drop_last_append.
  - intros text. unfold CodeGenerator._clean_output. apply strip_idem.
  - intros coder composition Hinvoke. unfold CodeGenerator.generate_code. now rewrite Hinvoke.
Qed.

Lemma clean_output_not_applied_witness :
  CodeGenerator._clean_output ("```" ++ nl ++ "import torch" ++ nl ++ "```") = "import torch"
  /\ CodeGenerator.generate_code (scripted None (fun _ => Ok fenced_code) [])
       (ChatOllama "llama3" "0.8") PNone
     = Ok fenced_code.
Proof.
  split.
  - exact (proj1 (proj2 (clean_output_not_applied keyed_env (nl ++ "import torch" ++ nl)))
             eq_refl).
  - exact (proj2 (proj2 (proj2 (clean_output_not_applied
                                  (scripted None (fun _ => Ok fenced_code) [])
                                  (nl ++ "import torch" ++ nl))))
             (ChatOllama "llama3" "0.8") PNone eq_refl).
Defined.

(** ** Think markers that are not a span *)

Lemma after_first_none p s : PyStr.contains p s = false -> after_first p s = None.
Proof.
  induction s as [| c s IH]; rewrite contains_unfold, after_first_unfold;
    intros H; apply orb_false_iff in H; destruct H as [Hs Hc];
    rewrite (startswith_false _ _ Hs); [reflexivity | now apply IH].
Qed.

Lemma contains_tail p c s : PyStr.contains p (String c s) = false -> PyStr.contains p s = false.
Proof. rewrite contains_unfold. intros H. now apply orb_false_iff in H. Qed.

Lemma search_think_none s :
  PyStr.contains "<think>" s = false \/ PyStr.contains "</think>" s = false ->
  Re.search think_pattern s = None.
Proof.
  assert (Hhere : forall t,
            PyStr.contains "<think>" t = false \/ PyStr.contains "</think>" t = false ->
            Re.rmatch think_pattern t = None).
  { intros t Ht. rewrite think_match.
    destruct (PyStr.after_prefix "<think>" t) as [inner |] eqn:Hp; [| reflexivity].
    apply after_prefix_spec in Hp. subst t.
    destruct Ht as [Ht | Ht].
    - rewrite contains_unfold in Ht. apply orb_false_iff in Ht. destruct Ht as [Ht _].
      unfold PyStr.startswith in Ht. now rewrite after_prefix_append in Ht.
    - apply contains_append_false in Ht. destruct Ht as [_ Ht].
      now rewrite (after_first_none _ _ Ht). }
  induction s as [| c s IH]; intros H; rewrite search_unfold, (Hhere _ H); [reflexivity |].
  apply IH. destruct H as [H | H]; [left | right]; exact (contains_tail _ _ _ H).
Qed.

(** X16. [strip_think_tags] never lengthens a text, and it removes
    something only where both markers stand: a text without the opening
    marker '<think>' and a text without the closing marker '</think>',
    such as an answer cut off inside its reasoning, are returned as they
    are, by the function of [app.py] and by that of
    [composition.py]. *)
Theorem strip_think_tags_needs_both_markers (s : string) :
  String.length (strip_think_tags s) <= String.length s
  /\ (PyStr.contains "<think>" s = false \/ PyStr.contains "</think>" s = false ->
      strip_think_tags s = s /\ Composition.strip_think_tags s = s).
Proof.
  split.
  - rewrite strip_think_tags_same. unfold Composition.strip_think_tags, Re.sub.
    apply sub_delete_length.
  - intros H. rewrite strip_think_tags_same. split;
      unfold Composition.strip_think_tags; now apply sub_no_match, search_think_none.
Qed.

Lemma strip_think_tags_needs_both_markers_witness :
  strip_think_tags "<think>the user feels" = "<think>the user feels"
  /\ strip_think_tags "<THINK>x</THINK>7Se" = "<THINK>x</THINK>7Se".
Proof.
  split.
  - exact (proj1 (proj2 (strip_think_tags_needs_both_markers "<think>the user feels")
                    (or_intror eq_refl))).
  - exact (proj1 (proj2 (strip_think_tags_needs_both_markers "<THINK>x</THINK>7Se")
                    (or_introl eq_refl))).
Defined.

(** ** The pipeline when every stage answers *)

Lemma get_model_credential E model_name temperature client :
  ModelFactory.get_model E model_name temperature = Ok client ->
  credential_missing E model_name = false.
Proof.
  unfold ModelFactory.get_model, credential_missing, env_set.
  destruct (PyStr.startswith (PyStr.lower model_name) "gemini"); [| reflexivity].
  destruct (getenv E "GEMINI_API_KEY") as [[| c k] |]; now try discriminate.
Qed.

(** X17. When the text is not blank, the client can be built, the three
    invocations return and the stage-2 answer decodes to an object that
    [format_latex_report] renders, [process_pattern] returns the three
    results, each cleaned: the stage-1 answer without its think spans,
    the report through [clean_latex_formatting], the stage-3 answer
    without its think spans.  The data flows forward only: stage 2 is
    asked about the stage-1 answer without its think spans, stage 3
    about the serialisation of the decoded object, not about the text
    stage 2 wrote. *)
Theorem process_pattern_success (E : Env) (text model_name : string) (client : chat_model)
    (out1 raw2 report out3 : string) (d : list (string * pyval)) :
  ~ blank text ->
  ModelFactory.get_model E model_name "0.8" = Ok client ->
  invoke E L1 client text = Ok out1 ->
  invoke E L2 client (strip_think_tags out1) = Ok raw2 ->
  json_loads E (Composer.unfence (Composition.strip_think_tags raw2)) = Ok (PDict d) ->
  Composer.format_latex_report E d = Ok report ->
  invoke E L3 client (json_dumps E (PDict d)) = Ok out3 ->
  process_pattern E text model_name
  = Ok (strip_think_tags out1, clean_latex_formatting report, strip_think_tags out3).
Proof.
  intros Hb Hclient H1 H2 Hloads Hreport H3.
  rewrite (process_pattern_stages E text model_name Hb
             (get_model_credential E model_name "0.8" client Hclient)).
  unfold run_stages, layer1, layer2, layer3, AlgebraAnalyst.init, AlgebraAnalyst.analyze,
    Composer.init, Composer.compose, Composer._parse_json_safely,
    CodeGenerator.init, CodeGenerator.generate_code.
  rewrite Hclient. cbn [bind]. rewrite H1. cbn [bind try_except].
  rewrite H2. cbn [bind]. rewrite Hloads. cbn [bind]. rewrite Hreport. cbn [bind try_except].
  rewrite H3. reflexivity.
Qed.

Lemma process_pattern_success_witness :
  process_pattern thinking_env "I feel torn" "llama3"
  = Ok ("5Se ~ 3Fi",
        "### Cognitive Schedule: **Orbital**" ++ nl
        ++ "** (Global Accel: $\omega=1.0$)" ++ nl ++ nl
        ++ "| Function | Objective Class | Math Form | Mass ($m$) |" ++ nl
        ++ "| :--- | :--- | :--- | :---: |" ++ nl
        ++ "| Voice 1 (Se) | `ExplorationObjective` | $A$ | 5 |" ++ nl
        ++ "| Voice 2 (Fi) | `SelectionObjective` | $B$ | 3 |"
        ++ nl ++ nl ++ "**Intercalation Dynamics:**" ++ nl ++ nl
        ++ "$$ J(\theta) = \sum_{t} (5 \cdot \sin(\omega t) \cdot [A] + 3 \cdot \cos(\omega t) \cdot [B]) $$",
        fenced_code).
Proof.
  exact (process_pattern_success thinking_env "I feel torn" "llama3" (ChatOllama "llama3" "0.8")
           "<think>two voices</think>5Se ~ 3Fi" "<think>orbit</think>{schedule}"
           _ ("<think>loss</think>" ++ fenced_code)
           [("schedule_logic", PStr "Orbital"); ("score", PList [track_Se; track_Fi])]
           (not_blank_strip "I feel torn" ltac:(discriminate))
           eq_refl eq_refl eq_refl eq_refl eq_refl eq_refl).
Defined.

(** ** The report of a schedule, cleaned *)

(** X18. The report of a schedule whose tracks are well formed always
    holds the heading, so [clean_latex_formatting] always rewrites it
    around the heading: what stands before the heading, stripped, a
    blank line, the heading in its normal form, a blank line, and the
    rest as a display-math section, which starts with '$$' or '\[' and
    holds no asterisk. *)
Theorem cleaned_report_has_equation_section (E : Env) (d : list (string * pyval))
    (tracks : list pyval) :
  dict_get d "score" (PList []) = PList tracks ->
  Forall is_track tracks ->
  exists raw before body,
    Composer.format_latex_report E d = Ok raw
    /\ find_heading (fix_brackets (strip_fences raw)) = Some (before, body)
    /\ clean_latex_formatting raw
       = PyStr.strip before ++ nl ++ nl ++ "**Intercalation Dynamics:**" ++ nl ++ nl
         ++ equation_section body
    /\ lacks "*" (equation_section body) = true
    /\ PyStr.startswith (equation_section body) "$$"
       || PyStr.startswith (equation_section body) "\[" = true.
Proof.
  intros Hscore Htracks.
  destruct (master_equation_returns E (dict_get d "schedule_logic" (PStr "Linear"))
              tracks Htracks) as (equation & Heq & _).
  pose proof (format_latex_report_rendered E d tracks _ Hscore Htracks Heq) as Hraw.
  match type of Hraw with _ = Ok ?r => set (raw := r) in * end.
  assert (Hne : raw <> "") by (unfold raw, Composer.report_head; discriminate).
  assert (Hocc : occurs_ci heading raw = true).
  { unfold raw. rewrite !append_assoc.
    apply occurs_ci_behind, occurs_ci_behind, occurs_ci_behind.
    apply (occurs_ci_behind heading "**"). rewrite occurs_ci_unfold. reflexivity. }
  pose proof (occurs_ci_find_heading _ (occurs_ci_rewritten raw Hocc)) as Hfind.
  destruct (find_heading (fix_brackets (strip_fences raw))) as [[before body] |] eqn:Hf;
    [| congruence].
  exists raw, before, body. split; [exact Hraw |]. split; [exact Hf |].
  split; [| apply equation_section_display].
  rewrite (clean_latex_formatting_find raw Hne), Hf. reflexivity.
Qed.

Lemma cleaned_report_has_equation_section_witness :
  exists raw before body,
    Composer.format_latex_report keyed_env
      [("schedule_logic", PStr "Adversarial"); ("score", PList [track_Se; track_Fi])]
    = Ok raw
    /\ find_heading (fix_brackets (strip_fences raw)) = Some (before, body)
    /\ clean_latex_formatting raw
       = PyStr.strip before ++ nl ++ nl ++ "**Intercalation Dynamics:**" ++ nl ++ nl
         ++ equation_section body
    /\ lacks "*" (equation_section body) = true
    /\ PyStr.startswith (equation_section body) "$$"
       || PyStr.startswith (equation_section body) "\[" = true.
Proof.
  exact (cleaned_report_has_equation_section keyed_env
           [("schedule_logic", PStr "Adversarial"); ("score", PList [track_Se; track_Fi])]
           [track_Se; track_Fi] eq_refl
           (Forall_cons _ track_Se_is_track (Forall_cons _ track_Fi_is_track (Forall_nil _)))).
Defined.

(** ** Inline formulas between backquotes *)

Lemma one_of_dollar c : Re.one_of "$" c = Ascii.eqb c "$".
Proof.
  unfold Re.one_of. cbn [PyStr.contains]. rewrite startswith_cons, startswith_nil_r.
  cbn [orb]. now rewrite andb_true_r, orb_false_r.
Qed.

Lemma inline_math_close rest :
  Re.rmatch [Re.PlusGreedy (Re.one_of "$"); Re.Mark; Re.Lit "`"] ("$`" ++ rest)
  = Some (["`" ++ rest], rest).
Proof. reflexivity. Qed.

Lemma inline_math_body body rest :
  lacks "$" body = true -> all_of Re.dot body = true ->
  Re.lazy Re.dot (Re.rmatch [Re.PlusGreedy (Re.one_of "$"); Re.Mark; Re.Lit "`"])
    (body ++ "$`" ++ rest)
  = Some (["`" ++ rest], rest).
Proof.
  induction body as [| c body IH]; intros Hl Hd; rewrite lazy_unfold.
  - change ("" ++ "$`" ++ rest) with ("$`" ++ rest). now rewrite inline_math_close.
  - cbn [lacks all_of] in Hl, Hd.
    apply andb_true_iff in Hl. destruct Hl as [Hc Hl]. apply negb_true_iff in Hc.
    apply andb_true_iff in Hd. destruct Hd as [Hdc Hd].
    cbn [String.append Re.rmatch]. rewrite one_of_dollar, Ascii.eqb_sym, Hc, Hdc.
    now apply IH.
Qed.

Lemma inline_math_match body rest :
  body <> "" -> lacks "$" body = true -> all_of Re.dot body = true ->
  Re.rmatch inline_math_pattern ("`$" ++ body ++ "$`" ++ rest)
  = Some (["$" ++ body ++ "$`" ++ rest; "`" ++ rest], rest).
Proof.
  intros Hne Hl Hd. destruct body as [| c body]; [congruence |].
  pose proof (inline_math_body (String c body) rest Hl Hd) as Hbody.
  cbn [lacks] in Hl. apply andb_true_iff in Hl. destruct Hl as [Hc _].
  apply negb_true_iff in Hc.
  unfold inline_math_pattern.
  change ("`$" ++ String c body ++ "$`" ++ rest)
    with (String "`" (String "$" (String c (body ++ "$`" ++ rest)))).
  change (String c body ++ "$`" ++ rest) with (String c (body ++ "$`" ++ rest)) in Hbody.
  cbn [Re.rmatch Re.eat PyStr.after_prefix]. rewrite Ascii.eqb_refl.
  rewrite !one_of_dollar, Ascii.eqb_refl. cbn [Re.greedy].
  rewrite one_of_dollar, Ascii.eqb_sym, Hc.
  cbn [Re.rmatch Re.eat PyStr.after_prefix] in Hbody. rewrite Hbody. reflexivity.
Qed.

Lemma sub_inline_before repl pre tail :
  lacks "`" pre = true ->
  Re.sub_go inline_math_pattern repl 0 (pre ++ tail)
  = pre ++ Re.sub_go inline_math_pattern repl 0 tail.
Proof.
  induction pre as [| c pre IH]; intros Hl; [reflexivity |].
  cbn [lacks] in Hl. apply andb_true_iff in Hl. destruct Hl as [Hc Hl].
  apply negb_true_iff in Hc. cbn [String.append].
  rewrite sub_go_cons_none; [now rewrite (IH Hl) |].
  unfold inline_math_pattern. cbn [Re.rmatch]. unfold Re.eat.
  cbn [PyStr.after_prefix]. now rewrite Hc.
Qed.

(** X19. In a text without the heading, [clean_latex_formatting] takes
    the backquotes off an inline formula: where, behind a text with no
    backquote, a formula stands between '`$' and '$`' on one line and
    holds no further '$', the two backquotes are removed and the formula
    with its dollar signs is kept, the rest of the text being treated
    in the same way.  (The text is taken to hold no fence and none of
    the bracket pairs that the first two steps rewrite.) *)
Theorem inline_math_unwrapped (pre body post : string) :
  lacks "`" pre = true ->
  body <> "" -> lacks "$" body = true -> all_of Re.dot body = true ->
  PyStr.contains "```" (pre ++ "`$" ++ body ++ "$`" ++ post) = false ->
  PyStr.contains "[$" (pre ++ "`$" ++ body ++ "$`" ++ post) = false ->
  PyStr.contains "$]" (pre ++ "`$" ++ body ++ "$`" ++ post) = false ->
  occurs_ci heading (pre ++ "`$" ++ body ++ "$`" ++ post) = false ->
  clean_latex_formatting (pre ++ "`$" ++ body ++ "$`" ++ post)
  = pre ++ "$" ++ body ++ "$" ++ Re.sub inline_math_pattern group1 post
  /\ (lacks "`" post = true ->
      clean_latex_formatting (pre ++ "`$" ++ body ++ "$`" ++ post)
      = pre ++ "$" ++ body ++ "$" ++ post).
Proof.
  intros Hpre Hne Hl Hd Hfence Hopen Hclose Hocc.
  set (text := pre ++ "`$" ++ body ++ "$`" ++ post) in *.
  assert (Hclean : clean_latex_formatting text
                   = pre ++ "$" ++ body ++ "$" ++ Re.sub inline_math_pattern group1 post).
  { assert (Htext : text <> "") by (unfold text; destruct pre; discriminate).
    rewrite (clean_latex_formatting_find text Htext).
    rewrite (rewriting_fixpoint text Hfence Hopen Hclose).
    destruct (find_heading text) as [[before found] |] eqn:Hf.
    { rewrite find_heading_occurs in Hocc; [discriminate | congruence]. }
    unfold Re.sub, text. rewrite (sub_inline_before _ _ _ Hpre). f_equal.
    replace ("`$" ++ body ++ "$`" ++ post) with (("`$" ++ body ++ "$`") ++ post)
      by (cbn [String.append]; now rewrite !append_assoc).
    rewrite (sub_go_match_append _ _ ("`$" ++ body ++ "$`") post
               ["$" ++ body ++ "$`" ++ post; "`" ++ post]).
    - assert (Hg : group1 ["$" ++ body ++ "$`" ++ post; "`" ++ post] = ("$" ++ body) ++ "$").
      { unfold group1, Re.between. cbn [nth].
        replace ("$" ++ body ++ "$`" ++ post) with ((("$" ++ body) ++ "$") ++ "`" ++ post)
          by (cbn [String.append]; now rewrite !append_assoc).
        rewrite (length_append (("$" ++ body) ++ "$") ("`" ++ post)).
        replace (String.length (("$" ++ body) ++ "$") + String.length ("`" ++ post)
                 - String.length ("`" ++ post))
          with (String.length (("$" ++ body) ++ "$")) by lia.
        apply take_length_append. }
      rewrite Hg. cbn [String.append]. now rewrite !append_assoc.
    - discriminate.
    - replace (("`$" ++ body ++ "$`") ++ post) with ("`$" ++ body ++ "$`" ++ post)
        by (cbn [String.append]; now rewrite !append_assoc).
      now apply inline_math_match. }
  split; [exact Hclean |].
  intros Hpost. rewrite Hclean.
  now rewrite (sub_no_match _ _ _ (inline_math_needs_backquote post Hpost)).
Qed.

Lemma inline_math_unwrapped_witness :
  clean_latex_formatting "mass `$m_1 + m_2$` of the voices"
  = "mass $m_1 + m_2$ of the voices".
Proof.
  exact (proj2 (inline_math_unwrapped "mass " "m_1 + m_2" " of the voices"
                  eq_refl ltac:(discriminate) eq_refl eq_refl eq_refl eq_refl eq_refl eq_refl)
           eq_refl).
Defined.
